(** * Wave: selector synthesis, step replay and capture state

    A shallow embedding of the page script [src/content/content.js] and of
    the replay orchestrator in [src/background/background.js], with the
    properties of the selector synthesizer ([generateSelector]), of the
    replay resolver ([waitForElement], [executeStep]), of the capture
    state machine ([startRecording], [stopRecording]) and of the
    orchestrator loop ([handlePlayWorkflow]).

    Strings are [string] values whose characters stand for the code units
    U+0000 to U+00FF; DOM objects are records carrying an identity; the
    services of the browser that the scripts call (the selector engine
    behind [querySelectorAll], URL parsing, message transport, timers) are
    fields of interface records, so that every statement holds for any
    browser behaviour unless a hypothesis says otherwise. *)

From Stdlib Require Import ZArith String Ascii List Bool Lia.
From Stdlib Require Import Numbers.DecimalString Numbers.DecimalPos.
From stdpp Require Import base tactics option gmap.
Import ListNotations.

Local Open Scope string_scope.
Local Open Scope bool_scope.

(** ** Thrown errors *)

(** A JavaScript completion: a value, or a thrown [Error] with its
    [message]. *)
Inductive result (A : Type) : Type :=
| Ok (a : A)
| Throw (message : string).
Arguments Ok {A} a.
Arguments Throw {A} message.

Definition rbind {A B} (r : result A) (k : A -> result B) : result B :=
  match r with
  | Ok a => k a
  | Throw m => Throw m
  end.

#[global] Instance result_ret : MRet result := fun A a => Ok a.
#[global] Instance result_bind : MBind result := fun A B k r => rbind r k.

(** Characters that a string literal cannot hold conveniently. *)
Definition dquote : ascii := Eval cbv in ascii_of_nat 34.
Definition backslash : ascii := Eval cbv in ascii_of_nat 92.
Definition q : string := String dquote EmptyString.

(** ** Characters and JavaScript string primitives *)

Module Js.

Definition code (c : ascii) : nat := nat_of_ascii c.

Definition between (lo hi : nat) (c : ascii) : bool :=
  (lo <=? code c)%nat && (code c <=? hi)%nat.

Definition isDigit (c : ascii) : bool := between 48 57 c.
Definition isLower (c : ascii) : bool := between 97 122 c.
Definition isUpper (c : ascii) : bool := between 65 90 c.
Definition isAlpha (c : ascii) : bool := isLower c || isUpper c.

(** [\w] *)
Definition isWord (c : ascii) : bool :=
  isAlpha c || isDigit c || Ascii.eqb c "_".

(** [[a-f0-9-]] under the [i] flag *)
Definition isHexOrDash (c : ascii) : bool :=
  between 97 102 c || between 65 70 c || isDigit c || Ascii.eqb c "-".

(** [[a-f0-9]] under the [i] flag *)
Definition isHex (c : ascii) : bool :=
  between 97 102 c || between 65 70 c || isDigit c.

(** [[a-z0-9]] under the [i] flag *)
Definition isAlnum (c : ascii) : bool := isAlpha c || isDigit c.

(** White space and line terminators removed by [String.prototype.trim]
    and matched by [\s], among the code units below U+0100. *)
Definition isSpace (c : ascii) : bool :=
  between 9 13 c || (code c =? 32)%nat || (code c =? 160)%nat.

(** Line terminators, which [.] does not match. *)
Definition isLineTerminator (c : ascii) : bool :=
  (code c =? 10)%nat || (code c =? 13)%nat.

Fixpoint all (p : ascii -> bool) (s : string) : bool :=
  match s with
  | EmptyString => true
  | String c r => p c && all p r
  end.

Fixpoint any (p : ascii -> bool) (s : string) : bool :=
  match s with
  | EmptyString => false
  | String c r => p c || any p r
  end.

Definition isEmpty (s : string) : bool :=
  match s with EmptyString => true | _ => false end.

(** A string is truthy when it is not empty. *)
Definition truthy (s : string) : bool := negb (isEmpty s).

Fixpoint trimStart (s : string) : string :=
  match s with
  | EmptyString => EmptyString
  | String c r => if isSpace c then trimStart r else s
  end.

Fixpoint trimEnd (s : string) : string :=
  match s with
  | EmptyString => EmptyString
  | String c r =>
      let r' := trimEnd r in
      if isSpace c && isEmpty r' then EmptyString else String c r'
  end.

(** [s.trim()] *)
Definition trim (s : string) : string := trimEnd (trimStart s).

Definition lowerChar (c : ascii) : ascii :=
  if isUpper c || (between 192 222 c && negb (code c =? 215)%nat)
  then ascii_of_nat (code c + 32) else c.

(** [s.toLowerCase()] *)
Fixpoint toLowerCase (s : string) : string :=
  match s with
  | EmptyString => EmptyString
  | String c r => String (lowerChar c) (toLowerCase r)
  end.

(** [s.startsWith(p)] *)
Definition startsWith (p s : string) : bool := String.prefix p s.

(** [s.split(sep)] for a one-character separator: never an empty array. *)
Fixpoint split (sep : ascii) (s : string) : list string :=
  match s with
  | EmptyString => [EmptyString]
  | String c r =>
      if Ascii.eqb c sep then EmptyString :: split sep r
      else match split sep r with
           | [] => [String c EmptyString]
           | p :: ps => String c p :: ps
           end
  end.

(** [s.trim().split(/\s+/)]: the maximal runs of non-space characters;
    when the trimmed string is empty the result is the one-element array
    holding the empty string. *)
Fixpoint words (s : string) : list string :=
  match s with
  | EmptyString => []
  | String c r =>
      if isSpace c then words r
      else match r with
           | EmptyString => [String c EmptyString]
           | String c' _ =>
               if isSpace c' then String c EmptyString :: words r
               else match words r with
                    | [] => [String c EmptyString]
                    | w :: ws => String c w :: ws
                    end
           end
  end.

Definition trimSplitSpaces (s : string) : list string :=
  match words s with
  | [] => [EmptyString]
  | ws => ws
  end.

(** [parts.join(sep)] *)
Fixpoint join (sep : string) (parts : list string) : string :=
  match parts with
  | [] => EmptyString
  | [p] => p
  | p :: ps => p ++ sep ++ join sep ps
  end.

(** The replacement of every double quote by a backslash and a double
    quote, as the text strategy of [generateSelector] does. *)
Fixpoint escapeQuotes (s : string) : string :=
  match s with
  | EmptyString => EmptyString
  | String c r =>
      if Ascii.eqb c dquote then String backslash (String dquote (escapeQuotes r))
      else String c (escapeQuotes r)
  end.

(** The replacement of every backslash followed by a double quote by a
    double quote, leftmost first, as [waitForElement] does. *)
Fixpoint unescapeQuotes (s : string) : string :=
  match s with
  | EmptyString => EmptyString
  | String c r =>
      match r with
      | String c' r' =>
          if Ascii.eqb c backslash && Ascii.eqb c' dquote
          then String dquote (unescapeQuotes r')
          else String c (unescapeQuotes r)
      | EmptyString => String c EmptyString
      end
  end.

(** Decimal rendering of a number in a template literal. *)
Definition ofNat (n : nat) : string := NilZero.string_of_uint (Nat.to_uint n).

Definition hexDigit (n : nat) : ascii :=
  ascii_of_nat (if (n <? 10)%nat then 48 + n else 87 + n).

(** [n.toString(16)] for a code unit below 256. *)
Definition toHex (n : nat) : string :=
  if (n <? 16)%nat then String (hexDigit n) EmptyString
  else String (hexDigit (n / 16)) (String (hexDigit (n mod 16)) EmptyString).

Definition escapeAsCodePoint (c : ascii) : string :=
  String backslash (toHex (code c) ++ " ").

(** One step of the serialisation of an identifier (CSSOM, [CSS.escape]):
    [i] is the index of [c], [dashFirst] tells whether the first
    character is a hyphen and [single] whether the string has length one.
    U+0000 becomes the replacement character, which lies outside the
    code units modelled here and is rendered by the code unit 0xFD. *)
Definition escapeChar (i : nat) (dashFirst single : bool) (c : ascii) : string :=
  if (code c =? 0)%nat then String (ascii_of_nat 253) EmptyString
  else if between 1 31 c || (code c =? 127)%nat then escapeAsCodePoint c
  else if (i =? 0)%nat && isDigit c then escapeAsCodePoint c
  else if (i =? 1)%nat && isDigit c && dashFirst then escapeAsCodePoint c
  else if (i =? 0)%nat && Ascii.eqb c "-" && single
       then String backslash (String c EmptyString)
  else if (128 <=? code c)%nat || Ascii.eqb c "-" || Ascii.eqb c "_"
          || isDigit c || isAlpha c
       then String c EmptyString
  else String backslash (String c EmptyString).

Fixpoint escapeFrom (i : nat) (dashFirst single : bool) (s : string) : string :=
  match s with
  | EmptyString => EmptyString
  | String c r => escapeChar i dashFirst single c ++ escapeFrom (S i) dashFirst single r
  end.

End Js.

(** [CSS.escape(value)] *)
Definition CSS_escape (value : string) : string :=
  let dashFirst := match value with String c _ => Ascii.eqb c "-" | _ => false end in
  Js.escapeFrom 0 dashFirst (String.length value =? 1)%nat value.

(** A value of a step field, as far as the scripts tell values apart.
    [JsNumber n] is the Number that the integer [n] denotes: [n] itself
    when its magnitude is below 2^53, and otherwise the Number nearest to
    it. *)
Inductive JsValue :=
| JsUndefined
| JsNull
| JsString (s : string)
| JsNumber (n : Z).

(** A recorded step; [selector] is [None] when the field is missing. *)
Record Step := {
  type : string;
  selector : option string;
  value : JsValue
}.

(** * The page script, [src/content/content.js] *)

Module Content.

(** ** Stability filters *)

(** The part of [/^:r[a-z0-9]+:$/i] after the two leading characters: one
    or more letters or digits and a final colon. *)
Fixpoint alnumsThenColon (seen : bool) (s : string) : bool :=
  match s with
  | EmptyString => false
  | String c r =>
      if Ascii.eqb c ":" then seen && Js.isEmpty r
      else Js.isAlnum c && alnumsThenColon true r
  end.

(** [/^[a-f0-9-]{36}$/i.test(id)] *)
Definition looksLikeUuid (id : string) : bool :=
  (String.length id =? 36)%nat && Js.all Js.isHexOrDash id.

(** [/^:r[a-z0-9]+:$/i.test(id)] *)
Definition looksReactGenerated (id : string) : bool :=
  match id with
  | String c0 (String c1 r) =>
      Ascii.eqb c0 ":" && (Ascii.eqb c1 "r" || Ascii.eqb c1 "R") && alnumsThenColon false r
  | _ => false
  end.

(** [/^\d+$/.test(id)] *)
Definition isAllDigits (id : string) : bool :=
  negb (Js.isEmpty id) && Js.all Js.isDigit id.

(** An object that a form gives for a name in place of its own property
    of that name: the listed control that has the name as its [name] or
    [id], or the collection of them when there are several.
    [objectString] is its string conversion ([[object HTMLInputElement]]
    for an input) and [objectLength] its [length] property (the number
    of options of a select, of members of a collection), [None] when it
    has none. *)
Record NamedObject := {
  objectString : string;
  objectLength : option nat
}.

(** What [element.id] evaluates to: the string that reflects the [id]
    attribute, or, on a form that names a control [id], that control. *)
Inductive IdValue :=
| IdText (s : string)
| IdControl (o : NamedObject).

(** The truthiness of the value: an object is truthy. *)
Definition truthyId (v : IdValue) : bool :=
  match v with
  | IdText s => Js.truthy s
  | IdControl _ => true
  end.

(** The string conversion of the value, which the regular expressions of
    [isStableId], [CSS.escape] and the template literals apply. *)
Definition idString (v : IdValue) : string :=
  match v with
  | IdText s => s
  | IdControl o => objectString o
  end.

(** [id.length > 50]; the comparison with [undefined] is false. *)
Definition lengthExceeds (bound : nat) (v : IdValue) : bool :=
  match v with
  | IdText s => (bound <? String.length s)%nat
  | IdControl o =>
      match objectLength o with
      | Some n => (bound <? n)%nat
      | None => false
      end
  end.

Definition isStableId (id : IdValue) : bool :=
  if looksLikeUuid (idString id) then false
  else if looksReactGenerated (idString id) then false
  else if isAllDigits (idString id) then false
  else if lengthExceeds 50 id then false
  else true.

(** Splits a string after its longest prefix of characters satisfying [p]. *)
Fixpoint span (p : ascii -> bool) (s : string) : string * string :=
  match s with
  | EmptyString => (EmptyString, EmptyString)
  | String c r =>
      if p c then let '(a, b) := span p r in (String c a, b)
      else (EmptyString, s)
  end.

(** [/^[a-z]{1,3}-[a-f0-9]{4,}$/i.test(cls)] *)
Definition looksCssModuleHash (cls : string) : bool :=
  let '(letters, rest) := span Js.isAlpha cls in
  (1 <=? String.length letters)%nat && (String.length letters <=? 3)%nat &&
  match rest with
  | String c hex => Ascii.eqb c "-" && (4 <=? String.length hex)%nat && Js.all Js.isHex hex
  | EmptyString => false
  end.

(** The prefix test of a regular expression under the [i] flag: the rest
    of [s] after [p], compared without regard to case. *)
Definition stripPrefixNoCase (p s : string) : option string :=
  if String.prefix p (Js.toLowerCase (substring 0 (String.length p) s))
  then Some (substring (String.length p) (String.length s - String.length p) s)
  else None.

(** [/^css-[a-z0-9]+$/i.test(cls)] *)
Definition looksEmotion (cls : string) : bool :=
  match stripPrefixNoCase "css-" cls with
  | Some rest => negb (Js.isEmpty rest) && Js.all Js.isAlnum rest
  | None => false
  end.

(** [/^sc-[a-zA-Z]+$/i.test(cls)] *)
Definition looksStyledComponent (cls : string) : bool :=
  match stripPrefixNoCase "sc-" cls with
  | Some rest => negb (Js.isEmpty rest) && Js.all Js.isAlpha rest
  | None => false
  end.

Definition isStableClass (cls : string) : bool :=
  if looksCssModuleHash cls then false
  else if looksEmotion cls then false
  else if looksStyledComponent cls then false
  else if (30 <? String.length cls)%nat then false
  else true.

(** ** The DOM as the page script sees it *)

(** The computed style properties the script reads. *)
Record Style := {
  display : string;
  visibility : string;
  opacity : string;
  cursor : string
}.

(** An element object.  [eid] is its identity (the script compares
    elements with [===]); [textContent] is the text of the element and of
    its descendants; [isSVG] tells that [className] is not a string;
    [namedId] is the control that a form gives for [id] in place of the
    reflected attribute, if it names one so; [hasStyle] tells that the
    element has a [style] property, which an element that is neither an
    HTML nor an SVG nor a MathML element lacks; the three [..Throws]
    fields say how the element reacts to calls that the script protects
    with [try]. *)
Record Element := {
  eid : nat;
  tagName : string;
  attributes : list (string * string);
  textContent : string;
  isSVG : bool;
  namedId : option NamedObject;
  hasStyle : bool;
  computedStyle : Style;
  hasOffsetParent : bool;
  isContentEditable : bool;
  scrollThrows : bool;
  clickThrows : bool;
  focusThrows : bool
}.

(** [element.getAttribute(name)]: [None] is [null]. *)
Fixpoint lookupAttr (name : string) (attrs : list (string * string)) : option string :=
  match attrs with
  | [] => None
  | (k, v) :: rest => if String.eqb k name then Some v else lookupAttr name rest
  end.

Definition getAttribute (e : Element) (name : string) : option string :=
  lookupAttr name (attributes e).

(** A reflected string property: the attribute, or the empty string. *)
Definition reflected (e : Element) (name : string) : string :=
  match getAttribute e name with Some v => v | None => EmptyString end.

(** [element.id] *)
Definition id (e : Element) : IdValue :=
  match namedId e with
  | Some control => IdControl control
  | None => IdText (reflected e "id")
  end.
Definition name (e : Element) : string := reflected e "name".
Definition placeholder (e : Element) : string := reflected e "placeholder".

(** [element.className && typeof element.className === 'string'] gives
    the class string to use, if any. *)
Definition classString (e : Element) : option string :=
  if isSVG e then None
  else if Js.truthy (reflected e "class") then Some (reflected e "class") else None.

(** A value that is [null] or empty is falsy. *)
Definition truthyAttr (v : option string) : bool :=
  match v with Some s => Js.truthy s | None => false end.

Definition sameElement (a b : Element) : bool := (eid a =? eid b)%nat.

(** The document with the services of the browser that the script calls.
    [querySelectorAll] throws on a selector the engine cannot parse;
    [urlPathname href] is [new URL(href, window.location.origin).pathname],
    which throws on an invalid URL. *)
Record Document := {
  querySelectorAll : string -> result (list Element);
  parentElement : Element -> option Element;
  children : Element -> list Element;
  urlPathname : string -> result string
}.

(** [document.querySelector(sel)]: the first element of
    [querySelectorAll(sel)], or [null]. *)
Definition querySelector (doc : Document) (sel : string) : result (option Element) :=
  l ← querySelectorAll doc sel; Ok (head l).

(** [document.querySelectorAll(sel).length === 1] *)
Definition matchesOne (doc : Document) (sel : string) : result bool :=
  l ← querySelectorAll doc sel; Ok (length l =? 1)%nat.

(** ** Selector synthesis *)

Definition attrSelector (prefix attr value : string) : string :=
  prefix ++ "[" ++ attr ++ "=" ++ q ++ CSS_escape value ++ q ++ "]".

Definition stableClasses (cls : string) : list string :=
  List.filter isStableClass (Js.trimSplitSpaces cls).

Definition classSuffix (classes : list string) : string :=
  "." ++ Js.join "." (map CSS_escape classes).

(** The attributes that [getCssPath] tries in turn on each level. *)
Definition uniqueAttrs : list string :=
  ["data-testid"; "data-test-id"; "data-cy"; "data-id"; "name"; "aria-label"; "role"].

Fixpoint firstUniqueAttr (doc : Document) (current : Element) (selector : string)
    (attrs : list string) : result (option string) :=
  match attrs with
  | [] => Ok None
  | attr :: rest =>
      match getAttribute current attr with
      | Some value =>
          if Js.truthy value then
            let attrSel := attrSelector selector attr value in
            one ← matchesOne doc attrSel;
            if one : bool then Ok (Some attrSel) else firstUniqueAttr doc current selector rest
          else firstUniqueAttr doc current selector rest
      | None => firstUniqueAttr doc current selector rest
      end
  end.

(** The class list that [getCssPath] compares between siblings. *)
Definition classList (e : Element) : list string :=
  match classString e with
  | Some cls => Js.trimSplitSpaces cls
  | None => []
  end.

Fixpoint indexOf (e : Element) (l : list Element) : option nat :=
  match l with
  | [] => None
  | x :: rest => if sameElement x e then Some 0%nat else S <$> indexOf e rest
  end.

(** The [:nth-of-type(n)] suffix of one level of the path, or nothing. *)
Definition nthOfTypeSuffix (doc : Document) (current : Element) : string :=
  match parentElement doc current with
  | Some parent =>
      let siblings :=
        List.filter (fun c => String.eqb (tagName c) (tagName current)) (children doc parent) in
      if (1 <? length siblings)%nat then
        let matchingSiblings :=
          List.filter (fun sib =>
            sameElement sib current ||
            String.eqb (Js.join " " (classList sib)) (Js.join " " (classList current)))
            siblings in
        if (1 <? length matchingSiblings)%nat then
          let index := match indexOf current siblings with Some i => S i | None => 0%nat end in
          ":nth-of-type(" ++ Js.ofNat index ++ ")"
        else EmptyString
      else EmptyString
  | None => EmptyString
  end.

(** One level of [getCssPath] when neither a stable id nor a unique
    attribute was found. *)
Definition plainLevel (doc : Document) (current : Element) : string :=
  let selector := Js.toLowerCase (tagName current) in
  let selector :=
    match classString current with
    | Some cls =>
        match firstn 2 (stableClasses cls) with
        | [] => selector
        | classes => selector ++ classSuffix classes
        end
    | None => selector
    end in
  selector ++ nthOfTypeSuffix doc current.

(** The loop of [getCssPath].  Every turn adds one entry to [path] and the
    loop leaves once [path] holds more than four, so [turns] bounds the
    number of turns still possible. *)
Fixpoint cssPathLoop (doc : Document) (turns : nat) (current : option Element)
    (path : list string) : result (list string) :=
  match turns, current with
  | S turns', Some current =>
      if truthyId (id current) && isStableId (id current) then
        Ok (("#" ++ CSS_escape (idString (id current))) :: path)
      else
        found ← firstUniqueAttr doc current (Js.toLowerCase (tagName current)) uniqueAttrs;
        let path' :=
          match found with
          | Some attrSel => attrSel :: path
          | None => plainLevel doc current :: path
          end in
        if (4 <? length path')%nat then Ok path'
        else cssPathLoop doc turns' (parentElement doc current) path'
  | _, _ => Ok path
  end.

Definition getCssPath (doc : Document) (element : Element) : result string :=
  path ← cssPathLoop doc 5 (Some element) []; Ok (Js.join " > " path).

(** [a || b] on attribute values. *)
Definition orElse (a b : option string) : option string :=
  if truthyAttr a then a else b.

Definition tagIs (e : Element) (tags : list string) : bool :=
  existsb (String.eqb (tagName e)) tags.

(** Priority 1: the id, if it looks stable. *)
Definition byStableId (element : Element) : option string :=
  if truthyId (id element) && isStableId (id element)
  then Some ("#" ++ CSS_escape (idString (id element)))
  else None.

(** Priority 2: [data-testid] or a similar attribute. *)
Definition byTestAttribute (element : Element) : option string :=
  let testId :=
    orElse (getAttribute element "data-testid")
      (orElse (getAttribute element "data-test-id")
         (orElse (getAttribute element "data-cy") (getAttribute element "data-id"))) in
  match testId with
  | Some value =>
      if Js.truthy value then
        let attr :=
          if truthyAttr (getAttribute element "data-testid") then "data-testid"
          else if truthyAttr (getAttribute element "data-test-id") then "data-test-id"
          else if truthyAttr (getAttribute element "data-cy") then "data-cy"
          else "data-id" in
        Some (attrSelector EmptyString attr value)
      else None
  | None => None
  end.

(** Priority 3: the [name] of a form element. *)
Definition byFormName (element : Element) : option string :=
  if Js.truthy (name element) && tagIs element ["INPUT"; "SELECT"; "TEXTAREA"]
  then Some (attrSelector (Js.toLowerCase (tagName element)) "name" (name element))
  else None.

(** Priority 4: the [href] of a link, exact or by its path. *)
Definition byHref (doc : Document) (element : Element) : result (option string) :=
  if String.eqb (tagName element) "A" && truthyAttr (getAttribute element "href") then
    let href := reflected element "href" in
    if Js.truthy href && negb (String.eqb href "#")
       && negb (Js.startsWith "javascript:" href) then
      let selector := attrSelector "a" "href" href in
      one ← matchesOne doc selector;
      if one : bool then Ok (Some selector)
      else
        pathname ← urlPathname doc href;
        if Js.truthy pathname && negb (String.eqb pathname "/") then
          let partialSelector :=
            "a[href*=" ++ q ++ CSS_escape pathname ++ q ++ "]" in
          one ← matchesOne doc partialSelector;
          if one : bool then Ok (Some partialSelector) else Ok None
        else Ok None
    else Ok None
  else Ok None.

Definition textSelector (tag text : string) : string :=
  tag ++ ":text(" ++ q ++ Js.escapeQuotes text ++ q ++ ")".

(** Priority 5: the text of a button, link, span or div, if no other
    element of that tag has it. *)
Definition byText (doc : Document) (element : Element) : result (option string) :=
  if tagIs element ["BUTTON"; "A"; "SPAN"; "DIV"] then
    let text := Js.trim (textContent element) in
    if Js.truthy text && (0 <? String.length text)%nat && (String.length text <? 50)%nat then
      let tag := Js.toLowerCase (tagName element) in
      candidates ← querySelectorAll doc tag;
      let matches :=
        List.filter (fun el => String.eqb (Js.trim (textContent el)) text) candidates in
      if (length matches =? 1)%nat then Ok (Some (textSelector tag text)) else Ok None
    else Ok None
  else Ok None.

(** Priorities 6 and 7: an attribute whose selector matches one element. *)
Definition byUniqueAttribute (attr : string) (doc : Document) (element : Element)
    : result (option string) :=
  match getAttribute element attr with
  | Some value =>
      if Js.truthy value then
        let selector := attrSelector EmptyString attr value in
        one ← matchesOne doc selector;
        if one : bool then Ok (Some selector) else Ok None
      else Ok None
  | None => Ok None
  end.

(** Priority 8: the stable classes, if they match one element. *)
Definition byClasses (doc : Document) (element : Element) : result (option string) :=
  match classString element with
  | Some cls =>
      let classes := stableClasses cls in
      if (0 <? length classes)%nat then
        let selector := Js.toLowerCase (tagName element) ++ classSuffix classes in
        one ← matchesOne doc selector;
        if one : bool then Ok (Some selector) else Ok None
      else Ok None
  | None => Ok None
  end.

(** Priority 9: the placeholder of an input. *)
Definition byPlaceholder (doc : Document) (element : Element) : result (option string) :=
  if String.eqb (tagName element) "INPUT" && Js.truthy (placeholder element) then
    let selector := attrSelector "input" "placeholder" (placeholder element) in
    one ← matchesOne doc selector;
    if one : bool then Ok (Some selector) else Ok None
  else Ok None.

(** The tail of [generateSelector] from priority 4 on: the strategies
    that query the document. *)
Definition generateFromHref (doc : Document) (element : Element) : result string :=
  r ← byHref doc element;
  match r with Some s => Ok s | None =>
  r ← byText doc element;
  match r with Some s => Ok s | None =>
  r ← byUniqueAttribute "aria-label" doc element;
  match r with Some s => Ok s | None =>
  r ← byUniqueAttribute "title" doc element;
  match r with Some s => Ok s | None =>
  r ← byClasses doc element;
  match r with Some s => Ok s | None =>
  r ← byPlaceholder doc element;
  match r with Some s => Ok s | None =>
  getCssPath doc element
  end end end end end end.

(** The tail of [generateSelector] after the id test. *)
Definition generateAfterId (doc : Document) (element : Element) : result string :=
  match byTestAttribute element with Some s => Ok s | None =>
  match byFormName element with Some s => Ok s | None =>
  generateFromHref doc element
  end end.

Definition generateSelector (doc : Document) (element : Element) : result string :=
  match byStableId element with
  | Some s => Ok s
  | None => generateAfterId doc element
  end.

(** *** The cascade as section 4.1 of the specification words it: an
    ordered list of strategies, the first that applies giving the
    locator. *)






(** ** Element resolution *)

(** [style.display !== 'none' && style.visibility !== 'hidden' &&
    style.opacity !== '0' && element.offsetParent !== null] *)
Definition isVisible (element : Element) : bool :=
  negb (String.eqb (display (computedStyle element)) "none") &&
  negb (String.eqb (visibility (computedStyle element)) "hidden") &&
  negb (String.eqb (opacity (computedStyle element)) "0") &&
  hasOffsetParent element.

Fixpoint stripPrefix (p s : string) : option string :=
  match p, s with
  | EmptyString, _ => Some s
  | String a p', String b s' => if Ascii.eqb a b then stripPrefix p' s' else None
  | String _ _, EmptyString => None
  end.

(** The string without its last two characters, when these are a double
    quote and a closing parenthesis. *)
Fixpoint dropClosing (s : string) : option string :=
  match s with
  | EmptyString => None
  | String c r =>
      match r with
      | String c' EmptyString =>
          if Ascii.eqb c dquote && Ascii.eqb c' ")" then Some EmptyString else None
      | _ => String c <$> dropClosing r
      end
  end.

(** The match of the text selector pattern of [waitForElement], a word,
    then [:text(], a quoted non-empty literal without line terminator and
    a closing parenthesis at the end of the string: the tag and the
    literal, or [None]. *)
Definition textMatch (sel : string) : option (string * string) :=
  let '(tag, rest) := span Js.isWord sel in
  if Js.isEmpty tag then None
  else
    match stripPrefix (":text(" ++ q) rest with
    | Some quoted =>
        match dropClosing quoted with
        | Some text =>
            if negb (Js.isEmpty text) && negb (Js.any Js.isLineTerminator text)
            then Some (tag, text) else None
        | None => None
        end
    | None => None
    end.

(** The body of the [for] loop of [waitForElement] for one selector: the
    element to return, or [None] to go on (also after a caught error). *)
Definition resolveOne (doc : Document) (sel : string) : option Element :=
  match textMatch sel with
  | Some (tag, text) =>
      let unescapedText := Js.unescapeQuotes text in
      match querySelectorAll doc tag with
      | Ok candidates =>
          List.find (fun el =>
            String.eqb (Js.trim (textContent el)) unescapedText && isVisible el) candidates
      | Throw _ => None
      end
  | None =>
      match querySelector doc sel with
      | Ok (Some element) => if isVisible element then Some element else None
      | Ok None => None
      | Throw _ => None
      end
  end.

Fixpoint resolveFirst (doc : Document) (selectors : list string) : option Element :=
  match selectors with
  | [] => None
  | sel :: rest =>
      match resolveOne doc sel with
      | Some element => Some element
      | None => resolveFirst doc rest
      end
  end.

(** The page over time: the document at each instant of the clock
    ([Date.now()], in milliseconds) and the lateness of the timer armed
    at each instant. *)
Record Timeline := {
  documentAt : Z -> Document;
  lateness : Z -> nat
}.

(** The instant at which [await sleep(ms)], started at [now], resumes. *)
Definition sleep (tl : Timeline) (now ms : Z) : Z :=
  now + Z.max 0 ms + Z.of_nat (lateness tl now).

(** The [while] loop of [waitForElement]; [None] if [fuel] turns do not
    reach its end. *)
Fixpoint waitLoop (tl : Timeline) (selectors : list string) (timeout start : Z)
    (fuel : nat) (now : Z) : option (option Element * Z) :=
  match fuel with
  | O => None
  | S fuel' =>
      if (now - start <? timeout)%Z then
        match resolveFirst (documentAt tl now) selectors with
        | Some element => Some (Some element, now)
        | None => waitLoop tl selectors timeout start fuel' (sleep tl now 100)
        end
      else Some (None, now)
  end.

(** The number of turns that [waitLoop] can need. *)
Definition pollBudget (timeout : Z) : nat := Z.to_nat (timeout / 100) + 2.

(** [waitForElement(selector, timeout)] called at instant [start]: the
    element or [null], and the instant of the return. *)
Definition waitForElement (tl : Timeline) (selector : string) (timeout start : Z)
    : option Element * Z :=
  let selectors := map Js.trim (Js.split "," selector) in
  match waitLoop tl selectors timeout start (pollBudget timeout) start with
  | Some r => r
  | None => (None, start)
  end.

Definition defaultTimeout : Z := 10000.

(** ** Step execution *)

(** The interfaces whose [value] setter the script looks up. *)
Inductive Interface := HTMLInputElement | HTMLTextAreaElement.

(** What the script finds on [window]: whether the [value] property of
    each prototype has a setter. *)
Record Window := {
  inputValueSetter : bool;
  textAreaValueSetter : bool
}.

(** An element implements the interface of its tag. *)
Definition implements (element : Element) (i : Interface) : bool :=
  negb (isSVG element) &&
  match i with
  | HTMLInputElement => String.eqb (tagName element) "INPUT"
  | HTMLTextAreaElement => String.eqb (tagName element) "TEXTAREA"
  end.

(** What a step does to the page, in order. *)
Inductive Effect :=
| ScrollIntoView (target : nat)
| Slept (ms : Z)
| Highlight (target : nat)
| NativeClick (target : nat)
| Focus (target : nat)
| AssignValue (target : nat) (v : JsValue)
| AssignTextContent (target : nat) (v : JsValue)
| CallNativeSetter (owner : Interface) (target : nat) (v : JsValue)
| DispatchEvent (target : nat) (constructor eventType : string) (bubbles cancelable : bool).

(** The completion of an asynchronous call: value or error, the effects
    performed and the instant at which it settles. *)
Record Outcome := {
  completion : result unit;
  effects : list Effect;
  settledAt : Z
}.

(** [highlightElement(element)], which reads and writes
    [element.style.outline] outside any [try]: on an element without
    [style] the read throws a [TypeError]. *)
Definition highlightElement (element : Element) : result unit * list Effect :=
  if hasStyle element then (Ok (), [Highlight (eid element)])
  else (Throw "Cannot read properties of undefined (reading 'outline')", []).

(** The scroll, pause and highlight that open both kinds of step: the
    completion of the highlight, what was done and the instant reached. *)
Definition approach (tl : Timeline) (element : Element) (now : Z)
    : result unit * list Effect * Z :=
  let '(r, done) := highlightElement element in
  (r,
   ((if scrollThrows element then [] else [ScrollIntoView (eid element)])
      ++ [Slept 200] ++ done)%list,
   sleep tl now 200).

(** [nativeInputValueSetter]: the setter of the input prototype or else
    that of the text area prototype. *)
Definition nativeValueSetter (win : Window) : option Interface :=
  if inputValueSetter win then Some HTMLInputElement
  else if textAreaValueSetter win then Some HTMLTextAreaElement
  else None.

(** An input element whose [type] attribute is in the file upload
    state; the keyword is compared without regard to case. *)
Definition isFileInput (element : Element) : bool :=
  implements element HTMLInputElement
  && String.eqb (Js.toLowerCase (reflected element "type")) "file".

(** Whether the value that is assigned to the [value] property converts
    to the empty string: the property takes [null] as the empty string
    and every other value by its string conversion. *)
Definition assignsEmptyString (v : JsValue) : bool :=
  match v with
  | JsNull => true
  | JsString s => Js.isEmpty s
  | JsUndefined | JsNumber _ => false
  end.

(** The [value] setter of an input element refuses every value but the
    empty string on a file upload control, with an [InvalidStateError]. *)
Definition valueSetterRefuses (element : Element) (v : JsValue) : bool :=
  isFileInput element && negb (assignsEmptyString v).

Definition filenameError : string :=
  "Failed to set the 'value' property on 'HTMLInputElement': This input element accepts a filename, which may only be programmatically set to the empty string.".

(** The last branch of the [input] case: a regular input or text area.
    A native setter called on an object that does not implement its
    interface throws a [TypeError]. *)
Definition setRegularValue (win : Window) (element : Element) (v : JsValue)
    : result unit * list Effect :=
  let events :=
    [ DispatchEvent (eid element) "Event" "input" true false;
      DispatchEvent (eid element) "Event" "change" true false;
      DispatchEvent (eid element) "KeyboardEvent" "keyup" true false ] in
  match nativeValueSetter win with
  | Some owner =>
      if implements element owner
      then
        if valueSetterRefuses element v then (Throw filenameError, [])
        else (Ok (), CallNativeSetter owner (eid element) v :: events)
      else (Throw "Illegal invocation", [])
  | None =>
      if valueSetterRefuses element v then (Throw filenameError, [])
      else (Ok (), AssignValue (eid element) v :: events)
  end.

Definition performClick (tl : Timeline) (element : Element) (now : Z) : Outcome :=
  match approach tl element now with
  | (Ok _, pre, t) =>
      {| completion := Ok ();
         effects := (pre ++
           [ if clickThrows element
             then DispatchEvent (eid element) "MouseEvent" "click" true true
             else NativeClick (eid element) ])%list;
         settledAt := t |}
  | (Throw message, pre, t) =>
      {| completion := Throw message; effects := pre; settledAt := t |}
  end.

Definition performInput (tl : Timeline) (win : Window) (element : Element) (v : JsValue)
    (now : Z) : Outcome :=
  match approach tl element now with
  | (Ok _, pre, t) =>
      let pre := (pre ++ (if focusThrows element then [] else [Focus (eid element)]))%list in
      if String.eqb (tagName element) "SELECT" then
        {| completion := Ok ();
           effects := (pre ++ [ AssignValue (eid element) v;
                                DispatchEvent (eid element) "Event" "change" true false ])%list;
           settledAt := t |}
      else if isContentEditable element then
        {| completion := Ok ();
           effects := (pre ++ [ AssignTextContent (eid element) v;
                                DispatchEvent (eid element) "InputEvent" "input" true false ])%list;
           settledAt := t |}
      else
        let '(r, done) := setRegularValue win element v in
        {| completion := r; effects := (pre ++ done)%list; settledAt := t |}
  | (Throw message, pre, t) =>
      {| completion := Throw message; effects := pre; settledAt := t |}
  end.

(** [executeStep(step)] called at instant [start]. *)
Definition executeStep (tl : Timeline) (win : Window) (step : Step) (start : Z) : Outcome :=
  match selector step with
  | None =>
      {| completion := Throw "Cannot read properties of undefined (reading 'split')";
         effects := []; settledAt := start |}
  | Some sel =>
      let '(found, now) := waitForElement tl sel defaultTimeout start in
      match found with
      | None =>
          {| completion := Throw ("Element not found: " ++ sel);
             effects := []; settledAt := now |}
      | Some element =>
          if String.eqb (type step) "click" then performClick tl element now
          else if String.eqb (type step) "input" then performInput tl win element (value step) now
          else {| completion := Throw ("Unknown step type: " ++ type step);
                  effects := []; settledAt := now |}
      end
  end.

(** The kinds of error that the specification names, told by the
    message of the thrown error. *)
Definition isElementNotFound (sel : string) (r : result unit) : Prop :=
  r = Throw ("Element not found: " ++ sel).

Definition isUnknownStepType (step : Step) (r : result unit) : Prop :=
  r = Throw ("Unknown step type: " ++ type step).

(** The answer of the message listener to [EXECUTE_STEP]:
    [{ success: true }] or [{ success: false, error }]. *)
Definition answerExecuteStep (out : Outcome) : result unit :=
  match completion out with
  | Ok _ => Ok ()
  | Throw m => Throw (if Js.truthy m then m else "Unknown error")
  end.

(** ** A small document for examples

    A document given by the list of its elements in tree order, each with
    the identity of its parent.  Its selector engine reads compound
    selectors made of an optional tag followed by [#id], [.class] and
    quoted attribute tests, all without escapes, and rejects every other
    string the way a browser rejects a selector it cannot parse; it stands
    for a browser on such selectors and on strings that no browser
    accepts, which is all the examples below use. *)

Inductive SimplePart :=
| PartId (v : string)
| PartClass (v : string)
| PartAttr (name v : string).

Definition isIdentChar (c : ascii) : bool :=
  Js.isAlpha c || Js.isDigit c || Ascii.eqb c "_" || Ascii.eqb c "-".

Definition isIdent (s : string) : bool :=
  match s with
  | String c _ => (Js.isAlpha c || Ascii.eqb c "_") && Js.all isIdentChar s
  | EmptyString => false
  end.

Definition isPlainValueChar (c : ascii) : bool :=
  negb (Ascii.eqb c dquote) && negb (Ascii.eqb c backslash)
  && negb (Js.isLineTerminator c).

Fixpoint parseParts (fuel : nat) (s : string) : option (list SimplePart) :=
  match fuel with
  | O => None
  | S fuel' =>
      match s with
      | EmptyString => Some []
      | String c r =>
          if Ascii.eqb c "#" then
            let '(v, r') := span isIdentChar r in
            if isIdent v then cons (PartId v) <$> parseParts fuel' r' else None
          else if Ascii.eqb c "." then
            let '(v, r') := span isIdentChar r in
            if isIdent v then cons (PartClass v) <$> parseParts fuel' r' else None
          else if Ascii.eqb c "[" then
            let '(a, r1) := span isIdentChar r in
            if isIdent a then
              match stripPrefix ("=" ++ q) r1 with
              | Some r2 =>
                  let '(v, r3) := span isPlainValueChar r2 in
                  match stripPrefix (q ++ "]") r3 with
                  | Some r4 => cons (PartAttr a v) <$> parseParts fuel' r4
                  | None => None
                  end
              | None => None
              end
            else None
          else None
      end
  end.

Definition parseSimple (sel : string) : option (string * list SimplePart) :=
  let '(tag, rest) := span isIdentChar sel in
  if Js.isEmpty tag || isIdent tag then
    match parseParts (S (String.length rest)) rest with
    | Some parts => if Js.isEmpty tag && (length parts =? 0)%nat then None else Some (tag, parts)
    | None => None
    end
  else None.

Definition matchesPart (e : Element) (p : SimplePart) : bool :=
  match p with
  | PartId v => match getAttribute e "id" with Some i => String.eqb i v | None => false end
  | PartClass v => existsb (String.eqb v) (Js.words (reflected e "class"))
  | PartAttr a v => match getAttribute e a with Some w => String.eqb w v | None => false end
  end.

Definition matchesSimple (tag : string) (parts : list SimplePart) (e : Element) : bool :=
  (Js.isEmpty tag || String.eqb (Js.toLowerCase (tagName e)) (Js.toLowerCase tag))
  && forallb (matchesPart e) parts.

Record Node := {
  element : Element;
  parentId : option nat
}.

Definition simpleQuery (nodes : list Node) (sel : string) : result (list Element) :=
  match parseSimple sel with
  | Some (tag, parts) => Ok (List.filter (matchesSimple tag parts) (map element nodes))
  | None => Throw ("Failed to execute 'querySelectorAll' on 'Document': '" ++ sel
                   ++ "' is not a valid selector.")
  end.

Definition simpleDocument (nodes : list Node) : Document :=
  {| querySelectorAll := simpleQuery nodes;
     parentElement := fun e =>
       match List.find (fun n => sameElement (element n) e) nodes with
       | Some n =>
           match parentId n with
           | Some p => element <$> List.find (fun m => (eid (element m) =? p)%nat) nodes
           | None => None
           end
       | None => None
       end;
     children := fun e =>
       map element
         (List.filter (fun n => match parentId n with
                                | Some p => (p =? eid e)%nat
                                | None => false
                                end) nodes);
     urlPathname := fun href => Throw ("Invalid URL: " ++ href) |}.

(** The page that never changes and whose timers are never late. *)
Definition still (doc : Document) : Timeline :=
  {| documentAt := fun _ => doc; lateness := fun _ => 0%nat |}.

Definition shown : Style :=
  {| display := "block"; visibility := "visible"; opacity := "1"; cursor := "auto" |}.


(** An HTML element of the given tag, attributes, text and style that is
    laid out unless its style hides it and whose methods do not throw. *)
Definition html (i : nat) (tag : string) (attrs : list (string * string)) (text : string)
    (st : Style) : Element :=
  {| eid := i; tagName := tag; attributes := attrs; textContent := text;
     isSVG := false; namedId := None; hasStyle := true; computedStyle := st;
     hasOffsetParent := negb (String.eqb (display st) "none");
     isContentEditable := false;
     scrollThrows := false; clickThrows := false; focusThrows := false |}.

Definition browserWindow : Window :=
  {| inputValueSetter := true; textAreaValueSetter := true |}.

(** ** The element that a click is recorded for *)

Definition clickableTags : list string := ["A"; "BUTTON"; "INPUT"; "SELECT"; "TEXTAREA"].

(** [element.hasAttribute(name)] *)
Definition hasAttribute (e : Element) (name : string) : bool :=
  match getAttribute e name with Some _ => true | None => false end.

(** [element.getAttribute('role') === role] *)
Definition roleIs (e : Element) (role : string) : bool :=
  match getAttribute e "role" with Some r => String.eqb r role | None => false end.

(** The three tests that [getClickableElement] makes of the element and
    then of each parent. *)
Definition isClickable (e : Element) : bool :=
  if tagIs e clickableTags then true
  else if roleIs e "button" || roleIs e "link" then true
  else if hasAttribute e "onclick" then true
  else false.

(** The truthiness of [element.className], which is an object on an SVG
    element. *)
Definition classNameTruthy (e : Element) : bool :=
  isSVG e || Js.truthy (reflected e "class").

(** The fourth test, of the parents only: a container under the pointer
    cursor that has an id, a class or a test attribute. *)
Definition isPointerContainer (e : Element) : bool :=
  if String.eqb (cursor (computedStyle e)) "pointer" && tagIs e ["DIV"; "SPAN"; "LI"]
  then truthyId (id e) || classNameTruthy e || truthyAttr (getAttribute e "data-testid")
  else false.

(** The [while (parent && depth < 5)] loop with [turns] turns left. *)
Fixpoint climb (doc : Document) (turns : nat) (parent : option Element)
    (element : Element) : Element :=
  match turns, parent with
  | S turns', Some p =>
      if isClickable p then p
      else if isPointerContainer p then p
      else climb doc turns' (parentElement doc p) element
  | _, _ => element
  end.

Definition getClickableElement (doc : Document) (element : Element) : Element :=
  if isClickable element then element
  else climb doc 5 (parentElement doc element) element.

End Content.

(** * The capture state of the page script *)

Module Capture.

(** The three handlers that the script registers. *)
Inductive Handler := handleClick | handleInput | handleChange.

(** The objects that the script registers them on; a shadow root is
    known by its identity. *)
Inductive Target :=
| OnWindow
| OnDocument
| OnShadowRoot (root : nat).

Record Listener := {
  target : Target;
  eventType : string;
  handler : Handler;
  useCapture : bool
}.

#[global] Instance Handler_eq_dec : EqDecision Handler.
Proof. solve_decision. Defined.
#[global] Instance Target_eq_dec : EqDecision Target.
Proof. solve_decision. Defined.
#[global] Instance Listener_eq_dec : EqDecision Listener.
Proof. solve_decision. Defined.

(** The registrations of one object for the three events, as both
    [startRecording] and [attachToShadowRoots] make them. *)
Definition registrations (t : Target) : list Listener :=
  [ {| target := t; eventType := "click"; handler := handleClick; useCapture := true |};
    {| target := t; eventType := "input"; handler := handleInput; useCapture := true |};
    {| target := t; eventType := "change"; handler := handleChange; useCapture := true |} ].

(** An element of the page with its shadow root, if it has one (the
    identity of the root and the trees under it), and its children. *)
#[warnings="-register-all"]
Inductive Tree :=
| Elem (tag : string) (shadow : option (nat * list Tree)) (kids : list Tree).

(** The state of the script and what it has installed in the page:
    the three variables of the script, the registered listeners (in
    registration order), the mutation observers that are observing, the
    next observer identity and whether the indicator is in the page. *)
Record State := {
  isRecording : bool;
  shadowObserver : option nat;
  attachedShadowRoots : gset nat;
  listeners : list Listener;
  observing : gset nat;
  nextObserver : nat;
  indicatorShown : bool
}.

Definition initial : State :=
  {| isRecording := false; shadowObserver := None; attachedShadowRoots := ∅;
     listeners := []; observing := ∅; nextObserver := 0; indicatorShown := false |}.

(** [target.addEventListener(type, handler, true)]: a registration that
    is already there is not added again. *)
Definition addEventListener (l : Listener) (ls : list Listener) : list Listener :=
  if decide (l ∈ ls) then ls else (ls ++ [l])%list.

(** [target.removeEventListener(type, handler, true)] *)
Definition removeEventListener (l : Listener) (ls : list Listener) : list Listener :=
  List.filter (fun x => negb (bool_decide (x = l))) ls.

Definition addAll (new : list Listener) (ls : list Listener) : list Listener :=
  fold_left (fun acc l => addEventListener l acc) new ls.

Definition removeAll (old : list Listener) (ls : list Listener) : list Listener :=
  fold_left (fun acc l => removeEventListener l acc) old ls.

(** The three statements that follow each successful test of a shadow
    root in [attachToShadowRoots], before the recursive call. *)
Definition attach (root : nat) (s : State) : State :=
  {| isRecording := isRecording s;
     shadowObserver := shadowObserver s;
     attachedShadowRoots := {[ root ]} ∪ attachedShadowRoots s;
     listeners := addAll (registrations (OnShadowRoot root)) (listeners s);
     observing := observing s;
     nextObserver := nextObserver s;
     indicatorShown := indicatorShown s |}.

(** [attachToShadowRoots(root)] for an element: the test of the shadow
    root of [root], then of the shadow root of each descendant in tree
    order, each new root being entered at once.  The traversal visits an
    element, then its children in order, which is the order of
    [root.querySelectorAll('*')]; [scanAll] is the call on a shadow root,
    which has descendants but no shadow root of its own. *)
Fixpoint attachToShadowRoots (root : Tree) (s : State) : State :=
  let scanAll :=
    fix scanAll (l : list Tree) (s : State) : State :=
      match l with
      | [] => s
      | t :: rest => scanAll rest (attachToShadowRoots t s)
      end in
  match root with
  | Elem _ shadow kids =>
      let s :=
        match shadow with
        | Some (rid, content) =>
            if decide (rid ∈ attachedShadowRoots s) then s
            else scanAll content (attach rid s)
        | None => s
        end in
      scanAll kids s
  end.

(** [observeShadowRoots()]; [document.body] is [None] when the page has
    no body yet, and [observe] then throws. *)
Definition observeShadowRoots (body : option Tree) (s : State) : result unit * State :=
  let s := match body with Some b => attachToShadowRoots b s | None => s end in
  let h := nextObserver s in
  let created :=
    {| isRecording := isRecording s; shadowObserver := Some h;
       attachedShadowRoots := attachedShadowRoots s; listeners := listeners s;
       observing := observing s; nextObserver := S h;
       indicatorShown := indicatorShown s |} in
  match body with
  | Some _ =>
      (Ok (),
       {| isRecording := isRecording created; shadowObserver := shadowObserver created;
          attachedShadowRoots := attachedShadowRoots created; listeners := listeners created;
          observing := {[ h ]} ∪ observing created; nextObserver := nextObserver created;
          indicatorShown := indicatorShown created |})
  | None =>
      (Throw "Failed to execute 'observe' on 'MutationObserver': parameter 1 is not of type 'Node'.",
       created)
  end.

(** The callback of the observer for the element nodes added to the
    page, run while the observer is observing. *)
Definition onMutation (added : list Tree) (s : State) : State :=
  match shadowObserver s with
  | Some h =>
      if decide (h ∈ observing s)
      then fold_left (fun acc node => attachToShadowRoots node acc) added s
      else s
  | None => s
  end.

Definition setIndicator (shown : bool) (s : State) : State :=
  {| isRecording := isRecording s; shadowObserver := shadowObserver s;
     attachedShadowRoots := attachedShadowRoots s; listeners := listeners s;
     observing := observing s; nextObserver := nextObserver s;
     indicatorShown := shown |}.

Definition showRecordingIndicator (body : option Tree) (s : State) : State :=
  match body with
  | None => s
  | Some _ => if indicatorShown s then s else setIndicator true s
  end.

Definition hideRecordingIndicator (s : State) : State :=
  if indicatorShown s then setIndicator false s else s.

Definition startRecording (body : option Tree) (s : State) : result unit * State :=
  if isRecording s then (Ok (), s)
  else
    let s :=
      {| isRecording := true; shadowObserver := shadowObserver s;
         attachedShadowRoots := attachedShadowRoots s;
         listeners := addAll (registrations OnDocument)
                        (addAll (registrations OnWindow) (listeners s));
         observing := observing s; nextObserver := nextObserver s;
         indicatorShown := indicatorShown s |} in
    match observeShadowRoots body s with
    | (Ok _, s) => (Ok (), showRecordingIndicator body s)
    | (Throw m, s) => (Throw m, s)
    end.

Definition stopRecording (s : State) : State :=
  if negb (isRecording s) then s
  else
    let s :=
      {| isRecording := false; shadowObserver := shadowObserver s;
         attachedShadowRoots := attachedShadowRoots s;
         listeners := removeAll (registrations OnDocument)
                        (removeAll (registrations OnWindow) (listeners s));
         observing := observing s; nextObserver := nextObserver s;
         indicatorShown := indicatorShown s |} in
    let s :=
      match shadowObserver s with
      | Some h =>
          {| isRecording := isRecording s; shadowObserver := None;
             attachedShadowRoots := attachedShadowRoots s; listeners := listeners s;
             observing := observing s ∖ {[ h ]}; nextObserver := nextObserver s;
             indicatorShown := indicatorShown s |}
      | None => s
      end in
    hideRecordingIndicator s.

(** The registrations on shadow roots. *)
Definition onShadowRoot (l : Listener) : bool :=
  match target l with OnShadowRoot _ => true | _ => false end.

(** [attachToShadowRoots] on each tree of a list in turn: the scan of
    the content of a shadow root, or of the children of an element. *)
Definition scanAll (l : list Tree) (s : State) : State :=
  fold_left (fun acc t => attachToShadowRoots t acc) l s.

(** The states that the script can be in: it starts in [initial], and
    the page calls [startRecording] and [stopRecording] (through the
    message listener) and delivers mutations, in any order. *)
Inductive Reachable : State -> Prop :=
| ReachInitial : Reachable initial
| ReachStart body s : Reachable s -> Reachable (snd (startRecording body s))
| ReachStop s : Reachable s -> Reachable (stopRecording s)
| ReachMutation added s : Reachable s -> Reachable (onMutation added s).

(** The shadow roots of the elements of a tree that are not themselves
    inside a shadow root of the tree: those that [querySelectorAll('*')]
    on the tree reaches, with that of the tree itself. *)
Fixpoint lightRoots (t : Tree) : list nat :=
  match t with
  | Elem _ shadow kids =>
      (match shadow with Some (rid, _) => [rid] | None => [] end
       ++ flat_map lightRoots kids)%list
  end.

(** All the shadow roots of a tree, also those nested in the content of
    another shadow root, in the order of the scan. *)
Fixpoint allRoots (t : Tree) : list nat :=
  match t with
  | Elem _ shadow kids =>
      (match shadow with
       | Some (rid, content) => rid :: flat_map allRoots content
       | None => []
       end
       ++ flat_map allRoots kids)%list
  end.

End Capture.

(** * The orchestrator, [src/background/background.js] *)

Module Background.

(** ** Numbers from strings *)

(** The decimal digits of an integer, with its sign. *)
Definition decimal (n : Z) : string := NilZero.string_of_int (Z.to_int n).

(** The Number nearest to the integer [n], which is not negative: [n]
    rounded to 53 significant bits, a tie going to the even one; [None]
    is [Infinity]. *)
Definition nearestNumber (n : Z) : option Z :=
  let shift := (Z.log2 n - 52)%Z in
  if (shift <=? 0)%Z then Some n
  else
    let q := Z.shiftr n shift in
    let r := (n - Z.shiftl q shift)%Z in
    let half := Z.shiftl 1 (shift - 1) in
    let q := if (half <? r)%Z || ((r =? half)%Z && Z.odd q) then (q + 1)%Z else q in
    if (1024 <=? Z.log2 (Z.shiftl q shift))%Z then None else Some (Z.shiftl q shift).

(** The integer [v] denotes the Number [x]. *)
Definition denotes (v x : Z) : bool :=
  match nearestNumber v with
  | Some y => (y =? x)%Z
  | None => false
  end.

(** The integer with [k] significant digits that denotes the Number [x]
    of [digits] digits, if there is one: the multiple of the unit below
    [x] or the one above, the nearer of the two when both do, and of two
    at the same distance the one whose last significant digit is even. *)
Definition candidate (x : Z) (digits k : nat) : option Z :=
  let unit := (10 ^ Z.of_nat (digits - k))%Z in
  let below := (x / unit * unit)%Z in
  let above := (below + unit)%Z in
  match denotes below x, denotes above x with
  | true, true =>
      if (x - below <? above - x)%Z then Some below
      else if (above - x <? x - below)%Z then Some above
      else if Z.even (x / unit) then Some below else Some above
  | true, false => Some below
  | false, true => Some above
  | false, false => None
  end.

(** The integer of fewest significant digits, [k] or more, that denotes
    the Number [x]; 17 digits always tell a Number from the others. *)
Fixpoint shortestFrom (x : Z) (digits k fuel : nat) : Z :=
  match fuel with
  | O => x
  | S fuel' =>
      match candidate x digits k with
      | Some v => v
      | None => shortestFrom x digits (S k) fuel'
      end
  end.

Fixpoint stripTrailingZeros (s : string) : string :=
  match s with
  | EmptyString => EmptyString
  | String c r =>
      match stripTrailingZeros r with
      | EmptyString => if Ascii.eqb c "0" then EmptyString else String c EmptyString
      | r' => String c r'
      end
  end.

(** The string conversion of the Number that an integer of 2^53 or more
    denotes: the fewest digits that tell the Number from the others,
    followed by zeros up to 21 digits and in exponent notation above. *)
Definition largeNumberString (m : Z) : string :=
  match nearestNumber m with
  | None => "Infinity"
  | Some x =>
      let all := decimal (shortestFrom x (String.length (decimal x)) 1 17) in
      if (String.length all <=? 21)%nat then all
      else
        match stripTrailingZeros all with
        | String c rest =>
            String c (match rest with EmptyString => EmptyString | _ => "." ++ rest end)
              ++ "e+" ++ decimal (Z.of_nat (String.length all - 1))
        | EmptyString => all
        end
  end.

(** The string conversion of a number that is not negative: below 2^53
    every integer is a Number and its digits are its conversion. *)
Definition magnitudeString (m : Z) : string :=
  if (m <? 2 ^ 53)%Z then decimal m else largeNumberString m.

(** The string conversion of a value. *)
Definition toString (v : JsValue) : string :=
  match v with
  | JsUndefined => "undefined"
  | JsNull => "null"
  | JsString s => s
  | JsNumber n => if (n <? 0)%Z then "-" ++ magnitudeString (- n) else magnitudeString n
  end.

Definition digitValue (radix : nat) (c : ascii) : option Z :=
  let d :=
    if Js.isDigit c then Some (Js.code c - 48)
    else if Js.isLower c then Some (Js.code c - 87)
    else if Js.isUpper c then Some (Js.code c - 55)
    else None in
  match d with
  | Some n => if (n <? radix)%nat then Some (Z.of_nat n) else None
  | None => None
  end.

(** The value of the longest prefix of digits of [s], after [acc];
    [seen] tells whether a digit was read. *)
Fixpoint readDigits (radix : nat) (s : string) (seen : bool) (acc : Z) : option Z :=
  match s with
  | EmptyString => if seen then Some acc else None
  | String c r =>
      match digitValue radix c with
      | Some d => readDigits radix r true (acc * Z.of_nat radix + d)
      | None => if seen then Some acc else None
      end
  end.

(** The Numbers that are integers, and the two infinities: what
    [parseInt] gives when it does not give [NaN], and what the timers are
    given. *)
Inductive Number :=
| Finite (n : Z)
| Infinity
| MinusInfinity.

Bind Scope Z_scope with Number.

(** The Number nearest to the integer of a sign and a magnitude. *)
Definition toNumber (negative : bool) (magnitude : Z) : Number :=
  match nearestNumber magnitude with
  | Some x => Finite (if negative then - x else x)
  | None => if negative then MinusInfinity else Infinity
  end.

(** [parseInt(s)] without radix; [None] is [NaN]. *)
Definition parseInt (s : string) : option Number :=
  let s := Js.trimStart s in
  let '(negative, s) :=
    match s with
    | String c r =>
        if Ascii.eqb c "-" then (true, r)
        else if Ascii.eqb c "+" then (false, r)
        else (false, s)
    | EmptyString => (false, s)
    end in
  let '(radix, s) :=
    match s with
    | String c0 (String c1 r) =>
        if Ascii.eqb c0 "0" && (Ascii.eqb c1 "x" || Ascii.eqb c1 "X")
        then (16%nat, r) else (10%nat, s)
    | _ => (10%nat, s)
    end in
  match readDigits radix s false 0 with
  | Some n => Some (toNumber negative n)
  | None => None
  end.

(** The truthiness of a Number: every one but zero is truthy. *)
Definition truthyNumber (n : Number) : bool :=
  match n with
  | Finite n => negb (n =? 0)%Z
  | Infinity | MinusInfinity => true
  end.

(** [parseInt(value) || 1000] *)
Definition waitTime (v : JsValue) : Number :=
  match parseInt (toString v) with
  | Some n => if truthyNumber n then n else Finite 1000
  | None => Finite 1000
  end.

(** [Math.min(a, b)] *)
Definition Math_min (a b : Number) : Number :=
  match a, b with
  | MinusInfinity, _ | _, MinusInfinity => MinusInfinity
  | Infinity, n | n, Infinity => n
  | Finite x, Finite y => Finite (Z.min x y)
  end.

(** The conversion of an integer to a signed integer of 32 bits: the
    integer of that range that differs from it by a multiple of 2^32. *)
Definition toInt32 (n : Z) : Z := ((n + 2 ^ 31) mod 2 ^ 32 - 2 ^ 31)%Z.

(** The delay in milliseconds of the timer of [setTimeout(f, ms)]: the
    browser takes the delay as a signed integer of 32 bits, to which it
    converts [ms], an infinity becoming 0, and a negative delay counts
    as 0. *)
Definition timerDelay (ms : Number) : Z :=
  match ms with
  | Finite n => Z.max 0 (toInt32 n)
  | Infinity | MinusInfinity => 0%Z
  end.

(** ** The browser as the orchestrator sees it *)

(** [{ success, error }], the answer of the page script. *)
Record Response := {
  success : bool;
  error : option string
}.

(** What the orchestrator does, in order.  [TabLoadAwaited] is the
    listener that [waitForTabLoad] adds for the updates of the tab;
    [TimerStarted] is a timer that is started and not awaited on its own:
    it is one side of a race; [Slept] is [await sleep(ms)], with the
    number that [sleep] is called with. *)
Inductive Event :=
| TabUpdated (tab : nat) (url : string)
| TabLoadAwaited (tab : nat)
| Pinged (tab : nat)
| ScriptInjected (tab : nat)
| StepSent (tab : nat) (step : Step)
| TimerStarted (ms : Z)
| Slept (ms : Number)
| Warned (text : string).

Definition Trace := list Event.

Record Tab := {
  tabId : nat;
  url : string
}.

Record Workflow := {
  workflowId : string;
  steps : list Step;
  slowMode : bool
}.

(** The browser and the page behind it.  Each answer may depend on all
    that happened before.  [activeTab] is the first tab that
    [chrome.tabs.query({ active: true, currentWindow: true })] resolves
    with, if it resolves with one; [tabCompletes] is the delay after which
    the browser reports the status [complete] of the tab, if it ever
    does; [pingAnswer] is the settlement of the [PING] message, with the
    truthiness of [response.pong]; [stepAnswer] is the delay and the
    settlement of the [EXECUTE_STEP] message, where a missing response is
    [None]; a thrown value is a rejection. *)
Record Chrome := {
  storedWorkflows : list Workflow;
  activeTab : option Tab;
  isParsableHttpUrl : string -> bool;
  tabsUpdate : Trace -> nat -> string -> result unit;
  tabCompletes : Trace -> nat -> option Z;
  pingAnswer : Trace -> nat -> result bool;
  executeScript : Trace -> nat -> result unit;
  stepAnswer : Trace -> nat -> Step -> Z * result (option Response)
}.

(** Asynchronous code: a trace transformer that returns or throws. *)
Definition M (A : Type) : Type := Trace -> result A * Trace.

#[global] Instance M_ret : MRet M := fun A a tr => (Ok a, tr).
#[global] Instance M_bind : MBind M := fun A B k m tr =>
  match m tr with
  | (Ok a, tr1) => k a tr1
  | (Throw e, tr1) => (Throw e, tr1)
  end.

Definition throw {A} (message : string) : M A := fun tr => (Throw message, tr).

(** [try { m } catch (err) { h err.message }] *)
Definition catch {A} (m : M A) (h : string -> M A) : M A := fun tr =>
  match m tr with
  | (Ok a, tr1) => (Ok a, tr1)
  | (Throw e, tr1) => h e tr1
  end.

(** [try { m } catch (err) { ... }] as a value: the message of the error
    caught, if any. *)
Definition attempt (m : M unit) : M (option string) := fun tr =>
  match m tr with
  | (Ok _, tr1) => (Ok None, tr1)
  | (Throw e, tr1) => (Ok (Some e), tr1)
  end.

Definition emit (e : Event) : M unit := fun tr => (Ok (), (tr ++ [e])%list).

(** The settlement of a browser call that is asked with the trace. *)
Definition settle {A} (answer : Trace -> result A) : M A := fun tr => (answer tr, tr).

Definition sleep (ms : Number) : M unit := emit (Slept ms).

(** ** Replay *)

Definition includes (pattern s : string) : bool :=
  match String.index 0 pattern s with Some _ => true | None => false end.

Definition restrictedPrefixes : list string :=
  [ "chrome://"; "chrome-extension://"; "about:"; "edge://"; "brave://"; "opera://";
    "vivaldi://"; "firefox:"; "moz-extension://"; "devtools://"; "view-source:";
    "data:"; "javascript:" ].

Definition isRestrictedUrl (url : string) : bool :=
  if Js.isEmpty url then true
  else existsb (fun prefix => Js.startsWith prefix (Js.toLowerCase url)) restrictedPrefixes.

(** The truthiness of a value. *)
Definition truthyValue (v : JsValue) : bool :=
  match v with
  | JsUndefined | JsNull => false
  | JsString s => Js.truthy s
  | JsNumber n => negb (n =? 0)%Z
  end.

Definition isValidUrl (chrome : Chrome) (v : JsValue) : bool :=
  isParsableHttpUrl chrome (toString v).

Definition ensureContentScript (chrome : Chrome) (tab : nat) : M bool :=
  pong ← catch (_ ← emit (Pinged tab); settle (fun tr => pingAnswer chrome tr tab))
               (fun _ => mret false);
  if pong : bool then mret true
  else
    catch (_ ← settle (fun tr => executeScript chrome tr tab);
           _ ← emit (ScriptInjected tab);
           _ ← sleep (Finite 150);
           mret true)
          (fun _ => throw "Cannot access this page. Please navigate to a regular website.").

(** [response?.success] and [response?.error || fallback]. *)
Definition succeeded (r : option Response) : bool :=
  match r with Some resp => success resp | None => false end.

Definition errorOr (r : option Response) (fallback : string) : string :=
  match r with
  | Some resp =>
      match error resp with
      | Some e => if Js.truthy e then e else fallback
      | None => fallback
      end
  | None => fallback
  end.

(** [waitForTabLoad(tabId)]: a listener for the updates of the tab and a
    30 s timer that resolves; when the tab is complete before the timer
    ends, a 500 ms timer that resolves as well.  It never rejects. *)
Definition waitForTabLoad (chrome : Chrome) (tab : nat) : M unit :=
  _ ← emit (TabLoadAwaited tab);
  _ ← emit (TimerStarted 30000);
  complete ← settle (fun tr => Ok (tabCompletes chrome tr tab));
  match complete with
  | Some delay => if (delay <? 30000)%Z then emit (TimerStarted 500) else mret ()
  | None => mret ()
  end.

(** [Promise.race([chrome.tabs.sendMessage(...), sleep(15000).then(...)])]:
    the message is sent, the 15 s timer is started, and the first of the
    two to settle decides.  The page is asked with what had happened when
    the message was sent. *)
Definition sendStepWithTimeout (chrome : Chrome) (tab : nat) (step : Step)
    : M (option Response) :=
  _ ← emit (StepSent tab step);
  sent ← (fun tr => (Ok tr, tr));
  _ ← emit (TimerStarted 15000);
  settle (fun _ =>
    let '(delay, settlement) := stepAnswer chrome sent tab step in
    if (delay <? 15000)%Z then settlement
    else Ok (Some {| success := false; error := Some "Step timed out after 15s" |})).

Definition sendStep (chrome : Chrome) (tab : nat) (step : Step) : M (option Response) :=
  _ ← emit (StepSent tab step);
  settle (fun tr => snd (stepAnswer chrome tr tab step)).

(** [executeStep(tabId, step)] *)
Definition executeStep (chrome : Chrome) (tab : nat) (step : Step) : M unit :=
  if String.eqb (type step) "navigate" then
    if negb (truthyValue (value step)) || negb (isValidUrl chrome (value step))
    then throw ("Invalid URL: " ++ toString (value step))
    else
      _ ← settle (fun tr => tabsUpdate chrome tr tab (toString (value step)));
      _ ← emit (TabUpdated tab (toString (value step)));
      _ ← waitForTabLoad chrome tab;
      _ ← ensureContentScript chrome tab;
      mret ()
  else if String.eqb (type step) "click" || String.eqb (type step) "input" then
    _ ← ensureContentScript chrome tab;
    catch (response ← sendStepWithTimeout chrome tab step;
           if succeeded response then mret ()
           else throw (errorOr response "Step execution failed"))
          (fun message =>
             if includes "Receiving end does not exist" message then
               _ ← ensureContentScript chrome tab;
               _ ← sleep (Finite 200);
               retryResponse ← sendStep chrome tab step;
               if succeeded retryResponse then mret ()
               else throw (errorOr retryResponse "Step execution failed after retry")
             else throw message)
  else if String.eqb (type step) "wait" then
    sleep (Math_min (waitTime (value step)) (Finite 30000))
  else
    emit (Warned ("[Wave Background] Unknown step type: " ++ type step)).

(** What [handlePlayWorkflow] resolves with: [{ success: true }] or
    [{ success: false, error, stepIndex }]. *)
Inductive PlayResult :=
| Played
| Failed (error : string) (stepIndex : nat).

(** The [for] loop of [handlePlayWorkflow] from index [i] on, [steps]
    being the steps from that index. *)
Fixpoint playFrom (chrome : Chrome) (tab : nat) (stepDelay : Z) (i : nat)
    (steps : list Step) : M PlayResult :=
  match steps with
  | [] => mret Played
  | step :: rest =>
      caught ← attempt (_ ← executeStep chrome tab step; sleep (Finite stepDelay));
      match caught with
      | Some message =>
          mret (Failed ("Step " ++ Js.ofNat (i + 1) ++ " failed: " ++ message) i)
      | None => playFrom chrome tab stepDelay (S i) rest
      end
  end.

Definition firstStepNavigates (w : Workflow) : bool :=
  match steps w with
  | step :: _ => String.eqb (type step) "navigate"
  | [] => false
  end.

(** [handlePlayWorkflow({ workflowId })] *)
Definition handlePlayWorkflow (chrome : Chrome) (wanted : string) : M PlayResult :=
  match List.find (fun w => String.eqb (workflowId w) wanted) (storedWorkflows chrome) with
  | None => throw "Workflow not found"
  | Some workflow =>
      if (length (steps workflow) =? 0)%nat then throw "Workflow has no steps to play"
      else
        match activeTab chrome with
        | None => throw "Cannot read properties of undefined (reading 'id')"
        | Some tab =>
            if isRestrictedUrl (url tab) && negb (firstStepNavigates workflow)
            then throw "Cannot play on this page. The workflow should start with a navigate step, or navigate to a regular website first."
            else
              let stepDelay := if slowMode workflow then 1500%Z else 300%Z in
              playFrom chrome (tabId tab) stepDelay 0 (steps workflow)
        end
  end.

(** ** The stored workflows *)

(** [workflows.findIndex(w => w.id === id)]; [None] is -1. *)
Fixpoint findIndex (wanted : string) (workflows : list Workflow) : option nat :=
  match workflows with
  | [] => None
  | w :: rest =>
      if String.eqb (workflowId w) wanted then Some 0%nat
      else S <$> findIndex wanted rest
  end.

(** [saveWorkflow(workflow)]: the list that it writes to the storage,
    from the list that it has read there. *)
Definition saveWorkflow (workflow : Workflow) (workflows : list Workflow) : list Workflow :=
  match findIndex (workflowId workflow) workflows with
  | Some index => <[index := workflow]> workflows
  | None => (workflows ++ [workflow])%list
  end.

(** [deleteWorkflow(id)], likewise. *)
Definition deleteWorkflow (wanted : string) (workflows : list Workflow) : list Workflow :=
  List.filter (fun w => negb (String.eqb (workflowId w) wanted)) workflows.

(** ** The recording in progress *)

(** The three variables of the orchestrator; of the workflow that is
    being recorded, its steps. *)
Record Recorder := {
  isRecording : bool;
  currentWorkflow : option (list Step);
  recordingTabId : option nat
}.

(** [tabId !== recordingTabId], where [tabId] is [sender.tab?.id]: an
    undefined tab differs from every tab and from [null]. *)
Definition differs (tabId recording : option nat) : bool :=
  match tabId, recording with
  | Some a, Some b => negb (a =? b)%nat
  | _, _ => true
  end.

(** [handleRecordStep(step, tabId)] *)
Definition handleRecordStep (step : Step) (tabId : option nat) (r : Recorder) : Recorder :=
  match isRecording r, currentWorkflow r with
  | true, Some recorded =>
      if differs tabId (recordingTabId r) then r
      else {| isRecording := isRecording r;
              currentWorkflow := Some (recorded ++ [step])%list;
              recordingTabId := recordingTabId r |}
  | _, _ => r
  end.

(** ** The alarms of the health checks *)

(** [s.replace(pattern, replacement)] for a string pattern and a
    replacement without dollar sign: the first occurrence is replaced. *)
Fixpoint replace (pattern replacement s : string) : string :=
  match Content.stripPrefix pattern s with
  | Some rest => replacement ++ rest
  | None =>
      match s with
      | EmptyString => EmptyString
      | String c r => String c (replace pattern replacement r)
      end
  end.

(** The name of the alarm that [scheduleWorkflow] creates or clears. *)
Definition alarmName (workflowId : string) : string :=
  "wave-healthcheck-" ++ workflowId.

(** The listener of the alarms: the workflow whose health check it
    runs, if any. *)
Definition alarmWorkflow (name : string) : option string :=
  if Js.startsWith "wave-healthcheck-" name
  then Some (replace "wave-healthcheck-" "" name)
  else None.

(** ** The tab to record in *)

(** [findValidTab(windowId, excludeTabId)] over the tabs of the window.
    [sorted] stands for [validTabs.sort(...)], which reorders the array
    in a way that the comparator and the engine decide. *)
Definition findValidTab (sorted : list Tab -> list Tab) (tabs : list Tab)
    (excludeTabId : nat) : option Tab :=
  let validTabs :=
    List.filter (fun t => negb (tabId t =? excludeTabId)%nat
                          && negb (isRestrictedUrl (url t))
                          && Js.truthy (url t)) tabs in
  if (length validTabs =? 0)%nat then None else head (sorted validTabs).

End Background.

(** An integer stands for the Number that it is. *)
Coercion Background.Finite : Z >-> Background.Number.

(** * Example pages *)

Module Examples.

Import Content.

Definition top (e : Element) : Node := {| element := e; parentId := None |}.




(** A form whose [id] attribute is [login] and that holds an input named
    [id]: [form.id] is that input. *)
Definition loginForm : Element :=
  {| eid := 1; tagName := "FORM";
     attributes := [("id", "login"); ("data-testid", "login-form")];
     textContent := EmptyString; isSVG := false;
     namedId := Some {| objectString := "[object HTMLInputElement]"; objectLength := None |};
     hasStyle := true; computedStyle := shown; hasOffsetParent := true;
     isContentEditable := false;
     scrollThrows := false; clickThrows := false; focusThrows := false |}.
Definition loginPage : Document := simpleDocument [top loginForm].


(** A visible button found by its text. *)
Definition saveButton : Element := html 1 "BUTTON" [] "  Save  " shown.
Definition savePage : Document := simpleDocument [top saveButton].

(** A visible button whose text holds a comma. *)
Definition saveNowButton : Element := html 1 "BUTTON" [] "Save, now" shown.
Definition saveNowPage : Document := simpleDocument [top saveNowButton].



(** A list of two items without attributes in a list of class [menu]. *)
Definition menuList : Element := html 1 "UL" [("class", "menu")] EmptyString shown.
Definition firstItem : Element := html 2 "LI" [] EmptyString shown.
Definition secondItem : Element := html 3 "LI" [] EmptyString shown.

Definition listPage : Document :=
  simpleDocument
    [ top menuList;
      {| element := firstItem; parentId := Some 1%nat |};
      {| element := secondItem; parentId := Some 1%nat |} ].


(** A button that holds an icon in a label, inside a card under the
    pointer cursor. *)
Definition pointer : Style :=
  {| display := "block"; visibility := "visible"; opacity := "1"; cursor := "pointer" |}.
Definition card : Element := html 1 "DIV" [("class", "card")] "Buy" pointer.
Definition buyButton : Element := html 2 "BUTTON" [] "Buy" pointer.
Definition buyLabel : Element := html 3 "SPAN" [] "Buy" pointer.
Definition buyIcon : Element := html 4 "I" [] EmptyString pointer.

Definition cardPage : Document :=
  simpleDocument
    [ top card;
      {| element := buyButton; parentId := Some 1%nat |};
      {| element := buyLabel; parentId := Some 2%nat |};
      {| element := buyIcon; parentId := Some 3%nat |} ].

(** A file upload control and the step that was recorded when a file
    was chosen in it. *)
Definition uploadField : Element :=
  html 1 "INPUT" [("type", "File"); ("name", "avatar")] EmptyString shown.
Definition uploadPage : Document := simpleDocument [top uploadField].
Definition typeFileName : Step :=
  {| type := "input"; selector := Some ("input[name=" ++ q ++ "avatar" ++ q ++ "]");
     value := JsString "C:\fakepath\me.png" |}.

(** An element in a namespace of its own, which has tag name, text and
    layout but no [style], no [click] and no [offsetParent] property. *)
Definition foreignElement : Element :=
  {| eid := 1; tagName := "x-gauge"; attributes := [("id", "gauge")];
     textContent := EmptyString; isSVG := false; namedId := None; hasStyle := false;
     computedStyle := shown; hasOffsetParent := true; isContentEditable := false;
     scrollThrows := false; clickThrows := true; focusThrows := true |}.
Definition foreignPage : Document := simpleDocument [top foreignElement].
Definition clickForeign : Step :=
  {| type := "click"; selector := Some "#gauge"; value := JsNull |}.

(** The click on the button of [savePage]. *)
Definition clickSave : Step :=
  {| type := "click"; selector := Some (textSelector "button" "Save"); value := JsNull |}.

(** An input field, and the step that types into it. *)
Definition emailField : Element := html 1 "INPUT" [("name", "email")] EmptyString shown.
Definition signupPage : Document := simpleDocument [top emailField].

Definition typeEmail : Step :=
  {| type := "input";
     selector := Some ("input[name=" ++ q ++ "email" ++ q ++ "]");
     value := JsString "a@b.c" |}.

(** A page without elements. *)
Definition emptyPage : Document := simpleDocument [].

(** A page that is empty for 250 ms and then shows a button. *)
Definition lateButton : Element := html 1 "BUTTON" [("id", "late")] "Later" shown.

Definition lateTimeline : Timeline :=
  {| documentAt := fun t =>
       if (t <? 250)%Z then emptyPage else simpleDocument [top lateButton];
     lateness := fun _ => 0%nat |}.

(** A step of a type that the page script does not know, for an element
    that is not there. *)
Definition hoverStep : Step :=
  {| type := "hover"; selector := Some "#missing"; value := JsNull |}.

(** A text area, and the step that types into it. *)
Definition commentBox : Element :=
  html 1 "TEXTAREA" [("name", "comment")] EmptyString shown.

Definition commentPage : Document := simpleDocument [top commentBox].

Definition typeComment : Step :=
  {| type := "input";
     selector := Some ("textarea[name=" ++ q ++ "comment" ++ q ++ "]");
     value := JsString "hello" |}.

(** A page whose body holds a custom element with a shadow root (of
    identity 7) around a button. *)
Definition playerBody : Capture.Tree :=
  Capture.Elem "BODY" None
    [ Capture.Elem "X-PLAYER" (Some (7%nat, [Capture.Elem "BUTTON" None []])) [] ].

(** A page whose player has a shadow root that holds a second custom
    element with a shadow root of its own. *)
Definition nestedBody : Capture.Tree :=
  Capture.Elem "BODY" None
    [ Capture.Elem "X-PLAYER"
        (Some (7%nat,
               [ Capture.Elem "X-CONTROLS"
                   (Some (8%nat, [Capture.Elem "BUTTON" None []])) [] ]))
        [];
      Capture.Elem "X-FOOTER" (Some (9%nat, [])) [] ].

Definition recording : Capture.State :=
  snd (Capture.startRecording (Some playerBody) Capture.initial).

Definition stopped : Capture.State := Capture.stopRecording recording.

(** A stored workflow of three steps, played in a tab whose page does not
    find the element of the second. *)
Definition threeSteps : list Step :=
  [ {| type := "wait"; selector := None; value := JsString "250" |};
    {| type := "click"; selector := Some "#gone"; value := JsNull |};
    {| type := "wait"; selector := None; value := JsNumber 90000 |} ].

Definition failingBrowser : Background.Chrome :=
  {| Background.storedWorkflows :=
       [ {| Background.workflowId := "w1"; Background.steps := threeSteps;
            Background.slowMode := false |} ];
     Background.activeTab := Some {| Background.tabId := 3; Background.url := "https://example.org/" |};
     Background.isParsableHttpUrl := fun _ => true;
     Background.tabsUpdate := fun _ _ _ => Ok ();
     Background.tabCompletes := fun _ _ => Some 800%Z;
     Background.pingAnswer := fun _ _ => Ok true;
     Background.executeScript := fun _ _ => Ok ();
     Background.stepAnswer := fun _ _ _ =>
       (10000%Z, Ok (Some {| Background.success := false;
                             Background.error := Some "Element not found: #gone" |})) |}.

(** A tab whose page script answers every step with success, after
    [delay] milliseconds. *)
Definition obligingBrowser (delay : Z) : Background.Chrome :=
  {| Background.storedWorkflows := [];
     Background.activeTab := Some {| Background.tabId := 3; Background.url := "https://example.org/" |};
     Background.isParsableHttpUrl := fun _ => true;
     Background.tabsUpdate := fun _ _ _ => Ok ();
     Background.tabCompletes := fun _ _ => Some 800%Z;
     Background.pingAnswer := fun _ _ => Ok true;
     Background.executeScript := fun _ _ => Ok ();
     Background.stepAnswer := fun _ _ _ =>
       (delay, Ok (Some {| Background.success := true; Background.error := None |})) |}.

Definition clickGo : Step :=
  {| type := "click"; selector := Some "#go"; value := JsNull |}.


Definition failingTrace : Background.Trace :=
  [ Background.Slept 250; Background.Slept 300; Background.Pinged 3;
    Background.StepSent 3 {| type := "click"; selector := Some "#gone"; value := JsNull |};
    Background.TimerStarted 15000 ].

End Examples.

(** * Notions of the specification *)

Module Spec.






(** The alternatives that the resolver reads in a locator. *)
Definition alternatives (locator : string) : list string :=
  map Js.trim (Js.split "," locator).

(** [el] is a visible element that the alternative [alt] matches in
    [doc]: for a text selector an element of the tag with that trimmed
    text, otherwise an element that the query returns. *)
Definition VisibleMatch (doc : Content.Document) (alt : string) (el : Content.Element) : Prop :=
  Content.isVisible el = true
  /\ match Content.textMatch alt with
     | Some (tag, text) =>
         exists l, Content.querySelectorAll doc tag = Ok l /\ In el l
                   /\ Js.trim (Content.textContent el) = Js.unescapeQuotes text
     | None => exists l, Content.querySelectorAll doc alt = Ok l /\ In el l
     end.


(** The turns left to the polling loop cover the time left to it. *)
Definition covers (timeout start : Z) (fuel : nat) (now : Z) : Prop :=
  (1 <= fuel)%nat /\ (timeout - (now - start) <= 100 * (Z.of_nat fuel - 1))%Z.









(** The effects that change the value or the text of an element or tell
    the page of a change. *)
Definition touchesValue (e : Content.Effect) : bool :=
  match e with
  | Content.AssignValue _ _ | Content.AssignTextContent _ _
  | Content.CallNativeSetter _ _ _ | Content.DispatchEvent _ _ _ _ _ => true
  | _ => false
  end.

(** The effects that are a click. *)
Definition isClickEffect (e : Content.Effect) : bool :=
  match e with
  | Content.NativeClick _ => true
  | Content.DispatchEvent _ _ eventType _ _ => String.eqb eventType "click"
  | _ => false
  end.

(** Steps run one after the other in the order given, all with
    success: each starts from the trace that the one before left, after
    the pause between steps. *)
Inductive RunInOrder (chrome : Background.Chrome) (tab : nat) (stepDelay : Z)
    : list Step -> Background.Trace -> Background.Trace -> Prop :=
| RunNone tr : RunInOrder chrome tab stepDelay [] tr tr
| RunNext step rest tr tr1 tr' :
    Background.executeStep chrome tab step tr = (Ok (), tr1) ->
    RunInOrder chrome tab stepDelay rest (tr1 ++ [Background.Slept stepDelay])%list tr' ->
    RunInOrder chrome tab stepDelay (step :: rest) tr tr'.

(** The outcome of a replay of [steps] from the trace [tr]: either all
    steps ran in order, or the steps before the first failing one ran in
    order, that one failed with [message], nothing ran after it, and the
    report carries its position counted from one and [message]. *)
Definition ReplayOutcome (chrome : Background.Chrome) (tab : nat) (stepDelay : Z)
    (steps : list Step) (tr : Background.Trace)
    (r : Background.PlayResult) (tr' : Background.Trace) : Prop :=
  match r with
  | Background.Played => RunInOrder chrome tab stepDelay steps tr tr'
  | Background.Failed error stepIndex =>
      exists done failing rest message tr1,
        steps = (done ++ failing :: rest)%list
        /\ RunInOrder chrome tab stepDelay done tr tr1
        /\ Background.executeStep chrome tab failing tr1 = (Throw message, tr')
        /\ stepIndex = length done
        /\ error = "Step " ++ Js.ofNat (length done + 1) ++ " failed: " ++ message
  end.

(** The [n]-th ancestor of an element; the element itself for 0. *)
Fixpoint ancestor (doc : Content.Document) (n : nat) (e : Content.Element)
    : option Content.Element :=
  match n with
  | O => Some e
  | S n' =>
      match ancestor doc n' e with
      | Some a => Content.parentElement doc a
      | None => None
      end
  end.



(** What makes [getClickableElement] stop at a parent. *)
Definition stopsAt (e : Content.Element) : bool :=
  Content.isClickable e || Content.isPointerContainer e.

(** The browser whose storage holds [workflows]. *)
Definition withWorkflows (workflows : list Background.Workflow)
    (chrome : Background.Chrome) : Background.Chrome :=
  {| Background.storedWorkflows := workflows;
     Background.activeTab := Background.activeTab chrome;
     Background.isParsableHttpUrl := Background.isParsableHttpUrl chrome;
     Background.tabsUpdate := Background.tabsUpdate chrome;
     Background.tabCompletes := Background.tabCompletes chrome;
     Background.pingAnswer := Background.pingAnswer chrome;
     Background.executeScript := Background.executeScript chrome;
     Background.stepAnswer := Background.stepAnswer chrome |}.

(** The workflow stored under an id, as [handlePlayWorkflow] looks it
    up. *)
Definition stored (wanted : string) (workflows : list Background.Workflow)
    : option Background.Workflow :=
  List.find (fun w => String.eqb (Background.workflowId w) wanted) workflows.

(** The answer of the page script to [EXECUTE_STEP] as the orchestrator
    receives it. *)
Definition response (answer : result unit) : Background.Response :=
  match answer with
  | Ok _ => {| Background.success := true; Background.error := None |}
  | Throw m => {| Background.success := false; Background.error := Some m |}
  end.

(** The browser of a tab whose page runs the page script over the
    timeline [tl]: the script answers the ping, and it answers a step
    that is sent when the trace is [tr] with the outcome of its
    [executeStep] started at the instant [clock tr], after the time that
    this takes. *)
Definition withPageScript (tl : Content.Timeline) (win : Content.Window)
    (clock : Background.Trace -> Z) (chrome : Background.Chrome) : Background.Chrome :=
  {| Background.storedWorkflows := Background.storedWorkflows chrome;
     Background.activeTab := Background.activeTab chrome;
     Background.isParsableHttpUrl := Background.isParsableHttpUrl chrome;
     Background.tabsUpdate := Background.tabsUpdate chrome;
     Background.tabCompletes := Background.tabCompletes chrome;
     Background.pingAnswer := fun _ _ => Ok true;
     Background.executeScript := Background.executeScript chrome;
     Background.stepAnswer := fun tr _ step =>
       let out := Content.executeStep tl win step (clock tr) in
       ((Content.settledAt out - clock tr)%Z,
        Ok (Some (response (Content.answerExecuteStep out)))) |}.

(** The types of the steps that the orchestrator passes to the page
    script. *)
Definition forPage (step : Step) : Prop :=
  type step = "click" \/ type step = "input".

(** What the orchestrator may do in the tab [tab] for the step [step]:
    it loads an address only for a [navigate] step whose value is an
    HTTP(S) address, and only then waits for the tab to load, with the
    timers of 30 s and 500 ms of that wait; it sends only this step and
    only if it is for the page, and only then starts the timer of 15 s
    that the answer races; it sleeps only the 150 ms after an injection,
    the 200 ms before a second sending, or the time of a [wait] step;
    and it warns only about a type it does not know. *)
Definition MayDo (chrome : Background.Chrome) (tab : nat) (step : Step)
    (e : Background.Event) : Prop :=
  match e with
  | Background.TabUpdated t u =>
      t = tab /\ type step = "navigate" /\ u = Background.toString (value step)
      /\ Background.truthyValue (value step) = true
      /\ Background.isParsableHttpUrl chrome u = true
  | Background.TabLoadAwaited t => t = tab /\ type step = "navigate"
  | Background.Pinged t | Background.ScriptInjected t =>
      t = tab /\ (type step = "navigate" \/ forPage step)
  | Background.StepSent t sent => t = tab /\ sent = step /\ forPage step
  | Background.TimerStarted ms =>
      ((ms = 30000%Z \/ ms = 500%Z) /\ type step = "navigate")
      \/ (ms = 15000%Z /\ forPage step)
  | Background.Slept ms =>
      (ms = 150%Z /\ (type step = "navigate" \/ forPage step))
      \/ (ms = 200%Z /\ forPage step)
      \/ (type step = "wait"
          /\ ms = Background.Math_min (Background.waitTime (value step)) 30000%Z)
  | Background.Warned _ =>
      type step <> "navigate" /\ ~ forPage step /\ type step <> "wait"
  end.

Definition isStepSent (e : Background.Event) : bool :=
  match e with Background.StepSent _ _ => true | _ => false end.

(** How many times a step was sent to the page script in a trace. *)
Definition stepsSent (tr : Background.Trace) : nat :=
  length (List.filter isStepSent tr).

(** A capture state in which what is installed in the page agrees with
    the variables of the script: no listener is registered twice; the
    registered listeners are the six of the window and the document
    while recording, and the three of each attached shadow root; an
    observer observes only while recording, and it is the one in the
    observer variable; and when idle the observer variable is empty and
    the indicator is not in the page. *)
Definition Consistent (s : Capture.State) : Prop :=
  NoDup (Capture.listeners s)
  /\ (forall l, In l (Capture.listeners s) <->
                (Capture.isRecording s = true
                 /\ In l (Capture.registrations Capture.OnWindow
                          ++ Capture.registrations Capture.OnDocument)%list)
                \/ (exists r, r ∈ Capture.attachedShadowRoots s
                              /\ In l (Capture.registrations (Capture.OnShadowRoot r))))
  /\ (forall h, h ∈ Capture.observing s ->
                Capture.isRecording s = true /\ Capture.shadowObserver s = Some h)
  /\ (Capture.isRecording s = false ->
      Capture.shadowObserver s = None /\ Capture.indicatorShown s = false).

(** ** Selectors as the browser reads them *)

(** The simple selectors that the synthesizer writes: a type selector,
    [#id], [.class], [[attr="value"]], [[attr*="part"]] and
    [:nth-of-type(n)].  The names and values are those that the selector
    stands for, which [CSS.escape] writes so that the browser reads them
    back; it does so for every string that does not hold U+0000. *)
Inductive Simple :=
| TypeIs (tag : string)
| IdIs (id : string)
| ClassIs (class : string)
| AttrIs (attr value : string)
| AttrHas (attr part : string)
| NthOfType (n : nat).

(** A compound selector: simple selectors that one element satisfies
    together. *)
Definition Compound := list Simple.

(** A selector: compound selectors for an element and its ancestors in
    turn, joined by the child combinator, that of the element itself
    last. *)
Definition Selector := list Compound.




(** The white space at which the browser cuts a [class] attribute into
    classes: tab, line feed, form feed, carriage return and space. *)
Definition isHtmlSpace (c : ascii) : bool :=
  (Js.code c =? 9)%nat || (Js.code c =? 10)%nat || (Js.code c =? 12)%nat
  || (Js.code c =? 13)%nat || (Js.code c =? 32)%nat.

(** The classes of a [class] attribute: its maximal runs of characters
    other than white space. *)
Fixpoint tokens (s : string) : list string :=
  match s with
  | EmptyString => []
  | String c r =>
      if isHtmlSpace c then tokens r
      else match r with
           | EmptyString => [String c EmptyString]
           | String c' _ =>
               if isHtmlSpace c' then String c EmptyString :: tokens r
               else match tokens r with
                    | [] => [String c EmptyString]
                    | w :: ws => String c w :: ws
                    end
           end
  end.

(** [part] occurs in [s]. *)
Definition contains (part s : string) : bool :=
  match String.index 0 part s with Some _ => true | None => false end.

(** A type selector matches an HTML element whatever the case of the
    letters, and an SVG element by its very tag name. *)
Definition typeMatches (tag : string) (x : Content.Element) : bool :=
  if Content.isSVG x then String.eqb (Content.tagName x) tag
  else String.eqb (Js.toLowerCase (Content.tagName x)) (Js.toLowerCase tag).

(** Two elements of the same type: the same tag name in the same
    namespace. *)
Definition sameType (x c : Content.Element) : bool :=
  String.eqb (Content.tagName c) (Content.tagName x)
  && Bool.eqb (Content.isSVG c) (Content.isSVG x).

(** The element [x] satisfies a simple selector in the document: an
    element of the document tree of a page in no-quirks mode, where ids,
    classes and the values of these attributes are compared as they
    are. *)
Definition satisfies (doc : Content.Document) (x : Content.Element) (s : Simple) : bool :=
  match s with
  | TypeIs tag => typeMatches tag x
  | IdIs id =>
      match Content.getAttribute x "id" with
      | Some v => String.eqb v id
      | None => false
      end
  | ClassIs class => existsb (String.eqb class) (tokens (Content.reflected x "class"))
  | AttrIs attr value =>
      match Content.getAttribute x attr with
      | Some v => String.eqb v value
      | None => false
      end
  | AttrHas attr part =>
      match Content.getAttribute x attr with
      | Some v => negb (Js.isEmpty part) && contains part v
      | None => false
      end
  | NthOfType n =>
      match Content.parentElement doc x with
      | Some parent =>
          match Content.indexOf x (List.filter (sameType x) (Content.children doc parent)) with
          | Some i => (S i =? n)%nat
          | None => false
          end
      | None => (n =? 1)%nat
      end
  end.

Definition matchesCompound (doc : Content.Document) (c : Compound) (x : Content.Element)
    : bool :=
  negb (length c =? 0)%nat && forallb (satisfies doc x) c.

(** [x] matches the selector whose compounds are [compounds] from the
    last to the first: [x] satisfies the last, its parent the one
    before, and so on. *)
Fixpoint matchesFrom (doc : Content.Document) (compounds : list Compound)
    (x : Content.Element) : bool :=
  match compounds with
  | [] => false
  | [c] => matchesCompound doc c x
  | c :: outer =>
      matchesCompound doc c x
      && match Content.parentElement doc x with
         | Some parent => matchesFrom doc outer parent
         | None => false
         end
  end.

Definition matches (doc : Content.Document) (sel : Selector) (x : Content.Element) : bool :=
  matchesFrom doc (rev sel) x.

(** ** The locators that the synthesizer writes *)

(** A locator: a selector, or the text of an element of a tag. *)
Inductive Locator :=
| ByQuery (sel : Selector)
| ByText (tag text : string).




Definition one (c : Compound) : Locator := ByQuery [c].
















(** ** Elements that the synthesizer writes faithfully *)


End Spec.

(** * Properties *)

Import Content.

(** ** Strings *)








(** ** The cascade *)


(** The loop of [getCssPath] never runs out of turns: it is entered with
    at most four entries in the path, and any number of turns that makes
    five with them gives the same result. *)
Lemma cssPathLoop_turns doc : forall n m current path,
  (length path <= 4)%nat ->
  (5 <= n + length path)%nat -> (5 <= m + length path)%nat ->
  cssPathLoop doc n current path = cssPathLoop doc m current path.
Proof.
  induction n as [|n IH]; intros m current path Hlen Hn Hm; [simpl in Hn; lia|].
  destruct m as [|m]; [simpl in Hm; lia|].
  destruct current as [cur|]; [|reflexivity].
  cbn [cssPathLoop].
  destruct (truthyId (id cur) && isStableId (id cur)); [reflexivity|].
  destruct (firstUniqueAttr doc cur (Js.toLowerCase (tagName cur)) uniqueAttrs)
    as [found|]; [|reflexivity].
  cbn [mbind result_bind rbind].
  destruct found; cbn [length];
    (destruct (Nat.ltb_spec 4 (S (length path))); [reflexivity|]);
    apply IH; cbn [length]; lia.
Qed.

(** ** Priority of the id *)



(** On a form that names one of its controls [id], [element.id] is that
    control and not the [id] attribute: the id that the filter accepts and
    the locator writes is the string conversion of the control. *)
Example stable_id_of_form_naming_a_control :
  getAttribute Examples.loginForm "id" = Some "login"
  /\ idString (id Examples.loginForm) = "[object HTMLInputElement]"
  /\ isStableId (id Examples.loginForm) = true
  /\ generateSelector Examples.loginPage Examples.loginForm
     = Ok ("#" ++ String backslash "[object" ++ String backslash " HTMLInputElement"
           ++ String backslash "]").
Proof. repeat split. Qed.

(** ** The orchestrator *)

Lemma playFrom_outcome chrome tab stepDelay : forall steps i tr r tr',
  Background.playFrom chrome tab stepDelay i steps tr = (Ok r, tr') ->
  match r with
  | Background.Played => Spec.RunInOrder chrome tab stepDelay steps tr tr'
  | Background.Failed error stepIndex =>
      exists done failing rest message tr1,
        steps = (done ++ failing :: rest)%list
        /\ Spec.RunInOrder chrome tab stepDelay done tr tr1
        /\ Background.executeStep chrome tab failing tr1 = (Throw message, tr')
        /\ stepIndex = (i + length done)%nat
        /\ error = "Step " ++ Js.ofNat (i + length done + 1) ++ " failed: " ++ message
  end.
Proof.
  induction steps as [|step rest IH]; intros i tr r tr' H.
  - inversion H; subst. constructor.
  - cbn [Background.playFrom] in H.
    unfold mbind, Background.M_bind, Background.attempt, Background.sleep,
      Background.emit in H.
    destruct (Background.executeStep chrome tab step tr) as [[[]|message] tr1] eqn:E.
    + apply IH in H. destruct r as [|error stepIndex].
      * econstructor; eassumption.
      * destruct H as (done & failing & rest' & msg & tr2 & -> & Hrun & Hfail & -> & ->).
        exists (step :: done), failing, rest', msg, tr2.
        split; [reflexivity|]. split; [econstructor; eassumption|].
        split; [assumption|]. cbn [length].
        replace (S i + length done)%nat with (i + S (length done))%nat by lia.
        split; reflexivity.
    + inversion H; subst.
      exists [], step, rest, message, tr.
      cbn [length app]. rewrite Nat.add_0_r. repeat split; try assumption. constructor.
Qed.


(** C9: whenever [handlePlayWorkflow] resolves, the steps of the stored
    workflow ran in the active tab one after the other in order up to
    the first failure, nothing ran after the failing step, and the report
    names that step by its position counted from one, followed by the
    message of the error. *)
Theorem replay_stops_at_first_failure chrome wanted tr r tr' :
  Background.handlePlayWorkflow chrome wanted tr = (Ok r, tr') ->
  exists workflow tab,
    List.find (fun w => String.eqb (Background.workflowId w) wanted)
      (Background.storedWorkflows chrome) = Some workflow
    /\ Background.activeTab chrome = Some tab
    /\ Spec.ReplayOutcome chrome (Background.tabId tab)
         (if Background.slowMode workflow then 1500 else 300)%Z
         (Background.steps workflow) tr r tr'.
Proof.
  unfold Background.handlePlayWorkflow. intros H.
  destruct (List.find _ (Background.storedWorkflows chrome)) as [workflow|];
    [|discriminate].
  destruct (length (Background.steps workflow) =? 0)%nat; [discriminate|].
  destruct (Background.activeTab chrome) as [tab|]; [|discriminate].
  exists workflow, tab. split; [reflexivity|]. split; [reflexivity|].
  destruct (Background.isRestrictedUrl _ && _); [discriminate|].
  apply playFrom_outcome in H. unfold Spec.ReplayOutcome.
  destruct r; [exact H|].
  destruct H as (done & failing & rest & msg & tr1 & ? & ? & ? & ? & ?).
  exists done, failing, rest, msg, tr1. auto.
Qed.

Lemma replay_stops_at_first_failure_witness :
  Background.handlePlayWorkflow Examples.failingBrowser "w1" []
    = (Ok (Background.Failed "Step 2 failed: Element not found: #gone" 1),
       Examples.failingTrace)
  /\ Spec.ReplayOutcome Examples.failingBrowser 3 300 Examples.threeSteps []
       (Background.Failed "Step 2 failed: Element not found: #gone" 1)
       Examples.failingTrace.
Proof.
  split; [reflexivity|].
  destruct (replay_stops_at_first_failure Examples.failingBrowser "w1" []
              (Background.Failed "Step 2 failed: Element not found: #gone" 1)
              Examples.failingTrace eq_refl)
    as (workflow & tab & Hfound & Htab & H).
  inversion Hfound; subst workflow. inversion Htab; subst tab. exact H.
Defined.

(** ** The delay of a wait step *)

Ltac read_digit :=
  cbn [NilEmpty.string_of_uint Background.readDigits Pos.of_uint_acc Pos.of_uint];
  match goal with
  | |- context [Background.digitValue 10 ?c] =>
      let v := eval vm_compute in (Background.digitValue 10 c) in
      change (Background.digitValue 10 c) with v
  end;
  change (Z.of_nat 10) with 10%Z; cbv beta iota.

Lemma readDigits_uint_acc (d : Decimal.uint) : forall acc : positive,
  Background.readDigits 10 (NilEmpty.string_of_uint d) true (Z.pos acc)
  = Some (Z.pos (Pos.of_uint_acc d acc)).
Proof.
  induction d; intros acc; [reflexivity|..];
    read_digit; rewrite <- IHd; f_equal; lia.
Qed.

Lemma readDigits_uint (d : Decimal.uint) : forall seen,
  d <> Decimal.Nil \/ seen = true ->
  Background.readDigits 10 (NilEmpty.string_of_uint d) seen 0
  = Some (Z.of_N (Pos.of_uint d)).
Proof.
  induction d; intros seen Hseen;
    [destruct Hseen as [H| ->]; [now contradiction H | reflexivity] | ..];
    read_digit; try (apply IHd; now right);
    cbn [Z.of_N]; rewrite <- readDigits_uint_acc; reflexivity.
Qed.

(** Decides the tests on the characters that are known. *)
Ltac known_chars :=
  repeat (progress
    (cbv beta iota; cbn [andb orb];
     try match goal with
         | |- context [Js.isSpace (Ascii ?a ?b ?c ?d ?e ?f ?g ?h)] =>
             let v := eval vm_compute in (Js.isSpace (Ascii a b c d e f g h)) in
             change (Js.isSpace (Ascii a b c d e f g h)) with v
         | |- context [Ascii.eqb (Ascii ?a ?b ?c ?d ?e ?f ?g ?h) ?x] =>
             let v := eval vm_compute in (Ascii.eqb (Ascii a b c d e f g h) x) in
             change (Ascii.eqb (Ascii a b c d e f g h) x) with v
         end)).

(** The digits of a number are read back, with their sign: none of their
    characters is white space, a sign or the mark of the radix 16. *)
Lemma parseInt_digits (d : Decimal.uint) :
  d <> Decimal.Nil ->
  Background.parseInt (NilEmpty.string_of_uint d)
  = Some (Background.toNumber false (Z.of_N (Pos.of_uint d)))
  /\ Background.parseInt (String "-" (NilEmpty.string_of_uint d))
     = Some (Background.toNumber true (Z.of_N (Pos.of_uint d))).
Proof.
  intros Hd. unfold Background.parseInt.
  assert (Hread := readDigits_uint d false (or_introl Hd)).
  destruct d as [|d|d|d|d|d|d|d|d|d|d]; [now contradiction Hd|..];
    destruct d; cbn [NilEmpty.string_of_uint Js.trimStart] in Hread |- *;
    (split; known_chars; rewrite Hread; reflexivity).
Qed.

Lemma parseInt_decimal (n : Z) :
  Background.parseInt (Background.decimal n)
  = Some (Background.toNumber (n <? 0)%Z (Z.abs n)).
Proof.
  unfold Background.decimal. destruct n as [|p|p]; [reflexivity|..];
    cbn [Z.to_int NilZero.string_of_int Z.abs Z.ltb Z.compare];
    pose proof (DecimalPos.Unsigned.of_to p) as Hp;
    pose proof (DecimalPos.Unsigned.to_uint_nonnil p) as Hnil;
    destruct (parseInt_digits (Pos.to_uint p) Hnil) as [Hplus Hminus];
    rewrite Hp in Hplus, Hminus; cbn [Z.of_N] in Hplus, Hminus;
    unfold NilZero.string_of_uint;
    destruct (Pos.to_uint p); first [now contradiction Hnil | assumption].
Qed.

Lemma nearestNumber_small (m : Z) :
  (0 <= m < 2 ^ 53)%Z -> Background.nearestNumber m = Some m.
Proof.
  intros [H0 H]. unfold Background.nearestNumber.
  assert (Hlog : (Z.log2 m < 53)%Z).
  { destruct (Z.eq_dec m 0%Z) as [->|Hm]; [reflexivity|].
    apply Z.log2_lt_pow2; lia. }
  cbv zeta. now replace (Z.log2 m - 52 <=? 0)%Z with true by lia.
Qed.

(** Below 2^53 the string conversion of a number is its digits, and
    [parseInt] reads the number back. *)
Lemma parseInt_toString_number (n : Z) :
  (Z.abs n < 2 ^ 53)%Z ->
  Background.parseInt (Background.toString (JsNumber n)) = Some (Background.Finite n).
Proof.
  intros Hn.
  assert (Hstring : Background.toString (JsNumber n) = Background.decimal n).
  { unfold Background.toString, Background.magnitudeString.
    destruct n as [|p|p]; cbn [Z.ltb Z.compare Z.opp].
    - reflexivity.
    - destruct (Z.ltb_spec (Z.pos p) (2 ^ 53)); [reflexivity | lia].
    - change (- Z.neg p)%Z with (Z.pos p).
      destruct (Z.ltb_spec (Z.pos p) (2 ^ 53)); [reflexivity | lia]. }
  rewrite Hstring, parseInt_decimal. unfold Background.toNumber.
  rewrite nearestNumber_small by lia. f_equal. f_equal.
  destruct (Z.ltb_spec n 0%Z); lia.
Qed.

(** A [wait] step makes the orchestrator call [sleep] once and do nothing
    else.  The number that [sleep] is called with is the integer that
    [parseInt] reads in the value of the step when there is one and it is
    not zero, 1000 otherwise, and 30000 when that is more than 30000: for
    a number below 2^53, and for a string of its digits, it is that
    number, and 1000 for no value.  The delay of the timer is this
    number when it is not negative, and at most 30000 as long as the
    number is -2^31 or more. *)
Lemma wait_step_sleep chrome tab (step : Step) tr :
  type step = "wait" ->
  exists ms : Background.Number,
    Background.executeStep chrome tab step tr = (Ok (), (tr ++ [Background.Slept ms])%list)
    /\ ms = Background.Math_min (Background.waitTime (value step)) 30000%Z
    /\ match value step with
       | JsNumber n =>
           (Z.abs n < 2 ^ 53)%Z ->
           ms = Background.Finite (if (n =? 0)%Z then 1000 else Z.min n 30000)
       | JsString s =>
           forall n, s = Background.decimal n -> (Z.abs n < 2 ^ 53)%Z ->
                     ms = Background.Finite (if (n =? 0)%Z then 1000 else Z.min n 30000)
       | JsNull | JsUndefined => ms = Background.Finite 1000
       end
    /\ match ms with
       | Background.Finite n =>
           (n <= 30000)%Z
           /\ ((- 2 ^ 31 <= n)%Z -> Background.timerDelay ms = Z.max 0 n)
       | Background.Infinity => False
       | Background.MinusInfinity => True
       end.
Proof.
  intros Htype.
  exists (Background.Math_min (Background.waitTime (value step)) 30000%Z).
  split; [unfold Background.executeStep; rewrite Htype; reflexivity|].
  split; [reflexivity|]. split.
  - assert (Hnumber : forall n, (Z.abs n < 2 ^ 53)%Z ->
              Background.parseInt (Background.decimal n) = Some (Background.Finite n)).
    { intros n Hn. rewrite parseInt_decimal. unfold Background.toNumber.
      rewrite nearestNumber_small by lia. f_equal. f_equal.
      destruct (Z.ltb_spec n 0%Z); lia. }
    unfold Background.waitTime.
    destruct (value step) as [| |s|n]; [reflexivity | reflexivity | |].
    + intros n -> Hn. cbn [Background.toString]. rewrite (Hnumber n Hn).
      cbn [Background.truthyNumber]. destruct (Z.eqb_spec n 0%Z); reflexivity.
    + intros Hn. rewrite (parseInt_toString_number n Hn).
      cbn [Background.truthyNumber]. destruct (Z.eqb_spec n 0%Z); reflexivity.
  - destruct (Background.waitTime (value step)) as [n| |]; cbn [Background.Math_min].
    + split; [lia|]. intros Hlow. unfold Background.timerDelay, Background.toInt32.
      f_equal. rewrite Z.mod_small; lia.
    + split; [lia|]. intros _. reflexivity.
    + exact I.
Qed.

Lemma wait_step_sleep_witness :
  Background.executeStep Examples.failingBrowser 3
    {| type := "wait"; selector := None; value := JsNumber 90000 |} []
  = (Ok (), [Background.Slept 30000]).
Proof.
  destruct (wait_step_sleep Examples.failingBrowser 3
              {| type := "wait"; selector := None; value := JsNumber 90000 |} [] eq_refl)
    as (ms & Hrun & _ & Hnumber & _).
  rewrite Hrun, Hnumber; [reflexivity | cbn; lia].
Defined.

(** What [sleep] is called with for some values of a [wait] step: the
    digits before the exponent of a number of 10^21 or more, the digits
    after the mark of the radix 16, 1000 for a text without digits, and
    a negative number as it is, for which the timer has no delay. *)
Example wait_step_values :
  map (fun v => Background.Math_min (Background.waitTime v) 30000%Z)
    [ JsNumber (10 ^ 21); JsNumber (2 ^ 70); JsString "0x10"; JsString " 250ms";
      JsString "soon"; JsString "0"; JsNumber (-5) ]
  = map Background.Finite [1; 1; 16; 250; 1000; 1000; -5]%Z
  /\ Background.toString (JsNumber (10 ^ 21)) = "1e+21"
  /\ Background.toString (JsNumber (2 ^ 70)) = "1.1805916207174113e+21"
  /\ Background.timerDelay (-5)%Z = 0%Z.
Proof. vm_compute. repeat split. Qed.

(** C10: the delay of a [wait] step is not capped at 30000 ms for every
    value.  For a number that is below -2^31, and above 30000 - 2^32,
    [sleep] is called with that number, as for every negative number
    whose magnitude is below 2^53; the timer takes it as the signed
    integer of 32 bits that is 2^32 more, which is more than 30000: for
    -2147483649 the delay is 2147483647 ms.  The comment of the call says
    that the wait is of 30 s at most. *)
Theorem negative_wait_is_not_capped chrome tab tr (n : Z) :
  (30000 - 2 ^ 32 < n < - 2 ^ 31)%Z ->
  Background.executeStep chrome tab
    {| type := "wait"; selector := None; value := JsNumber n |} tr
  = (Ok (), (tr ++ [Background.Slept n])%list)
  /\ Background.timerDelay n = (n + 2 ^ 32)%Z
  /\ (30000 < Background.timerDelay n)%Z.
Proof.
  intros Hn.
  destruct (wait_step_sleep chrome tab
              {| type := "wait"; selector := None; value := JsNumber n |} tr eq_refl)
    as (ms & Hrun & _ & Hnumber & _).
  cbn [value] in Hnumber. rewrite Hrun, Hnumber by lia.
  replace (n =? 0)%Z with false by lia. rewrite Z.min_l by lia.
  assert (Hdelay : Background.timerDelay n = (n + 2 ^ 32)%Z).
  { unfold Background.timerDelay, Background.toInt32.
    replace ((n + 2 ^ 31) mod 2 ^ 32)%Z with (n + 2 ^ 31 + 2 ^ 32)%Z; [lia|].
    apply Z.mod_unique with (q := (-1)%Z); lia. }
  rewrite Hdelay. repeat split. lia.
Qed.

Lemma negative_wait_is_not_capped_witness :
  Background.executeStep Examples.failingBrowser 3
    {| type := "wait"; selector := None; value := JsNumber (-2147483649) |} []
  = (Ok (), [Background.Slept (-2147483649)%Z])
  /\ Background.timerDelay (-2147483649)%Z = 2147483647%Z
  /\ (30000 < Background.timerDelay (-2147483649)%Z)%Z.
Proof.
  apply (negative_wait_is_not_capped Examples.failingBrowser 3 [] (-2147483649)%Z).
  lia.
Defined.

(** ** The polling loop *)

Section Polling.

Variable tl : Timeline.
Variable selectors : list string.
Variable timeout start : Z.

Lemma sleep_advances now ms : (now + Z.max 0 ms <= sleep tl now ms)%Z.
Proof. unfold sleep. lia. Qed.

(** With enough turns the loop ends, either with an element resolved at
    an instant within the timeout or with [null] once the timeout is
    over. *)
Lemma waitLoop_ends : forall fuel now,
  Spec.covers timeout start fuel now ->
  exists r, waitLoop tl selectors timeout start fuel now = Some r
    /\ match r with
       | (Some el, t) =>
           (now <= t)%Z /\ (t - start < timeout)%Z
           /\ resolveFirst (documentAt tl t) selectors = Some el
       | (None, t) => (now <= t)%Z /\ (timeout <= t - start)%Z
       end.
Proof.
  unfold Spec.covers. induction fuel as [|fuel IH]; intros now [Hpos Hc]; [lia|].
  - cbn [waitLoop]. destruct (Z.ltb_spec (now - start) timeout) as [Hlt|Hge].
    + destruct (resolveFirst (documentAt tl now) selectors) as [el|] eqn:E.
      * eexists. split; [reflexivity|]. cbn. repeat split; [lia | lia | exact E].
      * pose proof (sleep_advances now 100) as Hs.
        destruct (IH (sleep tl now 100)) as ([[el|] t] & -> & Hr); [lia| |].
        -- eexists. split; [reflexivity|]. cbn in *. destruct Hr as (? & ? & ?).
           repeat split; [lia | lia | assumption].
        -- eexists. split; [reflexivity|]. cbn in *. lia.
    + eexists. split; [reflexivity|]. cbn. lia.
Qed.

End Polling.

Lemma pollBudget_covers timeout start :
  Spec.covers timeout start (pollBudget timeout) start.
Proof.
  unfold Spec.covers, pollBudget. split; [lia|].
  destruct (Z.le_gt_cases 0 timeout).
  - rewrite Nat2Z.inj_add, Z2Nat.id by (apply Z.div_pos; lia).
    pose proof (Z.mod_pos_bound timeout 100 ltac:(lia)).
    pose proof (Z.div_mod timeout 100 ltac:(lia)). lia.
  - lia.
Qed.

(** The turns that [waitForElement] grants to its loop are never used
    up. *)
Lemma waitForElement_budget tl selectors timeout start :
  waitLoop tl selectors timeout start (pollBudget timeout) start <> None.
Proof.
  destruct (waitLoop_ends tl selectors timeout start (pollBudget timeout) start
              (pollBudget_covers timeout start)) as (r & -> & _).
  discriminate.
Qed.

(** [waitForElement] returns: an element that one alternative resolves
    at some instant within the timeout, or [null] not before the timeout
    is over. *)
Lemma waitForElement_returns tl locator timeout start :
  match waitForElement tl locator timeout start with
  | (Some el, t) =>
      (start <= t)%Z /\ (t - start < timeout)%Z
      /\ resolveFirst (documentAt tl t) (Spec.alternatives locator) = Some el
  | (None, t) => (start <= t)%Z /\ (timeout <= t - start)%Z
  end.
Proof.
  unfold waitForElement.
  destruct (waitLoop_ends tl (map Js.trim (Js.split "," locator)) timeout start
              (pollBudget timeout) start (pollBudget_covers timeout start))
    as (r & -> & Hr).
  exact Hr.
Qed.

(** An alternative that matches no visible element resolves nothing. *)
Lemma resolveOne_none doc alt :
  (forall el, ~ Spec.VisibleMatch doc alt el) -> resolveOne doc alt = None.
Proof.
  unfold Spec.VisibleMatch, resolveOne. intros H.
  destruct (textMatch alt) as [[tag text]|].
  - destruct (querySelectorAll doc tag) as [l|] eqn:E; [|reflexivity].
    destruct (List.find _ l) as [el|] eqn:F; [|reflexivity].
    apply List.find_some in F as [Hin Hp].
    apply andb_prop in Hp as [Ht Hv]. apply String.eqb_eq in Ht.
    exfalso. apply (H el). eauto.
  - unfold querySelector.
    destruct (querySelectorAll doc alt) as [l|] eqn:E; [|reflexivity].
    cbn [mbind result_bind rbind].
    destruct l as [|el l]; [reflexivity|]. cbn [head].
    destruct (isVisible el) eqn:Hv; [|reflexivity].
    exfalso. apply (H el). split; [exact Hv|]. exists (el :: l). split; [reflexivity|].
    now left.
Qed.

Lemma resolveFirst_none doc alts :
  (forall alt el, In alt alts -> ~ Spec.VisibleMatch doc alt el) ->
  resolveFirst doc alts = None.
Proof.
  induction alts as [|alt alts IH]; intros H; [reflexivity|].
  cbn [resolveFirst]. rewrite resolveOne_none.
  - apply IH. intros a el Hin. apply H. now right.
  - intros el. apply H. now left.
Qed.

(** ** Failure of the resolution *)

(** C5: when at no instant any alternative of the locator of a step
    matches a visible element, [executeStep] throws the error [Element
    not found] followed by the locator as it was given, does nothing to
    the page, and does so 10000 ms after its start at the earliest. *)
Theorem element_not_found_after_timeout tl win (step : Step) locator start :
  selector step = Some locator ->
  (forall t alt el, In alt (Spec.alternatives locator) ->
                    ~ Spec.VisibleMatch (documentAt tl t) alt el) ->
  isElementNotFound locator (completion (Content.executeStep tl win step start))
  /\ effects (Content.executeStep tl win step start) = []
  /\ (start + 10000 <= settledAt (Content.executeStep tl win step start))%Z.
Proof.
  intros Hsel Hnone. unfold Content.executeStep, isElementNotFound. rewrite Hsel.
  pose proof (waitForElement_returns tl locator defaultTimeout start) as Hw.
  destruct (waitForElement tl locator defaultTimeout start) as [[el|] t].
  - destruct Hw as (_ & _ & Hres).
    rewrite resolveFirst_none in Hres; [discriminate|].
    intros alt el'. apply Hnone.
  - cbn. unfold defaultTimeout in Hw. repeat split; lia.
Qed.

Lemma element_not_found_after_timeout_witness :
  selector Examples.hoverStep = Some "#missing"
  /\ isElementNotFound "#missing"
       (completion (Content.executeStep (still Examples.emptyPage) browserWindow
                      Examples.hoverStep 0))
  /\ effects (Content.executeStep (still Examples.emptyPage) browserWindow
                Examples.hoverStep 0) = []
  /\ (0 + 10000 <= settledAt (Content.executeStep (still Examples.emptyPage) browserWindow
                                Examples.hoverStep 0))%Z.
Proof.
  split; [reflexivity|].
  apply (element_not_found_after_timeout (still Examples.emptyPage) browserWindow
           Examples.hoverStep "#missing" 0); [reflexivity|].
  intros t alt el [<-|[]] [_ (l & Hl & Hin)].
  cbn in Hl. inversion Hl; subst. exact Hin.
Defined.

(** ** Steps of an unknown type *)

(** C6, as stated, fails: a step of an unknown type whose element is not
    found ends with [Element not found], not with [Unknown step type]. *)
Lemma unknown_type_without_element_counterexample :
  type Examples.hoverStep <> "click" /\ type Examples.hoverStep <> "input"
  /\ ~ isUnknownStepType Examples.hoverStep
       (completion (Content.executeStep (still Examples.emptyPage) browserWindow
                      Examples.hoverStep 0))
  /\ isElementNotFound "#missing"
       (completion (Content.executeStep (still Examples.emptyPage) browserWindow
                      Examples.hoverStep 0)).
Proof.
  split; [discriminate|]. split; [discriminate|].
  split; [vm_compute; discriminate | vm_compute; reflexivity].
Qed.

(** C6, amended: the locator of the step is read, and its element
    resolved, before the type of the step is looked at.  Every step
    whose type is neither [click] nor [input] fails without anything
    done to the page: a step that has no locator at once, with the
    [TypeError] of the call of [split] on [undefined]; a step whose
    locator resolves to an element with [Unknown step type]; and a step
    whose locator does not resolve with [Element not found]. *)
Theorem unknown_type_after_resolution tl win (step : Step) start :
  type step <> "click" -> type step <> "input" ->
  effects (Content.executeStep tl win step start) = []
  /\ match selector step with
     | None =>
         completion (Content.executeStep tl win step start)
         = Throw "Cannot read properties of undefined (reading 'split')"
         /\ settledAt (Content.executeStep tl win step start) = start
     | Some locator =>
         match fst (waitForElement tl locator defaultTimeout start) with
         | Some _ =>
             isUnknownStepType step (completion (Content.executeStep tl win step start))
         | None =>
             isElementNotFound locator (completion (Content.executeStep tl win step start))
         end
     end.
Proof.
  intros Hclick Hinput.
  unfold Content.executeStep, isUnknownStepType, isElementNotFound.
  destruct (selector step) as [locator|]; [|now split].
  destruct (waitForElement tl locator defaultTimeout start) as [[el|] t]; cbn [fst].
  - apply String.eqb_neq in Hclick, Hinput. rewrite Hclick, Hinput. now split.
  - now split.
Qed.

Lemma unknown_type_after_resolution_witness :
  isUnknownStepType
    {| type := "hover"; selector := Some "textarea"; value := JsNull |}
    (completion (Content.executeStep (still Examples.commentPage) browserWindow
                   {| type := "hover"; selector := Some "textarea"; value := JsNull |} 0))
  /\ completion (Content.executeStep (still Examples.commentPage) browserWindow
                   {| type := "wait"; selector := None; value := JsNumber 500 |} 0)
     = Throw "Cannot read properties of undefined (reading 'split')".
Proof.
  split.
  - apply (unknown_type_after_resolution (still Examples.commentPage) browserWindow
             {| type := "hover"; selector := Some "textarea"; value := JsNull |} 0);
      discriminate.
  - apply (unknown_type_after_resolution (still Examples.commentPage) browserWindow
             {| type := "wait"; selector := None; value := JsNumber 500 |} 0);
      discriminate.
Defined.

(** The orchestrator sends only [click] and [input] steps to the page:
    a step of any other type, [navigate] and [wait] apart, is skipped
    with a warning and without failure. *)
Lemma orchestrator_skips_unknown_type chrome tab (step : Step) tr :
  type step <> "navigate" -> type step <> "click" -> type step <> "input" ->
  type step <> "wait" ->
  Background.executeStep chrome tab step tr
  = (Ok (), (tr ++ [Background.Warned ("[Wave Background] Unknown step type: "
                                        ++ type step)])%list).
Proof.
  intros H1 H2 H3 H4. apply String.eqb_neq in H1, H2, H3, H4.
  unfold Background.executeStep. rewrite H1, H2, H3, H4. reflexivity.
Qed.

(** ** Typing into a field *)

(** On an [input] element a browser window makes the step call the
    native setter of the input prototype and then dispatch the three
    bubbling events in order. *)
Lemma input_value_through_native_setter tl element v now :
  tagName element = "INPUT" -> isSVG element = false ->
  isContentEditable element = false ->
  hasStyle element = true -> valueSetterRefuses element v = false ->
  completion (performInput tl browserWindow element v now) = Ok ()
  /\ exists before,
       effects (performInput tl browserWindow element v now)
       = (before ++
            [ CallNativeSetter HTMLInputElement (eid element) v;
              DispatchEvent (eid element) "Event" "input" true false;
              DispatchEvent (eid element) "Event" "change" true false;
              DispatchEvent (eid element) "KeyboardEvent" "keyup" true false ])%list.
Proof.
  intros Htag Hsvg Hedit Hstyle Hvalue.
  unfold performInput, approach, highlightElement, setRegularValue, nativeValueSetter,
    implements.
  rewrite Htag, Hsvg, Hedit, Hstyle, Hvalue. cbn.
  split; [reflexivity|]. eexists. reflexivity.
Qed.

(** On a text area the setter that the step picks is still the one of
    the input prototype whenever that exists, and the call throws. *)
Lemma textarea_value_setter_rejected tl win element v now :
  tagName element = "TEXTAREA" -> isContentEditable element = false ->
  hasStyle element = true ->
  inputValueSetter win = true ->
  completion (performInput tl win element v now) = Throw "Illegal invocation"
  /\ forall e, In e (effects (performInput tl win element v now)) ->
       match e with
       | CallNativeSetter _ _ _ | AssignValue _ _ | DispatchEvent _ _ _ _ _ => False
       | _ => True
       end.
Proof.
  intros Htag Hedit Hstyle Hsetter.
  unfold performInput, approach, highlightElement, setRegularValue, nativeValueSetter,
    implements.
  rewrite Htag, Hedit, Hstyle, Hsetter. cbn. rewrite andb_false_r. cbn.
  split; [reflexivity|].
  intros e Hin. rewrite List.app_nil_r in Hin.
  destruct (scrollThrows element), (focusThrows element); cbn in Hin;
    repeat (destruct Hin as [<-|Hin]; [exact I|]); destruct Hin.
Qed.

(** C7 at a text area: the step that types [hello] into the text area of
    the page throws after the focus; the value is not assigned and no
    event is dispatched. *)
Theorem input_step_on_textarea_throws :
  Content.executeStep (still Examples.commentPage) browserWindow Examples.typeComment 0
  = {| completion := Throw "Illegal invocation";
       effects := [ScrollIntoView 1; Slept 200; Highlight 1; Focus 1];
       settledAt := 200 |}.
Proof. vm_compute. reflexivity. Qed.

(** ** The capture state *)

Lemma In_removeEventListener l x ls :
  In l (Capture.removeEventListener x ls) <-> In l ls /\ l <> x.
Proof.
  unfold Capture.removeEventListener. rewrite List.filter_In.
  rewrite negb_true_iff, bool_decide_eq_false. reflexivity.
Qed.

Lemma In_removeAll old : forall l ls,
  In l (Capture.removeAll old ls) <-> In l ls /\ ~ In l old.
Proof.
  unfold Capture.removeAll.
  induction old as [|x old IH]; intros l ls; cbn [fold_left].
  - cbn. tauto.
  - rewrite IH, In_removeEventListener. cbn. intuition congruence.
Qed.

Lemma In_addEventListener l x ls :
  In l (Capture.addEventListener x ls) <-> In l ls \/ l = x.
Proof.
  unfold Capture.addEventListener. destruct (decide (x ∈ ls)) as [Hin|Hin].
  - apply list_elem_of_In in Hin. split; [tauto|]. intros [H| ->]; assumption.
  - rewrite List.in_app_iff. cbn. intuition congruence.
Qed.

Lemma In_addAll new : forall l ls,
  In l (Capture.addAll new ls) <-> In l ls \/ In l new.
Proof.
  unfold Capture.addAll.
  induction new as [|x new IH]; intros l ls; cbn [fold_left].
  - cbn. tauto.
  - rewrite IH, In_addEventListener. cbn. intuition congruence.
Qed.

(** Induction on a page tree, through the shadow root and the children. *)
Lemma Tree_induction (P : Capture.Tree -> Prop)
    (step : forall tag shadow kids,
        match shadow with
        | Some (_, content) => Forall P content
        | None => True
        end ->
        Forall P kids -> P (Capture.Elem tag shadow kids)) : forall t, P t.
Proof.
  exact (fix go (t : Capture.Tree) : P t :=
    let all := fix all (l : list Capture.Tree) : Forall P l :=
      match l with
      | [] => @List.Forall_nil _ P
      | x :: rest => @List.Forall_cons _ P x rest (go x) (all rest)
      end in
    match t with
    | Capture.Elem tag shadow kids =>
        step tag shadow kids
          match shadow with
          | Some (_, content) => all content
          | None => I
          end
          (all kids)
    end).
Qed.

(** What [attach] keeps is kept by [attachToShadowRoots]. *)
Lemma attachToShadowRoots_keeps (Q : Capture.State -> Capture.State -> Prop) :
  (forall s, Q s s) ->
  (forall s1 s2 s3, Q s1 s2 -> Q s2 s3 -> Q s1 s3) ->
  (forall rid s, Q s (Capture.attach rid s)) ->
  forall root s, Q s (Capture.attachToShadowRoots root s).
Proof.
  intros Hrefl Htrans Hattach.
  induction root as [tag shadow kids IHshadow IHkids] using Tree_induction.
  assert (Hall : forall l, Forall (fun t => forall s, Q s (Capture.attachToShadowRoots t s)) l ->
            forall s,
              Q s ((fix scanAll (l : list Capture.Tree) (s : Capture.State) : Capture.State :=
                      match l with
                      | [] => s
                      | t :: rest => scanAll rest (Capture.attachToShadowRoots t s)
                      end) l s)).
  { induction 1 as [|t rest Ht _ IH]; intros s; [apply Hrefl|].
    eapply Htrans; [apply Ht | apply IH]. }
  intros s. cbn [Capture.attachToShadowRoots].
  eapply Htrans; [|apply Hall, IHkids].
  destruct shadow as [[rid content]|]; [|apply Hrefl].
  destruct (decide (rid ∈ Capture.attachedShadowRoots s)); [apply Hrefl|].
  eapply Htrans; [apply Hattach | apply Hall, IHshadow].
Qed.

Lemma attachToShadowRoots_grows root s :
  Capture.attachedShadowRoots s
  ⊆ Capture.attachedShadowRoots (Capture.attachToShadowRoots root s).
Proof.
  apply (attachToShadowRoots_keeps
           (fun a b => Capture.attachedShadowRoots a ⊆ Capture.attachedShadowRoots b)).
  - done.
  - intros s1 s2 s3 H12 H23. set_solver.
  - intros rid s1. cbn. set_solver.
Qed.

(** Shadow roots once attached stay in the set through [startRecording]. *)
Lemma startRecording_keeps_attached body s :
  Capture.attachedShadowRoots s ⊆ Capture.attachedShadowRoots (snd (Capture.startRecording body s)).
Proof.
  unfold Capture.startRecording. destruct (Capture.isRecording s); [done|].
  unfold Capture.observeShadowRoots, Capture.showRecordingIndicator.
  destruct body as [b|]; cbn [snd]; [|done].
  match goal with
  | |- _ ⊆ Capture.attachedShadowRoots (if ?c then _ else _) => destruct c
  end; cbn [Capture.attachedShadowRoots Capture.setIndicator];
    (etrans; [|apply (attachToShadowRoots_grows b)]); done.
Qed.

(** [stopRecording] does nothing in the idle state. *)
Lemma stopRecording_idle s : Capture.isRecording s = false -> Capture.stopRecording s = s.
Proof. unfold Capture.stopRecording. now intros ->. Qed.

(** [startRecording] does nothing in the recording state. *)
Lemma startRecording_recording body s :
  Capture.isRecording s = true -> Capture.startRecording body s = (Ok (), s).
Proof. unfold Capture.startRecording. now intros ->. Qed.

(** C8: [stopRecording] does not detach the listeners of the shadow roots
    and does not clear the set of attached shadow roots, and the next
    [startRecording] does not discover the shadow roots afresh.  After a
    recording on a page whose player has the shadow root 7 has been
    stopped, the three listeners on that root are the registered
    listeners and the root is in the set.  When the page has then put
    into that shadow root an element with the shadow root 8, and into the
    body a footer with the shadow root 9, a recording that starts in a
    fresh script attaches the roots 7, 8 and 9, and the recording that
    starts after the stop attaches the root 9 only: it does not enter
    the root 7, which is in the set, the root 8 is not attached and has
    no listener. *)
Theorem shadow_roots_not_rediscovered :
  let stopped :=
    Capture.stopRecording (snd (Capture.startRecording (Some Examples.playerBody)
                                  Capture.initial)) in
  let restarted := snd (Capture.startRecording (Some Examples.nestedBody) stopped) in
  let fresh := snd (Capture.startRecording (Some Examples.nestedBody) Capture.initial) in
  Capture.isRecording stopped = false
  /\ Capture.listeners stopped = Capture.registrations (Capture.OnShadowRoot 7)
  /\ (forall r, r ∈ Capture.attachedShadowRoots stopped <-> r = 7%nat)
  /\ Capture.isRecording fresh = true
  /\ Capture.listeners fresh
     = (Capture.registrations Capture.OnWindow
        ++ Capture.registrations Capture.OnDocument
        ++ Capture.registrations (Capture.OnShadowRoot 7)
        ++ Capture.registrations (Capture.OnShadowRoot 8)
        ++ Capture.registrations (Capture.OnShadowRoot 9))%list
  /\ Capture.isRecording restarted = true
  /\ Capture.listeners restarted
     = (Capture.registrations (Capture.OnShadowRoot 7)
        ++ Capture.registrations Capture.OnWindow
        ++ Capture.registrations Capture.OnDocument
        ++ Capture.registrations (Capture.OnShadowRoot 9))%list
  /\ (forall r, r ∈ Capture.attachedShadowRoots restarted <-> r = 7%nat \/ r = 9%nat).
Proof.
  cbv zeta.
  split; [reflexivity|]. split; [reflexivity|].
  split.
  { intros r.
    replace (Capture.attachedShadowRoots _) with ({[ 7%nat ]} ∪ ∅ : gset nat)
      by (apply (bool_decide_unpack _); vm_compute; exact I).
    rewrite elem_of_union, elem_of_singleton, elem_of_empty. tauto. }
  split; [reflexivity|]. split; [reflexivity|].
  split; [reflexivity|]. split; [reflexivity|].
  intros r.
  replace (Capture.attachedShadowRoots _) with ({[ 9%nat ]} ∪ ({[ 7%nat ]} ∪ ∅) : gset nat)
    by (apply (bool_decide_unpack _); vm_compute; exact I).
  rewrite !elem_of_union, !elem_of_singleton, elem_of_empty. tauto.
Qed.

(** Runs [stopRecording] on a recording state, by cases on the observer
    variable and on the indicator. *)
Ltac stop_cases s Hrec :=
  unfold Capture.stopRecording, Capture.hideRecordingIndicator;
  rewrite Hrec; cbn;
  destruct (Capture.shadowObserver s) eqn:?, (Capture.indicatorShown s) eqn:?; cbn.

(** What [stopRecording] does in every recording state: it leaves the
    idle state in which none of the registrations on the window and on
    the document remains, the observer variable is empty and its observer
    no longer observes, and the indicator is gone.  The registrations on
    shadow roots and the set of attached shadow roots are as before, and
    a later [startRecording] keeps every root of that set in it. *)
Lemma stopRecording_detaches_page_listeners (s : Capture.State) :
  Capture.isRecording s = true ->
  let s' := Capture.stopRecording s in
  Capture.isRecording s' = false
  /\ (forall l, In l (Capture.registrations Capture.OnWindow
                       ++ Capture.registrations Capture.OnDocument)%list ->
                ~ In l (Capture.listeners s'))
  /\ Capture.shadowObserver s' = None
  /\ (forall h, Capture.shadowObserver s = Some h -> h ∉ Capture.observing s')
  /\ Capture.indicatorShown s' = false
  /\ Capture.attachedShadowRoots s' = Capture.attachedShadowRoots s
  /\ (forall l, Capture.onShadowRoot l = true ->
                (In l (Capture.listeners s') <-> In l (Capture.listeners s)))
  /\ (forall body, Capture.attachedShadowRoots s
                   ⊆ Capture.attachedShadowRoots (snd (Capture.startRecording body s'))).
Proof.
  intros Hrec s'.
  assert (Hl : Capture.listeners s'
               = Capture.removeAll (Capture.registrations Capture.OnDocument)
                   (Capture.removeAll (Capture.registrations Capture.OnWindow)
                      (Capture.listeners s))) by (subst s'; now stop_cases s Hrec).
  assert (Ha : Capture.attachedShadowRoots s' = Capture.attachedShadowRoots s)
    by (subst s'; now stop_cases s Hrec).
  split; [subst s'; now stop_cases s Hrec|].
  split.
  { intros l Hin. rewrite Hl, !In_removeAll. apply List.in_app_iff in Hin. tauto. }
  split; [subst s'; now stop_cases s Hrec|].
  split.
  { intros h Hh. subst s'. stop_cases s Hrec; try discriminate;
      injection Hh as <-; apply not_elem_of_difference; right; now apply elem_of_singleton. }
  split; [subst s'; now stop_cases s Hrec|].
  split; [exact Ha|].
  split.
  { intros l Hshadow. rewrite Hl, !In_removeAll.
    split; [tauto|]. intros Hin. repeat split; [exact Hin | |];
      intros Hreg; cbn in Hreg;
      repeat (destruct Hreg as [<-|Hreg]; [discriminate Hshadow|]); exact Hreg. }
  intros body. rewrite <- Ha. apply startRecording_keeps_attached.
Qed.

Lemma stopRecording_detaches_page_listeners_witness :
  Capture.isRecording Examples.recording = true
  /\ Capture.listeners Examples.stopped
     = Capture.registrations (Capture.OnShadowRoot 7)
  /\ Capture.indicatorShown Examples.stopped = false.
Proof.
  split; [reflexivity|]. split; [reflexivity|].
  apply (stopRecording_detaches_page_listeners Examples.recording eq_refl).
Defined.

(** ** Locators as strings *)

Lemma append_cons c (a b : string) : String c a ++ b = String c (a ++ b).
Proof. reflexivity. Qed.

Lemma append_empty (b : string) : EmptyString ++ b = b.
Proof. reflexivity. Qed.



Lemma escapeQuotes_head s :
  match Js.escapeQuotes s with
  | String c _ => Ascii.eqb c dquote = false
  | EmptyString => True
  end.
Proof.
  destruct s as [|c s]; cbn; [exact I|].
  destruct (Ascii.eqb c dquote) eqn:E; [reflexivity | exact E].
Qed.

(** The resolver undoes the escaping of the synthesizer. *)
Lemma unescape_escape s : Js.unescapeQuotes (Js.escapeQuotes s) = s.
Proof.
  induction s as [|c s IH]; [reflexivity|].
  cbn [Js.escapeQuotes].
  destruct (Ascii.eqb c dquote) eqn:E.
  - apply Ascii.eqb_eq in E. subst c. cbn. now rewrite IH.
  - cbn [Js.unescapeQuotes].
    pose proof (escapeQuotes_head s) as Hh.
    destruct (Js.escapeQuotes s) as [|c' r] eqn:Er.
    + destruct s as [|d s']; [reflexivity|].
      cbn in Er. destruct (Ascii.eqb d dquote); discriminate.
    + rewrite Hh, andb_false_r. now rewrite IH.
Qed.

Lemma escapeQuotes_empty s : Js.escapeQuotes s = EmptyString -> s = EmptyString.
Proof.
  destruct s as [|c s]; [reflexivity|]. cbn.
  destruct (Ascii.eqb c dquote); discriminate.
Qed.

Lemma span_all_then p (a : string) c r :
  Js.all p a = true -> p c = false ->
  span p (a ++ String c r) = (a, String c r).
Proof.
  intros Ha Hc. induction a as [|d a IH]; rewrite ?append_cons, ?append_empty; cbn [span].
  - now rewrite Hc.
  - cbn [Js.all] in Ha. apply andb_prop in Ha as [Hd Ha]. rewrite Hd, (IH Ha). reflexivity.
Qed.

Lemma stripPrefix_app p s : stripPrefix p (p ++ s) = Some s.
Proof.
  induction p as [|c p IH]; [reflexivity|].
  rewrite append_cons. cbn [stripPrefix]. now rewrite Ascii.eqb_refl.
Qed.

Lemma dropClosing_closed lit :
  dropClosing (lit ++ String dquote (String ")" EmptyString)) = Some lit.
Proof.
  induction lit as [|c lit IH]; [reflexivity|].
  rewrite append_cons. cbn [dropClosing]. rewrite IH.
  destruct (lit ++ String dquote (String ")" EmptyString)) as [|c1 [|c2 r]] eqn:E.
  - destruct lit; discriminate.
  - destruct lit as [|? [|? ?]]; discriminate.
  - reflexivity.
Qed.

(** A text selector is read back as its tag and its escaped literal. *)
Lemma textMatch_textSelector tag text :
  Js.all Js.isWord tag = true -> Js.isEmpty tag = false ->
  Js.isEmpty text = false ->
  Js.any Js.isLineTerminator (Js.escapeQuotes text) = false ->
  textMatch (textSelector tag text) = Some (tag, Js.escapeQuotes text).
Proof.
  intros Hw Hne Htext Hlt. unfold textMatch, textSelector.
  change (":text(" ++ q ++ Js.escapeQuotes text ++ q ++ ")")
    with (String ":" ("text(" ++ q ++ Js.escapeQuotes text ++ q ++ ")")).
  rewrite span_all_then by (assumption || reflexivity).
  rewrite Hne.
  change (String ":" ("text(" ++ q ++ Js.escapeQuotes text ++ q ++ ")"))
    with ((":text(" ++ q) ++ (Js.escapeQuotes text ++ q ++ ")")).
  rewrite stripPrefix_app.
  change (Js.escapeQuotes text ++ q ++ ")")
    with (Js.escapeQuotes text ++ String dquote (String ")" EmptyString)).
  rewrite dropClosing_closed, Hlt.
  destruct (Js.escapeQuotes text) eqn:E; [|reflexivity].
  apply escapeQuotes_empty in E. subst text. discriminate.
Qed.











Lemma lowerChar_idem c : Js.lowerChar (Js.lowerChar c) = Js.lowerChar c.
Proof. destruct c as [[] [] [] [] [] [] [] []]; vm_compute; reflexivity. Qed.

Lemma toLowerCase_idem s : Js.toLowerCase (Js.toLowerCase s) = Js.toLowerCase s.
Proof.
  induction s as [|c s IH]; [reflexivity|]. cbn [Js.toLowerCase].
  now rewrite lowerChar_idem, IH.
Qed.

Lemma cssPathLoop_turn doc n cur path :
  cssPathLoop doc (S n) (Some cur) path
  = if truthyId (id cur) && isStableId (id cur) then
      Ok (("#" ++ CSS_escape (idString (id cur))) :: path)
    else
      found ← firstUniqueAttr doc cur (Js.toLowerCase (tagName cur)) uniqueAttrs;
      let path' :=
        match found with
        | Some attrSel => attrSel :: path
        | None => plainLevel doc cur :: path
        end in
      if (4 <? length path')%nat then Ok path'
      else cssPathLoop doc n (parentElement doc cur) path'.
Proof. reflexivity. Qed.

Lemma join_two sep p p' ps : Js.join sep (p :: p' :: ps) = p ++ sep ++ Js.join sep (p' :: ps).
Proof. reflexivity. Qed.




Lemma firstUniqueAttr_shape doc cur sel : forall attrs s,
  firstUniqueAttr doc cur sel attrs = Ok (Some s) ->
  exists attr v, s = attrSelector sel attr v.
Proof.
  induction attrs as [|attr attrs IH]; intros s H; cbn [firstUniqueAttr] in H.
  - discriminate.
  - destruct (getAttribute cur attr) as [v|]; [|now apply IH].
    destruct (Js.truthy v); [|now apply IH].
    destruct (matchesOne doc (attrSelector sel attr v)) as [[]|]; cbn in H.
    + inversion H. eauto.
    + now apply IH.
    + discriminate.
Qed.


(** ** The text strategy and the resolver *)










(** What the success of the text strategy tells. *)
Lemma byText_inv doc e s :
  byText doc e = Ok (Some s) ->
  let text := Js.trim (textContent e) in
  let tag := Js.toLowerCase (tagName e) in
  s = textSelector tag text
  /\ Js.isEmpty text = false
  /\ Js.all Js.isWord tag = true /\ Js.isEmpty tag = false
  /\ exists candidates,
       querySelectorAll doc tag = Ok candidates
       /\ length (List.filter (fun el => String.eqb (Js.trim (textContent el)) text)
                    candidates) = 1%nat.
Proof.
  unfold byText. intros H.
  destruct (tagIs e _) eqn:Htag; [|discriminate].
  destruct (Js.truthy (Js.trim (textContent e)) && _ && _) eqn:Hlen; [|discriminate].
  destruct (querySelectorAll doc (Js.toLowerCase (tagName e))) as [candidates|] eqn:Hq;
    cbn [mbind result_bind rbind] in H; [|discriminate].
  destruct (length _ =? 1)%nat eqn:Hone; [|discriminate].
  inversion H. cbv zeta.
  split; [reflexivity|].
  split.
  { apply andb_prop in Hlen as [Hlen _]. apply andb_prop in Hlen as [Hlen _].
    unfold Js.truthy in Hlen. now apply negb_true_iff in Hlen. }
  assert (Hword : Js.all Js.isWord (Js.toLowerCase (tagName e)) = true
                  /\ Js.isEmpty (Js.toLowerCase (tagName e)) = false).
  { unfold tagIs in Htag. cbn [existsb] in Htag.
    repeat (apply orb_prop in Htag as [Htag|Htag];
            [apply String.eqb_eq in Htag; rewrite Htag; split; reflexivity|]).
    discriminate. }
  destruct Hword as [Hw He]. split; [exact Hw|]. split; [exact He|].
  exists candidates. split; [reflexivity|]. now apply Nat.eqb_eq.
Qed.


(** ** Round trip *)

(** *** The locator as a selector *)
























(** *** The selector of an element matches the element *)

















(** *** The locator of a selector is not read as a text locator *)



(** *** What the locator of an element tells *)










(** ** Commas in a locator *)

(** C4 at a text locator with a comma: the visible button whose text is
    [Save, now] gets a text locator from [generateSelector]; the resolver
    cuts that locator at the comma inside the quoted literal into two
    strings, neither of which is read as a text selector or is a
    selector at all, and returns [null] when the timeout is over,
    although the only button of the page is visible and has that very
    text. *)
Theorem comma_in_text_locator_not_resolved :
  let locator := textSelector "button" "Save, now" in
  generateSelector Examples.saveNowPage Examples.saveNowButton = Ok locator
  /\ isVisible Examples.saveNowButton = true
  /\ querySelectorAll Examples.saveNowPage "button" = Ok [Examples.saveNowButton]
  /\ Js.trim (textContent Examples.saveNowButton) = "Save, now"
  /\ Spec.alternatives locator
     = [ "button:text(" ++ q ++ "Save" ; "now" ++ q ++ ")" ]
  /\ textMatch ("button:text(" ++ q ++ "Save") = None
  /\ textMatch ("now" ++ q ++ ")") = None
  /\ waitForElement (still Examples.saveNowPage) locator defaultTimeout 0 = (None, 10000%Z).
Proof.
  cbv zeta. repeat (split; [reflexivity|]). vm_compute. reflexivity.
Qed.

(** ** The id locator of an unstable id *)











(** The loop of [getCssPath] only puts entries in front of the path, and
    leaves at most five in it. *)
Lemma cssPathLoop_extends doc : forall n current path r,
  (length path <= 4)%nat ->
  cssPathLoop doc n current path = Ok r ->
  exists front, r = (front ++ path)%list /\ (length r <= 5)%nat.
Proof.
  induction n as [|n IH]; intros current path r Hlen H.
  - cbn in H. inversion H; subst. exists []. split; [reflexivity | lia].
  - destruct current as [c|];
      [|cbn in H; inversion H; subst; exists []; split; [reflexivity | lia]].
    rewrite cssPathLoop_turn in H.
    destruct (truthyId (id c) && isStableId (id c)).
    { inversion H; subst. exists ["#" ++ CSS_escape (idString (id c))]. split; [reflexivity|].
      cbn [length]. lia. }
    destruct (firstUniqueAttr doc c (Js.toLowerCase (tagName c)) uniqueAttrs)
      as [found|]; [|discriminate].
    cbn [mbind result_bind rbind] in H. cbv zeta in H.
    set (entry := match found with Some attrSel => attrSel | None => plainLevel doc c end).
    assert (Hentry : (match found with
                      | Some attrSel => attrSel :: path
                      | None => plainLevel doc c :: path
                      end) = entry :: path) by (subst entry; now destruct found).
    rewrite Hentry in H.
    destruct (Nat.ltb_spec 4 (length (entry :: path))) as [Hfull|Hroom].
    + inversion H; subst. exists [entry]. split; [reflexivity|]. cbn [length] in *. lia.
    + apply IH in H as (front & -> & Hle); [|exact Hroom].
      exists (front ++ [entry])%list. split; [|exact Hle].
      now rewrite <- List.app_assoc.
Qed.





(** ** Rejection of generated ids *)



(** ** Examples of the filters and of [CSS.escape] *)

Example isStableId_uuid :
  isStableId (IdText "a1b2c3d4-e5f6-7890-abcd-1234567890ab") = false.
Proof. reflexivity. Qed.
Example isStableId_react : isStableId (IdText ":r1a:") = false.
Proof. reflexivity. Qed.
Example isStableId_plain : isStableId (IdText "submit-btn") = true.
Proof. reflexivity. Qed.
Example isStableClass_hash : isStableClass "ab-1f3e9" = false.
Proof. reflexivity. Qed.
Example isStableClass_emotion : isStableClass "CSS-1x2y" = false.
Proof. reflexivity. Qed.
Example isStableClass_plain : isStableClass "btn-primary" = true.
Proof. reflexivity. Qed.
Example CSS_escape_digit : CSS_escape "1a b" = String backslash "31 a" ++ String backslash " b".
Proof. reflexivity. Qed.


(** * Further properties of the page script *)

(** ** Text locators *)

Lemma escapeQuotes_lineTerminator s :
  Js.any Js.isLineTerminator (Js.escapeQuotes s) = Js.any Js.isLineTerminator s.
Proof.
  induction s as [|c s IH]; [reflexivity|].
  cbn [Js.escapeQuotes]. destruct (Ascii.eqb_spec c dquote) as [->|].
  - cbn [Js.any]. rewrite IH. reflexivity.
  - cbn [Js.any]. now rewrite IH.
Qed.

(** X1: The resolver reads the text locator that the synthesizer writes for
    a tag and a text back as that tag and that text, whatever quotes and
    backslashes the text holds, unless the text holds a line terminator:
    then the locator is not read as a text locator at all. *)
Theorem text_locator_read_back tag text :
  Js.all Js.isWord tag = true -> Js.isEmpty tag = false ->
  Js.isEmpty text = false ->
  if Js.any Js.isLineTerminator text
  then textMatch (textSelector tag text) = None
  else exists literal,
         textMatch (textSelector tag text) = Some (tag, literal)
         /\ Js.unescapeQuotes literal = text.
Proof.
  intros Hw Hne Htext.
  destruct (Js.any Js.isLineTerminator text) eqn:Hlt.
  - unfold textMatch, textSelector.
    change (":text(" ++ q ++ Js.escapeQuotes text ++ q ++ ")")
      with (String ":" ("text(" ++ q ++ Js.escapeQuotes text ++ q ++ ")")).
    rewrite span_all_then by (assumption || reflexivity).
    rewrite Hne.
    change (String ":" ("text(" ++ q ++ Js.escapeQuotes text ++ q ++ ")"))
      with ((":text(" ++ q) ++ (Js.escapeQuotes text ++ q ++ ")")).
    rewrite stripPrefix_app.
    change (Js.escapeQuotes text ++ q ++ ")")
      with (Js.escapeQuotes text ++ String dquote (String ")" EmptyString)).
    rewrite dropClosing_closed, escapeQuotes_lineTerminator, Hlt.
    now rewrite andb_false_r.
  - exists (Js.escapeQuotes text). split; [|apply unescape_escape].
    apply textMatch_textSelector; try assumption.
    now rewrite escapeQuotes_lineTerminator.
Qed.

Lemma text_locator_read_back_witness :
  exists literal,
    textMatch (textSelector "button" ("Say " ++ q ++ "hi" ++ q)) = Some ("button", literal)
    /\ Js.unescapeQuotes literal = "Say " ++ q ++ "hi" ++ q.
Proof.
  exact (text_locator_read_back "button" ("Say " ++ q ++ "hi" ++ q) eq_refl eq_refl eq_refl).
Defined.

(** ** What the resolver returns *)

Lemma resolveOne_visible doc sel el : resolveOne doc sel = Some el -> isVisible el = true.
Proof.
  unfold resolveOne. destruct (textMatch sel) as [[tag text]|].
  - destruct (querySelectorAll doc tag) as [l|]; [|discriminate].
    intros H. apply List.find_some in H as [_ H]. now apply andb_prop in H as [_ H].
  - destruct (querySelector doc sel) as [[x|]|]; try discriminate.
    destruct (isVisible x) eqn:Hv; [|discriminate]. intros H. now inversion H; subst.
Qed.

Lemma resolveFirst_from doc : forall alts el,
  resolveFirst doc alts = Some el -> exists alt, In alt alts /\ resolveOne doc alt = Some el.
Proof.
  induction alts as [|alt alts IH]; intros el H; [discriminate|].
  cbn [resolveFirst] in H. destruct (resolveOne doc alt) as [x|] eqn:E.
  - inversion H; subst. exists alt. split; [now left | exact E].
  - destruct (IH el H) as (a & Hin & Ha). exists a. split; [now right | exact Ha].
Qed.

(** X2: [waitForElement] never returns an element that is not visible: what
    it returns was resolved, visible, by one of the alternatives of the
    locator at an instant within the timeout; and it returns [null] only
    once the timeout is over. *)
Theorem waitForElement_returns_visible tl locator timeout start :
  match waitForElement tl locator timeout start with
  | (Some el, t) =>
      isVisible el = true
      /\ (start <= t < start + timeout)%Z
      /\ exists alt, In alt (Spec.alternatives locator)
                     /\ resolveOne (documentAt tl t) alt = Some el
  | (None, t) => (start + timeout <= t)%Z
  end.
Proof.
  pose proof (waitForElement_returns tl locator timeout start) as H.
  destruct (waitForElement tl locator timeout start) as [[el|] t].
  - destruct H as (H1 & H2 & H3).
    apply resolveFirst_from in H3 as (alt & Hin & Hres).
    split; [now apply resolveOne_visible in Hres|]. split; [lia|]. eauto.
  - lia.
Qed.

(** ** Waiting for late elements *)

Section LateElement.

Variable tl : Timeline.
Variable selectors : list string.
Variable timeout start : Z.
Variable appears : Z.
Variable late : Z.
Variable el : Element.

Hypothesis lateness_bound : forall t, (Z.of_nat (lateness tl t) <= late)%Z.
Hypothesis nothing_before : forall t,
  (start <= t < appears)%Z -> resolveFirst (documentAt tl t) selectors = None.
Hypothesis there_after : forall t,
  (appears <= t)%Z -> resolveFirst (documentAt tl t) selectors = Some el.
Hypothesis in_time : (appears + 100 + late <= start + timeout)%Z.

Lemma waitLoop_catches : forall fuel now,
  Spec.covers timeout start fuel now ->
  (start <= now < appears + 100 + late)%Z ->
  exists t, waitLoop tl selectors timeout start fuel now = Some (Some el, t)
            /\ (appears <= t < appears + 100 + late)%Z /\ (now <= t)%Z.
Proof.
  unfold Spec.covers. induction fuel as [|fuel IH]; intros now [Hpos Hc] Hnow; [lia|].
  cbn [waitLoop]. destruct (Z.ltb_spec (now - start) timeout) as [Hlt|Hge]; [|lia].
  destruct (Z.lt_ge_cases now appears) as [Hbefore|Hafter].
  - rewrite nothing_before by lia.
    pose proof (lateness_bound now) as Hl.
    destruct (IH (sleep tl now 100)) as (t & -> & Ht & Hle).
    + unfold sleep. lia.
    + unfold sleep. lia.
    + exists t. split; [reflexivity|]. unfold sleep in Hle. lia.
  - rewrite there_after by lia. exists now. split; [reflexivity | lia].
Qed.

End LateElement.

(** X3: An element that is not there when the step starts but that the
    locator resolves from some instant on is found: when timers are late
    by at most [late] ms and that instant leaves 100 + [late] ms before
    the timeout, [waitForElement] returns the element, at a poll no
    later than 100 + [late] ms after the element has appeared. *)
Theorem waitForElement_finds_late_element tl locator timeout start appears late el :
  (forall t, (Z.of_nat (lateness tl t) <= late)%Z) ->
  (forall t, (start <= t < appears)%Z ->
             resolveFirst (documentAt tl t) (Spec.alternatives locator) = None) ->
  (forall t, (appears <= t)%Z ->
             resolveFirst (documentAt tl t) (Spec.alternatives locator) = Some el) ->
  (start <= appears)%Z ->
  (appears + 100 + late <= start + timeout)%Z ->
  exists t, waitForElement tl locator timeout start = (Some el, t)
            /\ (appears <= t < appears + 100 + late)%Z.
Proof.
  intros Hlate Hbefore Hafter Hstart Htime.
  pose proof (Hlate start) as Hl0.
  destruct (waitLoop_catches tl (Spec.alternatives locator) timeout start appears late el
              Hlate Hbefore Hafter Htime (pollBudget timeout) start
              (pollBudget_covers timeout start)) as (t & Hrun & Ht & _); [lia|].
  exists t. split; [|exact Ht].
  unfold waitForElement. unfold Spec.alternatives in Hrun. now rewrite Hrun.
Qed.

Lemma waitForElement_finds_late_element_witness :
  exists t,
    waitForElement Examples.lateTimeline "#late" 10000 0 = (Some Examples.lateButton, t)
    /\ (250 <= t < 250 + 100 + 0)%Z.
Proof.
  apply waitForElement_finds_late_element with (el := Examples.lateButton).
  - intros t. cbn. lia.
  - intros t Ht. cbn. unfold Examples.lateTimeline, documentAt.
    destruct (Z.ltb_spec t 250); [reflexivity | lia].
  - intros t Ht. cbn. unfold Examples.lateTimeline, documentAt.
    destruct (Z.ltb_spec t 250); [lia | reflexivity].
  - lia.
  - lia.
Defined.

(** ** Shape of the synthesized locator *)

Lemma isEmpty_app (a b : string) : Js.isEmpty (a ++ b) = Js.isEmpty a && Js.isEmpty b.
Proof. destruct a; reflexivity. Qed.

Lemma join_not_empty sep (front : list string) (last : string) :
  Js.isEmpty sep = false -> Js.isEmpty last = false ->
  Js.isEmpty (Js.join sep (front ++ [last])) = false.
Proof.
  intros Hsep Hlast. destruct front as [|p front]; [exact Hlast|].
  destruct (front ++ [last])%list as [|p' rest] eqn:E.
  - destruct front; discriminate.
  - cbn [app]. rewrite E. rewrite join_two, !isEmpty_app, Hsep.
    now rewrite andb_false_r.
Qed.

Lemma attrSelector_not_empty t attr v : Js.isEmpty (attrSelector t attr v) = false.
Proof. unfold attrSelector. rewrite isEmpty_app. now rewrite andb_false_r. Qed.

Lemma plainLevel_not_empty doc cur :
  Js.isEmpty (tagName cur) = false -> Js.isEmpty (plainLevel doc cur) = false.
Proof.
  intros Ht. assert (Hl : Js.isEmpty (Js.toLowerCase (tagName cur)) = false)
    by (destruct (tagName cur); [discriminate | reflexivity]).
  unfold plainLevel. rewrite isEmpty_app.
  destruct (classString cur) as [cls|].
  - destruct (firstn 2 (stableClasses cls)); [now rewrite Hl|].
    rewrite isEmpty_app. now rewrite Hl.
  - now rewrite Hl.
Qed.



(** X5: [generateSelector] never returns the empty string for an element
    that has a tag name, so no click is dropped for want of a locator. *)
Theorem generateSelector_not_empty doc e s :
  Js.isEmpty (tagName e) = false ->
  generateSelector doc e = Ok s -> Js.isEmpty s = false.
Proof.
  intros Ht Hgen.
  unfold generateSelector, generateAfterId, generateFromHref in Hgen.
  destruct (byStableId e) eqn:E1.
  { inversion Hgen; subst. unfold byStableId in E1.
    destruct (_ && _); [|discriminate]. now inversion E1. }
  destruct (byTestAttribute e) eqn:E2.
  { inversion Hgen; subst. unfold byTestAttribute in E2.
    destruct (orElse _ _) as [v|]; [|discriminate].
    destruct (Js.truthy v); [|discriminate]. now inversion E2. }
  destruct (byFormName e) eqn:E3.
  { inversion Hgen; subst. unfold byFormName in E3. destruct (_ && _); [|discriminate].
    inversion E3. apply attrSelector_not_empty. }
  destruct (byHref doc e) as [[?|]|] eqn:E4; cbn [mbind result_bind rbind] in Hgen;
    [ | | discriminate].
  { inversion Hgen; subst. unfold byHref in E4.
    destruct (_ && _); [|discriminate].
    destruct (_ && _); [|discriminate].
    destruct (matchesOne doc (attrSelector "a" "href" (reflected e "href"))) as [[]|];
      cbn [mbind result_bind rbind] in E4; [| |discriminate].
    - now inversion E4.
    - destruct (urlPathname doc (reflected e "href")) as [pathname|];
        cbn [mbind result_bind rbind] in E4; [|discriminate].
      destruct (_ && _); [|discriminate].
      destruct (matchesOne doc _) as [[]|]; cbn [mbind result_bind rbind] in E4;
        try discriminate.
      now inversion E4. }
  destruct (byText doc e) as [[?|]|] eqn:E5; cbn [mbind result_bind rbind] in Hgen;
    [ | | discriminate].
  { inversion Hgen; subst. apply byText_inv in E5 as (-> & _ & _ & Hne & _).
    unfold textSelector. rewrite isEmpty_app. now rewrite Hne. }
  destruct (byUniqueAttribute "aria-label" doc e) as [[?|]|] eqn:E6;
    cbn [mbind result_bind rbind] in Hgen; [ | | discriminate].
  { inversion Hgen; subst. unfold byUniqueAttribute in E6.
    destruct (getAttribute e "aria-label") as [v|]; [|discriminate].
    destruct (Js.truthy v); [|discriminate].
    destruct (matchesOne doc _) as [[]|]; cbn [mbind result_bind rbind] in E6;
      try discriminate.
    now inversion E6. }
  destruct (byUniqueAttribute "title" doc e) as [[?|]|] eqn:E7;
    cbn [mbind result_bind rbind] in Hgen; [ | | discriminate].
  { inversion Hgen; subst. unfold byUniqueAttribute in E7.
    destruct (getAttribute e "title") as [v|]; [|discriminate].
    destruct (Js.truthy v); [|discriminate].
    destruct (matchesOne doc _) as [[]|]; cbn [mbind result_bind rbind] in E7;
      try discriminate.
    now inversion E7. }
  destruct (byClasses doc e) as [[?|]|] eqn:E8; cbn [mbind result_bind rbind] in Hgen;
    [ | | discriminate].
  { inversion Hgen; subst. unfold byClasses in E8.
    destruct (classString e) as [cls|]; [|discriminate].
    destruct (0 <? _)%nat; [|discriminate].
    destruct (matchesOne doc _) as [[]|]; cbn [mbind result_bind rbind] in E8;
      try discriminate.
    inversion E8. unfold classSuffix. rewrite !isEmpty_app. now rewrite andb_false_r. }
  destruct (byPlaceholder doc e) as [[?|]|] eqn:E9; cbn [mbind result_bind rbind] in Hgen;
    [ | | discriminate].
  { inversion Hgen; subst. unfold byPlaceholder in E9.
    destruct (_ && _); [|discriminate].
    destruct (matchesOne doc _) as [[]|]; cbn [mbind result_bind rbind] in E9;
      try discriminate.
    now inversion E9. }
  assert (Hnn : forall r, getCssPath doc e = Ok r -> Js.isEmpty r = false).
  { intros r Hr. unfold getCssPath in Hr.
    destruct (cssPathLoop doc 5 (Some e) []) as [p|] eqn:E; [|discriminate].
    cbn in Hr. inversion Hr; subst r. clear Hr.
    rewrite cssPathLoop_turn in E.
    destruct (truthyId (id e) && isStableId (id e)); [now inversion E|].
    destruct (firstUniqueAttr doc e (Js.toLowerCase (tagName e)) uniqueAttrs)
      as [found|] eqn:F; [|discriminate].
    cbn [mbind result_bind rbind] in E. cbv zeta in E.
    set (own := match found with Some attrSel => attrSel | None => plainLevel doc e end).
    assert (Hown : Js.isEmpty own = false).
    { subst own. destruct found as [x|]; [|now apply plainLevel_not_empty].
      apply firstUniqueAttr_shape in F as (attr & v & ->). apply attrSelector_not_empty. }
    assert (Hentry : (match found with
                      | Some attrSel => attrSel :: []
                      | None => plainLevel doc e :: []
                      end) = [own]) by (subst own; now destruct found).
    rewrite Hentry in E. change (4 <? length [own])%nat with false in E.
    apply cssPathLoop_extends in E as (front & -> & _); [|cbn; lia].
    now apply join_not_empty. }
  now apply Hnn.
Qed.

Lemma generateSelector_not_empty_witness :
  Js.isEmpty (tagName Examples.secondItem) = false
  /\ generateSelector Examples.listPage Examples.secondItem = Ok "ul.menu > li:nth-of-type(2)"
  /\ Js.isEmpty "ul.menu > li:nth-of-type(2)" = false.
Proof.
  split; [reflexivity|]. split; [reflexivity|].
  apply (generateSelector_not_empty Examples.listPage Examples.secondItem); reflexivity.
Defined.

(** ** Clicks and inputs once the element is found *)

(** X6: A [click] step whose element is found fails in one case only:
    the element has no [style] property, the highlight throws after the
    pause and nothing is clicked.  On every other element it does not
    fail, whatever the element throws on scrolling or on its native
    click, and its last effect is the only click, native or, when the
    native click throws, a synthetic bubbling and cancelable mouse event
    on the same element.  In both cases it settles 200 ms or more after
    the element was found. *)
Theorem click_step_clicks_once tl win (step : Step) locator start el t :
  type step = "click" ->
  selector step = Some locator ->
  waitForElement tl locator defaultTimeout start = (Some el, t) ->
  let out := Content.executeStep tl win step start in
  (t + 200 <= settledAt out)%Z
  /\ if hasStyle el then
       completion out = Ok ()
       /\ length (List.filter Spec.isClickEffect (effects out)) = 1%nat
       /\ exists before,
            effects out
            = (before ++ [ if clickThrows el
                           then DispatchEvent (eid el) "MouseEvent" "click" true true
                           else NativeClick (eid el) ])%list
     else
       completion out = Throw "Cannot read properties of undefined (reading 'outline')"
       /\ List.filter Spec.isClickEffect (effects out) = [].
Proof.
  intros Htype Hsel Hfound. unfold Content.executeStep.
  rewrite Hsel, Hfound, Htype. cbn [String.eqb].
  unfold performClick, approach, highlightElement.
  destruct (hasStyle el); cbn.
  - split; [unfold sleep; lia|]. split; [reflexivity|]. split.
    + destruct (scrollThrows el), (clickThrows el); reflexivity.
    + eexists. reflexivity.
  - split; [unfold sleep; lia|]. split; [reflexivity|].
    destruct (scrollThrows el); reflexivity.
Qed.

Lemma click_step_clicks_once_witness :
  type Examples.clickSave = "click"
  /\ completion (Content.executeStep (still Examples.savePage) browserWindow
                   Examples.clickSave 0) = Ok ().
Proof.
  split; [reflexivity|].
  apply (click_step_clicks_once (still Examples.savePage) browserWindow Examples.clickSave
           (textSelector "button" "Save") 0 Examples.saveButton 0);
    [reflexivity | reflexivity | vm_compute; reflexivity].
Defined.

(** X7: An [input] step whose element is found fails in three cases
    only.  The element has no [style] property: the highlight throws and
    the value is not touched.  The element is neither a select nor
    editable content and the native setter that the window offers
    belongs to an interface that the element does not implement.  The
    element is a file upload control, taken as a regular input, and the
    value of the step is not the empty string.  In every other case the
    step succeeds and ends with the dispatch of an event on the
    element. *)
Theorem input_step_failure tl win (step : Step) locator start el t :
  type step = "input" ->
  selector step = Some locator ->
  waitForElement tl locator defaultTimeout start = (Some el, t) ->
  let out := Content.executeStep tl win step start in
  (completion out = Ok ()
   /\ hasStyle el = true
   /\ exists before constructor eventType,
        effects out
        = (before ++ [DispatchEvent (eid el) constructor eventType true false])%list)
  \/ (completion out = Throw "Cannot read properties of undefined (reading 'outline')"
      /\ hasStyle el = false
      /\ List.filter Spec.touchesValue (effects out) = [])
  \/ (completion out = Throw "Illegal invocation"
      /\ tagName el <> "SELECT" /\ isContentEditable el = false
      /\ exists owner, nativeValueSetter win = Some owner /\ implements el owner = false)
  \/ (completion out = Throw filenameError
      /\ tagName el <> "SELECT" /\ isContentEditable el = false
      /\ isFileInput el = true /\ assignsEmptyString (value step) = false).
Proof.
  intros Htype Hsel Hfound. unfold Content.executeStep.
  rewrite Hsel, Hfound, Htype. cbn [String.eqb].
  unfold performInput, approach, highlightElement.
  destruct (hasStyle el) eqn:Hstyle.
  2:{ right. left. cbn. split; [reflexivity|]. split; [reflexivity|].
      destruct (scrollThrows el); reflexivity. }
  set (pre := ((((if scrollThrows el then [] else [ScrollIntoView (eid el)])
                  ++ [Slept 200] ++ [Highlight (eid el)])
                 ++ (if focusThrows el then [] else [Focus (eid el)])))%list).
  destruct (String.eqb_spec (tagName el) "SELECT") as [Hs|Hs].
  { left. cbn [completion effects]. split; [reflexivity|]. split; [reflexivity|].
    exists (pre ++ [AssignValue (eid el) (value step)])%list, "Event", "change".
    now rewrite <- List.app_assoc. }
  destruct (isContentEditable el) eqn:He.
  { left. cbn [completion effects]. split; [reflexivity|]. split; [reflexivity|].
    exists (pre ++ [AssignTextContent (eid el) (value step)])%list, "InputEvent", "input".
    now rewrite <- List.app_assoc. }
  unfold setRegularValue.
  assert (Hrefused : valueSetterRefuses el (value step) = true ->
            isFileInput el = true /\ assignsEmptyString (value step) = false).
  { unfold valueSetterRefuses. intros H. apply andb_prop in H as [H1 H2].
    split; [exact H1|]. now apply negb_true_iff in H2. }
  destruct (nativeValueSetter win) as [owner|] eqn:Hn.
  - destruct (implements el owner) eqn:Hi.
    + destruct (valueSetterRefuses el (value step)) eqn:Hr.
      * right. right. right. cbn [completion effects].
        destruct (Hrefused eq_refl) as [Hfile Hvalue]. now repeat split.
      * left. cbn [completion effects]. split; [reflexivity|]. split; [reflexivity|].
        exists (pre ++ [CallNativeSetter owner (eid el) (value step);
                        DispatchEvent (eid el) "Event" "input" true false;
                        DispatchEvent (eid el) "Event" "change" true false])%list,
               "KeyboardEvent", "keyup".
        now rewrite <- List.app_assoc.
    + right. right. left. cbn [completion effects]. repeat split; try assumption.
      exists owner. auto.
  - destruct (valueSetterRefuses el (value step)) eqn:Hr.
    + right. right. right. cbn [completion effects].
      destruct (Hrefused eq_refl) as [Hfile Hvalue]. now repeat split.
    + left. cbn [completion effects]. split; [reflexivity|]. split; [reflexivity|].
      exists (pre ++ [AssignValue (eid el) (value step);
                      DispatchEvent (eid el) "Event" "input" true false;
                      DispatchEvent (eid el) "Event" "change" true false])%list,
             "KeyboardEvent", "keyup".
      now rewrite <- List.app_assoc.
Qed.

Lemma input_step_failure_witness :
  completion (Content.executeStep (still Examples.signupPage) browserWindow
                Examples.typeEmail 0) = Ok ().
Proof.
  destruct (input_step_failure (still Examples.signupPage) browserWindow Examples.typeEmail
              ("input[name=" ++ q ++ "email" ++ q ++ "]") 0 Examples.emailField 0
              eq_refl eq_refl eq_refl) as [[H _]|[[H _]|[[H _]|[H _]]]].
  - exact H.
  - vm_compute in H. discriminate H.
  - vm_compute in H. discriminate H.
  - vm_compute in H. discriminate H.
Defined.

(** A file upload control refuses the file name that was recorded for
    it, and an element without [style] stops a click before it is
    made. *)
Example input_step_on_file_input :
  completion (Content.executeStep (still Examples.uploadPage) browserWindow
                Examples.typeFileName 0) = Throw filenameError.
Proof. vm_compute. reflexivity. Qed.

Example click_step_on_element_without_style :
  Content.executeStep (still Examples.foreignPage) browserWindow Examples.clickForeign 0
  = {| completion := Throw "Cannot read properties of undefined (reading 'outline')";
       effects := [ScrollIntoView 1; Slept 200];
       settledAt := 200 |}.
Proof. vm_compute. reflexivity. Qed.

(** * Further properties of the capture state *)

Lemma attachToShadowRoots_eq tag shadow kids s :
  Capture.attachToShadowRoots (Capture.Elem tag shadow kids) s
  = Capture.scanAll kids
      match shadow with
      | Some (rid, content) =>
          if decide (rid ∈ Capture.attachedShadowRoots s) then s
          else Capture.scanAll content (Capture.attach rid s)
      | None => s
      end.
Proof.
  assert (Hfix : forall l s0,
            (fix scanAll (l : list Capture.Tree) (s : Capture.State) : Capture.State :=
               match l with
               | [] => s
               | t :: rest => scanAll rest (Capture.attachToShadowRoots t s)
               end) l s0 = Capture.scanAll l s0).
  { induction l as [|t l IH]; intros s0; [reflexivity|]. cbn [Capture.scanAll fold_left].
    now rewrite IH. }
  cbn [Capture.attachToShadowRoots]. rewrite (Hfix kids).
  destruct shadow as [[rid content]|]; [|reflexivity].
  destruct (decide (rid ∈ Capture.attachedShadowRoots s)); [reflexivity|].
  now rewrite (Hfix content).
Qed.

Lemma scanAll_cons t l s :
  Capture.scanAll (t :: l) s = Capture.scanAll l (Capture.attachToShadowRoots t s).
Proof. reflexivity. Qed.

Lemma scanAll_grows l : forall s,
  Capture.attachedShadowRoots s ⊆ Capture.attachedShadowRoots (Capture.scanAll l s).
Proof.
  induction l as [|t l IH]; intros s; [done|]. rewrite scanAll_cons.
  etrans; [apply (attachToShadowRoots_grows t)|apply IH].
Qed.

(** A tree whose reachable shadow roots are all attached is left alone. *)
Lemma scan_of_attached_tree t : forall s,
  (forall r, In r (Capture.lightRoots t) -> r ∈ Capture.attachedShadowRoots s) ->
  Capture.attachToShadowRoots t s = s.
Proof.
  induction t as [tag shadow kids _ IHkids] using Tree_induction. intros s H.
  rewrite attachToShadowRoots_eq.
  assert (Hs : match shadow with
               | Some (rid, content) =>
                   if decide (rid ∈ Capture.attachedShadowRoots s) then s
                   else Capture.scanAll content (Capture.attach rid s)
               | None => s
               end = s).
  { destruct shadow as [[rid content]|]; [|reflexivity].
    destruct (decide (rid ∈ Capture.attachedShadowRoots s)) as [|Hn]; [reflexivity|].
    exfalso. apply Hn, H. cbn. now left. }
  rewrite Hs.
  assert (Hk : forall r, In r (flat_map Capture.lightRoots kids) ->
                         r ∈ Capture.attachedShadowRoots s).
  { intros r Hr. apply H. cbn [Capture.lightRoots]. apply List.in_or_app. now right. }
  clear H Hs. induction IHkids as [|k kids Hk0 _ IH]; [reflexivity|].
  rewrite scanAll_cons, Hk0.
  - apply IH. intros r Hr. apply Hk. cbn [flat_map]. apply List.in_or_app. now right.
  - intros r Hr. apply Hk. cbn [flat_map]. apply List.in_or_app. now left.
Qed.

(** After the scan of a tree its reachable shadow roots are attached. *)
Lemma lightRoots_attached t : forall s r,
  In r (Capture.lightRoots t) ->
  r ∈ Capture.attachedShadowRoots (Capture.attachToShadowRoots t s).
Proof.
  induction t as [tag shadow kids _ IHkids] using Tree_induction. intros s r Hr.
  rewrite attachToShadowRoots_eq. cbn [Capture.lightRoots] in Hr.
  apply List.in_app_or in Hr as [Hr|Hr].
  - apply scanAll_grows.
    destruct shadow as [[rid content]|]; [|destruct Hr].
    destruct Hr as [<-|[]].
    destruct (decide (rid ∈ Capture.attachedShadowRoots s)); [assumption|].
    apply scanAll_grows. cbn. apply elem_of_union. left. now apply elem_of_singleton.
  - set (s0 := match shadow with Some _ => _ | None => s end). clearbody s0.
    revert s0. induction IHkids as [|k kids Hk0 _ IH]; intros s0; [destruct Hr|].
    rewrite scanAll_cons. cbn [flat_map] in Hr. apply List.in_app_or in Hr as [Hr|Hr].
    + apply scanAll_grows. now apply Hk0.
    + now apply IH.
Qed.

(** X8: A second scan of the same tree changes nothing: each shadow root is
    attached once. *)
Theorem rescan_changes_nothing (root : Capture.Tree) (s : Capture.State) :
  Capture.attachToShadowRoots root (Capture.attachToShadowRoots root s)
  = Capture.attachToShadowRoots root s.
Proof. apply scan_of_attached_tree. intros r Hr. now apply lightRoots_attached. Qed.

Lemma NoDup_addEventListener x ls :
  NoDup ls -> NoDup (Capture.addEventListener x ls).
Proof.
  intros H. unfold Capture.addEventListener.
  destruct (decide (x ∈ ls)) as [|Hn]; [assumption|].
  apply NoDup_app. split; [assumption|]. split; [|apply NoDup_singleton].
  intros y Hy Hx. apply list_elem_of_singleton in Hx as ->. contradiction.
Qed.

Lemma NoDup_addAll new : forall ls, NoDup ls -> NoDup (Capture.addAll new ls).
Proof.
  unfold Capture.addAll. induction new as [|x new IH]; intros ls H; [assumption|].
  cbn [fold_left]. now apply IH, NoDup_addEventListener.
Qed.

Lemma NoDup_removeEventListener x ls :
  NoDup ls -> NoDup (Capture.removeEventListener x ls).
Proof.
  unfold Capture.removeEventListener.
  induction 1 as [|y ls Hy Hnd IH]; cbn [List.filter]; [constructor|].
  destruct (negb (bool_decide (y = x))); [|assumption].
  constructor; [|assumption]. intros Hin. apply Hy.
  apply list_elem_of_In in Hin. apply List.filter_In in Hin as [Hin _].
  now apply list_elem_of_In.
Qed.

Lemma NoDup_removeAll old : forall ls, NoDup ls -> NoDup (Capture.removeAll old ls).
Proof.
  unfold Capture.removeAll. induction old as [|x old IH]; intros ls H; [assumption|].
  cbn [fold_left]. now apply IH, NoDup_removeEventListener.
Qed.

(** The registrations of a shadow root are none of the window's or the
    document's. *)
Lemma shadow_registration_not_page r l :
  In l (Capture.registrations (Capture.OnShadowRoot r)) ->
  ~ In l (Capture.registrations Capture.OnWindow)
  /\ ~ In l (Capture.registrations Capture.OnDocument).
Proof.
  intros H. cbn in H.
  repeat (destruct H as [<-|H]; [split; cbn; intuition discriminate|]). destruct H.
Qed.

(** A scan changes the attached roots and the listeners only, and
    keeps the state consistent. *)
Lemma attachToShadowRoots_consistent root s :
  (Capture.isRecording (Capture.attachToShadowRoots root s) = Capture.isRecording s
   /\ Capture.shadowObserver (Capture.attachToShadowRoots root s) = Capture.shadowObserver s
   /\ Capture.observing (Capture.attachToShadowRoots root s) = Capture.observing s
   /\ Capture.indicatorShown (Capture.attachToShadowRoots root s) = Capture.indicatorShown s)
  /\ (Spec.Consistent s -> Spec.Consistent (Capture.attachToShadowRoots root s)).
Proof.
  apply (attachToShadowRoots_keeps
           (fun a b =>
              (Capture.isRecording b = Capture.isRecording a
               /\ Capture.shadowObserver b = Capture.shadowObserver a
               /\ Capture.observing b = Capture.observing a
               /\ Capture.indicatorShown b = Capture.indicatorShown a)
              /\ (Spec.Consistent a -> Spec.Consistent b))).
  - intros a. tauto.
  - intros a b c [(H1 & H2 & H3 & H4) Hab] [(K1 & K2 & K3 & K4) Hbc].
    split; [|tauto]. repeat split; congruence.
  - intros rid a. split; [repeat split|].
    intros (Hnd & Hl & Hobs & Hidle). unfold Spec.Consistent.
    cbn [Capture.attach Capture.isRecording Capture.shadowObserver Capture.observing
         Capture.indicatorShown Capture.listeners Capture.attachedShadowRoots].
    split; [now apply NoDup_addAll|]. split; [|split; assumption].
    intros l. rewrite In_addAll, Hl. split.
    + intros [[Hpage|(r & Hr & Hin)]|Hin].
      * now left.
      * right. exists r. split; [apply elem_of_union; now right|assumption].
      * right. exists rid.
        split; [apply elem_of_union; left; now apply elem_of_singleton|assumption].
    + intros [Hpage|(r & Hr & Hin)].
      * left. now left.
      * apply elem_of_union in Hr as [Hr|Hr].
        -- apply elem_of_singleton in Hr as ->. now right.
        -- left. right. now exists r.
Qed.

Lemma scanAll_consistent l : forall s,
  (Capture.isRecording (Capture.scanAll l s) = Capture.isRecording s
   /\ Capture.shadowObserver (Capture.scanAll l s) = Capture.shadowObserver s
   /\ Capture.observing (Capture.scanAll l s) = Capture.observing s
   /\ Capture.indicatorShown (Capture.scanAll l s) = Capture.indicatorShown s)
  /\ (Spec.Consistent s -> Spec.Consistent (Capture.scanAll l s)).
Proof.
  induction l as [|t l IH]; intros s; [tauto|]. rewrite scanAll_cons.
  destruct (IH (Capture.attachToShadowRoots t s)) as [(H1 & H2 & H3 & H4) H].
  destruct (attachToShadowRoots_consistent t s) as [(K1 & K2 & K3 & K4) K].
  split; [|tauto]. repeat split; congruence.
Qed.

Lemma startRecording_consistent body s :
  Spec.Consistent s -> Spec.Consistent (snd (Capture.startRecording body s)).
Proof.
  intros Hs. unfold Capture.startRecording.
  destruct (Capture.isRecording s) eqn:Hrec; [exact Hs|].
  destruct Hs as (Hnd & Hl & Hobs & Hidle). destruct (Hidle Hrec) as [Hso Hind].
  set (s1 := {| Capture.isRecording := true;
                Capture.shadowObserver := Capture.shadowObserver s;
                Capture.attachedShadowRoots := Capture.attachedShadowRoots s;
                Capture.listeners :=
                  Capture.addAll (Capture.registrations Capture.OnDocument)
                    (Capture.addAll (Capture.registrations Capture.OnWindow)
                       (Capture.listeners s));
                Capture.observing := Capture.observing s;
                Capture.nextObserver := Capture.nextObserver s;
                Capture.indicatorShown := Capture.indicatorShown s |}).
  assert (Hnone : forall h, h ∉ Capture.observing s).
  { intros h Hh. destruct (Hobs h Hh) as [Hr _]. congruence. }
  assert (F1 : Capture.isRecording s1 = true) by reflexivity.
  assert (F3 : Capture.observing s1 = Capture.observing s) by reflexivity.
  assert (Hc1 : Spec.Consistent s1).
  { split; [now apply NoDup_addAll, NoDup_addAll|]. split; [|split].
    - intros l. cbn [s1 Capture.listeners Capture.attachedShadowRoots Capture.isRecording].
      rewrite !In_addAll, Hl, List.in_app_iff. rewrite Hrec.
      split; [|tauto]. intros [[[[Hf _]|H]|H]|H]; [discriminate|tauto..].
    - intros h Hh. now apply Hnone in Hh.
    - discriminate. }
  clearbody s1.
  unfold Capture.observeShadowRoots, Capture.showRecordingIndicator.
  destruct body as [b|]; cbn [snd].
  - destruct (attachToShadowRoots_consistent b s1) as [(K1 & K2 & K3 & K4) Hc2].
    destruct (Hc2 Hc1) as (Hnd2 & Hl2 & _ & _).
    set (s2 := Capture.attachToShadowRoots b s1) in *. clearbody s2.
    assert (Hgoal : forall s3,
              Capture.isRecording s3 = true ->
              Capture.listeners s3 = Capture.listeners s2 ->
              Capture.attachedShadowRoots s3 = Capture.attachedShadowRoots s2 ->
              Capture.shadowObserver s3 = Some (Capture.nextObserver s2) ->
              Capture.observing s3 = {[ Capture.nextObserver s2 ]} ∪ Capture.observing s ->
              Spec.Consistent s3).
    { intros s3 E1 E2 E3 E4 E5.
      unfold Spec.Consistent. rewrite E1, E2, E3, E4, E5.
      split; [exact Hnd2|]. split; [|split].
      - intros l. rewrite Hl2, K1, F1. reflexivity.
      - intros h Hh. apply elem_of_union in Hh as [Hh|Hh].
        + apply elem_of_singleton in Hh as ->. now split.
        + now apply Hnone in Hh.
      - discriminate. }
    match goal with
    | |- Spec.Consistent (if ?c then _ else _) => destruct c eqn:Hc
    end.
    + apply Hgoal; cbn; rewrite ?K1, ?K3, ?F1, ?F3; reflexivity.
    + apply Hgoal; cbn; rewrite ?K1, ?K3, ?F1, ?F3; reflexivity.
  - destruct Hc1 as (Hnd1 & Hl1 & _ & _). unfold Spec.Consistent. cbn.
    rewrite F1, F3.
    split; [exact Hnd1|]. split; [|split].
    + intros l. rewrite Hl1, F1. reflexivity.
    + intros h Hh. now apply Hnone in Hh.
    + discriminate.
Qed.

Lemma stopRecording_consistent s :
  Spec.Consistent s -> Spec.Consistent (Capture.stopRecording s).
Proof.
  intros Hs. destruct (Capture.isRecording s) eqn:Hrec;
    [|now rewrite stopRecording_idle].
  destruct Hs as (Hnd & Hl & Hobs & _).
  assert (Hgoal : forall s2,
            Capture.isRecording s2 = false ->
            Capture.listeners s2
            = Capture.removeAll (Capture.registrations Capture.OnDocument)
                (Capture.removeAll (Capture.registrations Capture.OnWindow)
                   (Capture.listeners s)) ->
            Capture.attachedShadowRoots s2 = Capture.attachedShadowRoots s ->
            Capture.shadowObserver s2 = None ->
            Capture.indicatorShown s2 = false ->
            (forall h, h ∈ Capture.observing s2 ->
                       h ∈ Capture.observing s /\ Capture.shadowObserver s <> Some h) ->
            Spec.Consistent s2).
  { intros s2 E1 E2 E3 E4 E5 E6. unfold Spec.Consistent. rewrite E1, E2, E3, E4, E5.
    split; [now apply NoDup_removeAll, NoDup_removeAll|]. split; [|split].
    - intros l. rewrite !In_removeAll, Hl, List.in_app_iff. split.
      + intros [[[[_ H]|H] Hw] Hd]; [tauto|now right].
      + intros [[Hf _]|(r & Hr & Hin)]; [discriminate|].
        destruct (shadow_registration_not_page r l Hin) as [Hw Hd].
        split; [split|]; [|assumption..]. right. now exists r.
    - intros h Hh. destruct (E6 h Hh) as [Hin Hne]. destruct (Hobs h Hin) as [_ Hso].
      contradiction.
    - tauto. }
  stop_cases s Hrec; apply Hgoal; cbn; try reflexivity; try assumption.
  all: intros h Hh; try (apply elem_of_difference in Hh as [Hin Hne]);
    try (split; [assumption|]; intros Heq; injection Heq as <-;
         apply Hne; now apply elem_of_singleton).
  all: destruct (Hobs h Hh) as [_ Hso]; congruence.
Qed.

Lemma onMutation_consistent added s :
  Spec.Consistent s -> Spec.Consistent (Capture.onMutation added s).
Proof.
  intros Hs. unfold Capture.onMutation.
  destruct (Capture.shadowObserver s) as [h|]; [|exact Hs].
  destruct (decide (h ∈ Capture.observing s)); [|exact Hs].
  now apply (scanAll_consistent added s).
Qed.

(** X10: In every state that the script reaches, what is installed in the page
    agrees with the variables of the script. *)
Theorem reachable_states_consistent (s : Capture.State) :
  Capture.Reachable s -> Spec.Consistent s.
Proof.
  induction 1 as [|body s _ IH|s _ IH|added s _ IH].
  - unfold Spec.Consistent. cbn. split; [constructor|]. split; [|split].
    + intros l. split; [intros []|].
      intros [[Hf _]|(r & Hr & _)]; [discriminate|]. now apply elem_of_empty in Hr.
    + intros h Hh. now apply elem_of_empty in Hh.
    + tauto.
  - now apply startRecording_consistent.
  - now apply stopRecording_consistent.
  - now apply onMutation_consistent.
Qed.

Lemma reachable_states_consistent_witness :
  Capture.Reachable Examples.stopped /\ Spec.Consistent Examples.stopped.
Proof.
  assert (H : Capture.Reachable Examples.stopped).
  { apply Capture.ReachStop. apply Capture.ReachStart. apply Capture.ReachInitial. }
  split; [exact H|]. apply (reachable_states_consistent Examples.stopped H).
Defined.

Lemma scanAll_attaches_nested_roots l :
  Forall (fun t => forall s,
            (forall r, r ∈ Capture.allRoots t -> r ∉ Capture.attachedShadowRoots s) ->
            NoDup (Capture.allRoots t) ->
            Capture.attachedShadowRoots (Capture.attachToShadowRoots t s)
            = Capture.attachedShadowRoots s ∪ list_to_set (Capture.allRoots t)) l ->
  forall s,
    (forall r, r ∈ flat_map Capture.allRoots l -> r ∉ Capture.attachedShadowRoots s) ->
    NoDup (flat_map Capture.allRoots l) ->
    Capture.attachedShadowRoots (Capture.scanAll l s)
    = Capture.attachedShadowRoots s ∪ list_to_set (flat_map Capture.allRoots l).
Proof.
  induction 1 as [|t l Ht _ IH]; intros s Hfresh Hnd.
  - cbn. apply set_eq. intros x. rewrite elem_of_union, elem_of_empty. tauto.
  - rewrite scanAll_cons. cbn [flat_map] in *.
    apply NoDup_app in Hnd as (Hnd1 & Hsep & Hnd2).
    assert (Hone : Capture.attachedShadowRoots (Capture.attachToShadowRoots t s)
                   = Capture.attachedShadowRoots s ∪ list_to_set (Capture.allRoots t)).
    { apply Ht; [|assumption]. intros r Hr. apply Hfresh, elem_of_app. now left. }
    rewrite IH; [| |assumption].
    + rewrite Hone, list_to_set_app_L. apply set_eq. intros x.
      rewrite !elem_of_union. tauto.
    + intros r Hr. rewrite Hone. intros Hin. apply elem_of_union in Hin as [Hin|Hin].
      * revert Hin. apply Hfresh, elem_of_app. now right.
      * apply elem_of_list_to_set in Hin. now apply (Hsep r).
Qed.

(** X9: A scan attaches every shadow root of the tree, also those nested in
    the content of other shadow roots, when the roots of the tree are
    distinct and none of them is attached yet; and it attaches no other. *)
Theorem scan_attaches_nested_roots (t : Capture.Tree) (s : Capture.State) :
  (forall r, r ∈ Capture.allRoots t -> r ∉ Capture.attachedShadowRoots s) ->
  NoDup (Capture.allRoots t) ->
  Capture.attachedShadowRoots (Capture.attachToShadowRoots t s)
  = Capture.attachedShadowRoots s ∪ list_to_set (Capture.allRoots t).
Proof.
  revert s. induction t as [tag shadow kids IHshadow IHkids] using Tree_induction.
  intros s Hfresh Hnd. rewrite attachToShadowRoots_eq. cbn [Capture.allRoots] in *.
  apply NoDup_app in Hnd as (Hnd1 & Hsep & Hnd2).
  destruct shadow as [[rid content]|].
  - destruct (decide (rid ∈ Capture.attachedShadowRoots s)) as [Hin|_].
    { exfalso. revert Hin. apply Hfresh, elem_of_app. left. now left. }
    apply NoDup_cons in Hnd1 as [Hrid Hnd1].
    assert (Hin : Capture.attachedShadowRoots
                    (Capture.scanAll content (Capture.attach rid s))
                  = ({[ rid ]} ∪ Capture.attachedShadowRoots s)
                    ∪ list_to_set (flat_map Capture.allRoots content)).
    { apply (scanAll_attaches_nested_roots content IHshadow (Capture.attach rid s));
        [|assumption].
      intros r Hr. cbn [Capture.attach Capture.attachedShadowRoots].
      intros Hu. apply elem_of_union in Hu as [Hu|Hu].
      - apply elem_of_singleton in Hu as ->. contradiction.
      - revert Hu. apply Hfresh, elem_of_app. left. now right. }
    rewrite (scanAll_attaches_nested_roots kids IHkids); [| |assumption].
    + rewrite Hin, list_to_set_app_L, list_to_set_cons. apply set_eq. intros x.
      rewrite !elem_of_union. tauto.
    + intros r Hr. rewrite Hin. intros Hu.
      apply elem_of_union in Hu as [Hu|Hu]; [apply elem_of_union in Hu as [Hu|Hu]|].
      * apply elem_of_singleton in Hu as ->. apply (Hsep rid); [now left|assumption].
      * revert Hu. apply Hfresh, elem_of_app. now right.
      * apply elem_of_list_to_set in Hu. apply (Hsep r); [now right|assumption].
  - rewrite (scanAll_attaches_nested_roots kids IHkids); [reflexivity| |assumption].
    intros r Hr. apply Hfresh, elem_of_app. now right.
Qed.

Lemma scan_attaches_nested_roots_witness :
  Capture.attachedShadowRoots
    (Capture.attachToShadowRoots Examples.nestedBody Capture.initial)
  = Capture.attachedShadowRoots Capture.initial
    ∪ list_to_set (Capture.allRoots Examples.nestedBody).
Proof.
  apply (scan_attaches_nested_roots Examples.nestedBody Capture.initial).
  - intros r _. apply not_elem_of_empty.
  - apply (bool_decide_unpack _). vm_compute. exact I.
Defined.

(** * Further properties of the orchestrator *)

(** ** The page script in the tab *)

Lemma ensureContentScript_cases chrome tab tr :
  let asked := (tr ++ [Background.Pinged tab])%list in
  (Background.pingAnswer chrome asked tab = Ok true
   /\ Background.ensureContentScript chrome tab tr = (Ok true, asked))
  \/ (Background.pingAnswer chrome asked tab <> Ok true
      /\ Background.executeScript chrome asked tab = Ok ()
      /\ Background.ensureContentScript chrome tab tr
         = (Ok true, (tr ++ [Background.Pinged tab; Background.ScriptInjected tab;
                             Background.Slept 150])%list))
  \/ (Background.pingAnswer chrome asked tab <> Ok true
      /\ (exists e, Background.executeScript chrome asked tab = Throw e)
      /\ Background.ensureContentScript chrome tab tr
         = (Throw "Cannot access this page. Please navigate to a regular website.",
            asked)).
Proof.
  intros asked. unfold Background.ensureContentScript.
  unfold mbind, mret, Background.M_bind, Background.M_ret, Background.catch,
    Background.settle, Background.sleep, Background.emit, Background.throw.
  fold asked.
  destruct (Background.pingAnswer chrome asked tab) as [[|]|e] eqn:Hping.
  - left. split; reflexivity.
  - right. destruct (Background.executeScript chrome asked tab) as [[]|e] eqn:Hinj.
    + left. split; [discriminate|]. split; [reflexivity|].
      unfold asked. now rewrite <- !List.app_assoc.
    + right. split; [discriminate|]. split; [now exists e|]. reflexivity.
  - right. destruct (Background.executeScript chrome asked tab) as [[]|e'] eqn:Hinj.
    + left. split; [discriminate|]. split; [reflexivity|].
      unfold asked. now rewrite <- !List.app_assoc.
    + right. split; [discriminate|]. split; [now exists e'|]. reflexivity.
Qed.

(** X11: [ensureContentScript] never resolves with [false]: it resolves with
    [true] after the ping alone when the page script answers it, and
    after the ping, the injection and 150 ms when it does not and the
    injection succeeds; it throws its one message, the page not
    touched, when the injection fails.  It injects nothing into a page
    whose script answers the ping. *)
Theorem ensureContentScript_outcome chrome tab tr :
  let asked := (tr ++ [Background.Pinged tab])%list in
  match Background.ensureContentScript chrome tab tr with
  | (Ok ready, tr') =>
      ready = true
      /\ match Background.pingAnswer chrome asked tab with
         | Ok true => tr' = asked
         | _ =>
             Background.executeScript chrome asked tab = Ok ()
             /\ tr' = (asked ++ [Background.ScriptInjected tab; Background.Slept 150])%list
         end
  | (Throw message, tr') =>
      message = "Cannot access this page. Please navigate to a regular website."
      /\ tr' = asked
      /\ Background.pingAnswer chrome asked tab <> Ok true
      /\ exists e, Background.executeScript chrome asked tab = Throw e
  end.
Proof.
  intros asked. subst asked.
  destruct (ensureContentScript_cases chrome tab tr)
    as [[Hping ->]|[(Hping & Hinj & ->)|(Hping & Hinj & ->)]]; cbv zeta in *.
  - split; [reflexivity|]. now rewrite Hping.
  - split; [reflexivity|].
    assert (Hshape : (tr ++ [Background.Pinged tab; Background.ScriptInjected tab;
                             Background.Slept 150])%list
                     = ((tr ++ [Background.Pinged tab])
                        ++ [Background.ScriptInjected tab; Background.Slept 150])%list)
      by now rewrite <- List.app_assoc.
    destruct (Background.pingAnswer chrome _ tab) as [[|]|]; [now contradiction Hping|..];
      (split; [assumption|exact Hshape]).
  - repeat split; assumption.
Qed.

(** ** What a step does in the tab *)

Lemma ensureContentScript_events chrome tab tr :
  exists r new,
    Background.ensureContentScript chrome tab tr = (r, (tr ++ new)%list)
    /\ (new = [Background.Pinged tab]
        \/ new = [Background.Pinged tab; Background.ScriptInjected tab;
                  Background.Slept 150]).
Proof.
  destruct (ensureContentScript_cases chrome tab tr)
    as [[_ ->]|[(_ & _ & ->)|(_ & _ & ->)]]; eexists _, _; split;
    try reflexivity; tauto.
Qed.

Ltac unfold_monad :=
  cbv beta iota zeta delta
    [mbind mret Background.M_bind Background.M_ret Background.catch
     Background.settle Background.sleep Background.emit Background.throw
     Background.waitForTabLoad Background.sendStepWithTimeout Background.sendStep].

Ltac may_do :=
  repeat (apply List.Forall_cons; [cbn; auto 10|]); apply List.Forall_nil.

(** Runs a step by cases on the answers of the browser. *)
Ltac run_step :=
  repeat first
    [ match goal with
      | |- context [Background.ensureContentScript ?c ?t ?tr] =>
          let r := fresh "r" in
          let new := fresh "new" in
          let Hrun := fresh "Hrun" in
          let Hnew := fresh "Hnew" in
          destruct (ensureContentScript_events c t tr) as (r & new & Hrun & Hnew);
          rewrite Hrun; clear Hrun; destruct Hnew as [-> | ->]; destruct r
      | |- context [Background.stepAnswer ?c ?tr ?t ?s] =>
          destruct (Background.stepAnswer c tr t s) as [? [[?|]|?]]
      | |- context [Background.tabCompletes ?c ?tr ?t] =>
          destruct (Background.tabCompletes c tr t) as [?|]
      | |- context [if ?b then _ else _] => destruct b eqn:?
      end; cbv beta iota; cbn [snd fst] ].

Ltac trace_done :=
  cbn [snd]; rewrite <- ?List.app_assoc; cbn [app];
  eexists; split; [reflexivity|]; split; [may_do | cbn; lia].

(** X12: Whatever the browser answers, a step does in the tab only what its
    type allows: the timers it starts and the pauses it takes are those
    of its type as well; and it is sent to the page script at most
    twice. *)
Theorem orchestrator_step_events chrome tab (step : Step) tr :
  exists new,
    snd (Background.executeStep chrome tab step tr) = (tr ++ new)%list
    /\ Forall (Spec.MayDo chrome tab step) new
    /\ (Spec.stepsSent new <= 2)%nat.
Proof.
  unfold Background.executeStep.
  destruct (String.eqb_spec (type step) "navigate") as [Hnav|Hnav].
  { destruct (Background.truthyValue (value step)) eqn:Htruthy; cbn [negb orb];
      [|exists []; rewrite List.app_nil_r; repeat split; [constructor | cbn; lia]].
    unfold Background.isValidUrl.
    destruct (Background.isParsableHttpUrl chrome _) eqn:Hvalid; cbn [negb];
      [|exists []; rewrite List.app_nil_r; repeat split; [constructor | cbn; lia]].
    unfold_monad.
    destruct (Background.tabsUpdate chrome tr tab _) as [[]|e];
      [|exists []; rewrite List.app_nil_r; repeat split; [constructor | cbn; lia]].
    run_step; trace_done. }
  destruct (String.eqb (type step) "click" || String.eqb (type step) "input") eqn:Hpage.
  { assert (Hfor : Spec.forPage step).
    { apply orb_true_iff in Hpage as [H|H]; apply String.eqb_eq in H; [now left|now right]. }
    clear Hpage. unfold_monad. run_step; trace_done. }
  assert (Hnot : ~ Spec.forPage step).
  { apply orb_false_iff in Hpage as [H1 H2]. apply String.eqb_neq in H1, H2.
    intros [H|H]; contradiction. }
  clear Hpage. destruct (String.eqb_spec (type step) "wait") as [Hwait|Hwait].
  - unfold_monad. trace_done.
  - unfold_monad. trace_done.
Qed.

(** The same, keeping the answers of the page script. *)
Ltac run_step_eq :=
  repeat first
    [ match goal with
      | |- context [Background.ensureContentScript ?c ?t ?tr] =>
          let r := fresh "r" in
          let new := fresh "new" in
          let Hrun := fresh "Hrun" in
          let Hnew := fresh "Hnew" in
          destruct (ensureContentScript_events c t tr) as (r & new & Hrun & Hnew);
          rewrite Hrun; clear Hrun; destruct r
      | |- context [Background.stepAnswer ?c ?tr ?t ?s] =>
          destruct (Background.stepAnswer c tr t s) as [? [[?|]|?]] eqn:?
      | |- context [if ?b then _ else _] => destruct b eqn:?
      end; cbv beta iota; cbn [snd fst] ].

Lemma forPage_tests (step : Step) :
  Spec.forPage step ->
  String.eqb (type step) "navigate" = false
  /\ String.eqb (type step) "click" || String.eqb (type step) "input" = true.
Proof. intros [H|H]; rewrite H; split; reflexivity. Qed.

(** X13: A step for the page succeeds only when the page script has answered
    its last sending with success: the trace ends with that sending,
    followed by the start of the timer when it is the first sending, and
    the answer has then come before the timer ended; neither a missing
    answer nor the timer makes a success. *)
Theorem page_step_success_is_page_success chrome tab (step : Step) tr tr' :
  Spec.forPage step ->
  Background.executeStep chrome tab step tr = (Ok (), tr') ->
  exists before delay response,
    Background.stepAnswer chrome (before ++ [Background.StepSent tab step])%list tab step
    = (delay, Ok (Some response))
    /\ Background.success response = true
    /\ ((tr' = (before ++ [Background.StepSent tab step; Background.TimerStarted 15000])%list
         /\ (delay < 15000)%Z)
        \/ tr' = (before ++ [Background.StepSent tab step])%list).
Proof.
  intros Hfor. destruct (forPage_tests step Hfor) as [Hnav Hpage].
  unfold Background.executeStep. rewrite Hnav, Hpage. unfold_monad. revert tr'.
  run_step_eq; intros tr' Hrun; try discriminate Hrun;
    try match goal with
        | H : Background.succeeded _ = true |- _ => cbn in H; discriminate H
        end;
    injection Hrun as <-; eexists _, _, _; (split; [eassumption|]);
    (split; [assumption|]);
    first [ right; reflexivity
          | left; split; [now rewrite <- List.app_assoc | lia] ].
Qed.

Lemma page_step_success_is_page_success_witness :
  exists before delay response,
    Background.stepAnswer (Examples.obligingBrowser 40)
      (before ++ [Background.StepSent 3 Examples.clickGo])%list 3 Examples.clickGo
    = (delay, Ok (Some response))
    /\ Background.success response = true
    /\ (([Background.Pinged 3; Background.StepSent 3 Examples.clickGo;
          Background.TimerStarted 15000]
         = (before ++ [Background.StepSent 3 Examples.clickGo;
                       Background.TimerStarted 15000])%list
         /\ (delay < 15000)%Z)
        \/ [Background.Pinged 3; Background.StepSent 3 Examples.clickGo;
            Background.TimerStarted 15000]
           = (before ++ [Background.StepSent 3 Examples.clickGo])%list).
Proof.
  apply (page_step_success_is_page_success (Examples.obligingBrowser 40) 3
           Examples.clickGo []).
  - left. reflexivity.
  - reflexivity.
Defined.

(** X14: A step that the page script has not answered within 15 s fails with
    the message of the timer and is not sent a second time, whatever the
    page script answers later: after the sending the orchestrator has
    only started the timer. *)
Theorem timed_out_step_not_retried chrome tab (step : Step) tr ready tr1 :
  Spec.forPage step ->
  Background.ensureContentScript chrome tab tr = (Ok ready, tr1) ->
  (15000 < fst (Background.stepAnswer chrome
                  (tr1 ++ [Background.StepSent tab step])%list tab step))%Z ->
  Background.executeStep chrome tab step tr
  = (Throw "Step timed out after 15s",
     (tr1 ++ [Background.StepSent tab step; Background.TimerStarted 15000])%list).
Proof.
  intros Hfor Hensure Hlate. destruct (forPage_tests step Hfor) as [Hnav Hpage].
  unfold Background.executeStep. rewrite Hnav, Hpage. unfold_monad. rewrite Hensure.
  cbv beta iota.
  destruct (Background.stepAnswer chrome _ tab step) as [delay settlement].
  cbn [fst] in Hlate. replace (delay <? 15000)%Z with false by lia.
  cbn. now rewrite <- List.app_assoc.
Qed.

Lemma timed_out_step_not_retried_witness :
  Background.executeStep (Examples.obligingBrowser 20000) 3 Examples.clickGo []
  = (Throw "Step timed out after 15s",
     [Background.Pinged 3; Background.StepSent 3 Examples.clickGo;
      Background.TimerStarted 15000]).
Proof.
  apply (timed_out_step_not_retried (Examples.obligingBrowser 20000) 3 Examples.clickGo
           [] true [Background.Pinged 3]).
  - left. reflexivity.
  - reflexivity.
  - cbn. lia.
Defined.

(** ** Replays that are refused *)



(** ** Restricted pages *)

(** X16: [isRestrictedUrl] does not look at the case of the letters of the
    address. *)
Theorem isRestrictedUrl_ignores_case url :
  Background.isRestrictedUrl (Js.toLowerCase url) = Background.isRestrictedUrl url.
Proof.
  unfold Background.isRestrictedUrl. rewrite toLowerCase_idem.
  now destruct url.
Qed.

(** X17: An address whose scheme starts with [http], in any case, is not
    restricted. *)
Theorem web_address_not_restricted url :
  Js.startsWith "http" (Js.toLowerCase url) = true ->
  Background.isRestrictedUrl url = false.
Proof.
  destruct url as [|c r]; [discriminate|]. unfold Js.startsWith.
  cbn [Js.toLowerCase String.prefix]. intros H.
  destruct (ascii_dec "h" (Js.lowerChar c)) as [Hc|]; [|discriminate H].
  unfold Background.isRestrictedUrl. cbn [Js.isEmpty Js.toLowerCase].
  rewrite <- Hc. reflexivity.
Qed.

Lemma web_address_not_restricted_witness :
  Background.isRestrictedUrl "HTTPS://Example.org/" = false.
Proof. apply (web_address_not_restricted "HTTPS://Example.org/"). reflexivity. Defined.

(** * Further properties of the capture of clicks *)

Lemma ancestor_none doc e n :
  Spec.ancestor doc n e = None -> forall m, (n <= m)%nat -> Spec.ancestor doc m e = None.
Proof.
  intros Hn m Hle. induction Hle as [|m _ IH]; [assumption|].
  cbn [Spec.ancestor]. now rewrite IH.
Qed.

Lemma climb_nearest doc element : forall turns d,
  (forall m a, (1 <= m <= d)%nat -> Spec.ancestor doc m element = Some a ->
               Spec.stopsAt a = false) ->
  let chosen := climb doc turns (Spec.ancestor doc (S d) element) element in
  (chosen = element
   /\ forall m a, (1 <= m <= d + turns)%nat -> Spec.ancestor doc m element = Some a ->
                  Spec.stopsAt a = false)
  \/ (exists n, (d < n <= d + turns)%nat
                /\ Spec.ancestor doc n element = Some chosen
                /\ Spec.stopsAt chosen = true
                /\ forall m a, (1 <= m < n)%nat -> Spec.ancestor doc m element = Some a ->
                               Spec.stopsAt a = false).
Proof.
  induction turns as [|turns IH]; intros d Hbelow chosen; subst chosen.
  - left. split; [reflexivity|]. intros m a Hm. apply Hbelow. lia.
  - cbn [climb]. destruct (Spec.ancestor doc (S d) element) as [p|] eqn:Hp.
    + destruct (isClickable p) eqn:Hclick;
        [|destruct (isPointerContainer p) eqn:Hpointer].
      * right. exists (S d). split; [lia|]. split; [assumption|].
        split; [unfold Spec.stopsAt; now rewrite Hclick|].
        intros m a Hm. apply Hbelow. lia.
      * right. exists (S d). split; [lia|]. split; [assumption|].
        split; [unfold Spec.stopsAt; now rewrite Hpointer, orb_true_r|].
        intros m a Hm. apply Hbelow. lia.
      * assert (Hnext : Spec.ancestor doc (S (S d)) element = parentElement doc p).
        { change (Spec.ancestor doc (S (S d)) element)
            with (match Spec.ancestor doc (S d) element with
                  | Some a => parentElement doc a
                  | None => None
                  end).
          now rewrite Hp. }
        rewrite <- Hnext.
        assert (Hbelow' : forall m a, (1 <= m <= S d)%nat ->
                    Spec.ancestor doc m element = Some a -> Spec.stopsAt a = false).
        { intros m a Hm Ha. destruct (Nat.eq_dec m (S d)) as [->|Hne].
          - rewrite Hp in Ha. injection Ha as <-. unfold Spec.stopsAt.
            now rewrite Hclick, Hpointer.
          - apply (Hbelow m); [lia|assumption]. }
        destruct (IH (S d) Hbelow') as [[Hsame Hall]|(n & Hn & Hanc & Hstop & Hall)].
        -- left. split; [assumption|]. intros m a Hm. apply Hall. lia.
        -- right. exists n. split; [lia|]. now repeat split.
    + left. split; [reflexivity|]. intros m a Hm Ha.
      destruct (Nat.le_gt_cases m d) as [Hle|Hgt]; [apply (Hbelow m); [lia|assumption]|].
      rewrite (ancestor_none doc element (S d) Hp m) in Ha by lia. discriminate Ha.
Qed.

(** X18: [getClickableElement] gives the element itself when it is clickable;
    otherwise the nearest of its first five ancestors that is clickable
    or a pointer container, and the element itself when there is none. *)
Theorem getClickableElement_nearest doc element :
  let chosen := getClickableElement doc element in
  if isClickable element then chosen = element
  else
    (chosen = element
     /\ forall m a, (1 <= m <= 5)%nat -> Spec.ancestor doc m element = Some a ->
                    Spec.stopsAt a = false)
    \/ (exists n, (1 <= n <= 5)%nat
                  /\ Spec.ancestor doc n element = Some chosen
                  /\ Spec.stopsAt chosen = true
                  /\ forall m a, (1 <= m < n)%nat -> Spec.ancestor doc m element = Some a ->
                                 Spec.stopsAt a = false).
Proof.
  intros chosen. subst chosen. unfold getClickableElement.
  destruct (isClickable element); [reflexivity|].
  assert (Hnone : forall m a, (1 <= m <= 0)%nat -> Spec.ancestor doc m element = Some a ->
                              Spec.stopsAt a = false) by (intros; lia).
  destruct (climb_nearest doc element 5 0 Hnone) as [H|(n & Hn & H)].
  - left. exact H.
  - right. exists n. split; [lia|exact H].
Qed.

Example click_on_icon_records_button :
  getClickableElement Examples.cardPage Examples.buyIcon = Examples.buyButton.
Proof. reflexivity. Qed.

(** * Further properties of the storage and of the recording *)

(** ** The stored workflows *)

Lemma findIndex_none wanted workflows :
  Background.findIndex wanted workflows = None -> Spec.stored wanted workflows = None.
Proof.
  unfold Spec.stored. induction workflows as [|w rest IH]; [reflexivity|].
  cbn [Background.findIndex List.find].
  destruct (String.eqb (Background.workflowId w) wanted); [discriminate|].
  destruct (Background.findIndex wanted rest); [discriminate|]. intros _. now apply IH.
Qed.

Lemma stored_app wanted a b :
  Spec.stored wanted (a ++ b)
  = match Spec.stored wanted a with Some w => Some w | None => Spec.stored wanted b end.
Proof.
  unfold Spec.stored. induction a as [|w a IH]; [reflexivity|].
  cbn [app List.find]. now destruct (String.eqb (Background.workflowId w) wanted).
Qed.

Lemma stored_saveWorkflow workflow workflows wanted :
  Spec.stored wanted (Background.saveWorkflow workflow workflows)
  = if String.eqb (Background.workflowId workflow) wanted then Some workflow
    else Spec.stored wanted workflows.
Proof.
  unfold Background.saveWorkflow.
  destruct (Background.findIndex (Background.workflowId workflow) workflows)
    as [index|] eqn:Hindex.
  - revert index Hindex. induction workflows as [|w rest IH]; intros index Hindex;
      [discriminate|].
    cbn [Background.findIndex] in Hindex.
    destruct (String.eqb_spec (Background.workflowId w) (Background.workflowId workflow))
      as [Hsame|Hother].
    + injection Hindex as <-. cbn. unfold Spec.stored. cbn [List.find].
      rewrite Hsame.
      now destruct (String.eqb (Background.workflowId workflow) wanted).
    + destruct (Background.findIndex (Background.workflowId workflow) rest) as [i|] eqn:Hi;
        [|discriminate].
      injection Hindex as <-. cbn. unfold Spec.stored in *. cbn [List.find].
      destruct (String.eqb_spec (Background.workflowId w) wanted) as [Hw|Hw].
      * destruct (String.eqb_spec (Background.workflowId workflow) wanted) as [Hv|Hv];
          [congruence|reflexivity].
      * now apply IH.
  - rewrite stored_app.
    destruct (String.eqb_spec (Background.workflowId workflow) wanted) as [Hv|Hv].
    + subst wanted. rewrite (findIndex_none _ _ Hindex). unfold Spec.stored. cbn.
      now rewrite String.eqb_refl.
    + unfold Spec.stored at 2. cbn [List.find].
      apply String.eqb_neq in Hv. rewrite Hv.
      now destruct (Spec.stored wanted workflows).
Qed.

(** X19: After [saveWorkflow], the workflow stored under the id of the saved
    workflow is the saved one, and the workflow stored under any other
    id is the one that was there. *)
Theorem saveWorkflow_lookup workflow workflows :
  Spec.stored (Background.workflowId workflow) (Background.saveWorkflow workflow workflows)
  = Some workflow
  /\ forall wanted,
       wanted <> Background.workflowId workflow ->
       Spec.stored wanted (Background.saveWorkflow workflow workflows)
       = Spec.stored wanted workflows.
Proof.
  split.
  - now rewrite stored_saveWorkflow, String.eqb_refl.
  - intros wanted Hother. rewrite stored_saveWorkflow.
    destruct (String.eqb_spec (Background.workflowId workflow) wanted); congruence.
Qed.

Lemma stored_deleteWorkflow deleted workflows wanted :
  Spec.stored wanted (Background.deleteWorkflow deleted workflows)
  = if String.eqb deleted wanted then None else Spec.stored wanted workflows.
Proof.
  unfold Background.deleteWorkflow, Spec.stored.
  induction workflows as [|w rest IH].
  - cbn. now destruct (String.eqb deleted wanted).
  - cbn [List.filter List.find].
    destruct (String.eqb_spec (Background.workflowId w) deleted) as [Hd|Hd]; cbn [negb].
    + rewrite IH. destruct (String.eqb_spec deleted wanted) as [Hw|Hw]; [reflexivity|].
      destruct (String.eqb_spec (Background.workflowId w) wanted); [congruence|reflexivity].
    + cbn [List.find]. rewrite IH.
      destruct (String.eqb_spec (Background.workflowId w) wanted) as [Hw|Hw]; [|reflexivity].
      destruct (String.eqb_spec deleted wanted); [congruence|reflexivity].
Qed.

(** X20: After [deleteWorkflow], no workflow is stored under the deleted id,
    also when several were, and the workflow stored under any other id
    is the one that was there. *)
Theorem deleteWorkflow_lookup deleted workflows :
  Spec.stored deleted (Background.deleteWorkflow deleted workflows) = None
  /\ forall wanted,
       wanted <> deleted ->
       Spec.stored wanted (Background.deleteWorkflow deleted workflows)
       = Spec.stored wanted workflows.
Proof.
  split.
  - now rewrite stored_deleteWorkflow, String.eqb_refl.
  - intros wanted Hother. rewrite stored_deleteWorkflow.
    destruct (String.eqb_spec deleted wanted); congruence.
Qed.

Lemma findIndex_bound wanted workflows index :
  Background.findIndex wanted workflows = Some index ->
  exists w, workflows !! index = Some w /\ Background.workflowId w = wanted.
Proof.
  revert index. induction workflows as [|w rest IH]; intros index H; [discriminate|].
  cbn [Background.findIndex] in H.
  destruct (String.eqb_spec (Background.workflowId w) wanted) as [Hw|Hw].
  - injection H as <-. now exists w.
  - destruct (Background.findIndex wanted rest) as [i|]; [|discriminate].
    injection H as <-. destruct (IH i eq_refl) as (v & Hv & Hid). now exists v.
Qed.

Lemma map_insert_same_id (workflows : list Background.Workflow) index w workflow :
  workflows !! index = Some w ->
  Background.workflowId w = Background.workflowId workflow ->
  map Background.workflowId (<[index := workflow]> workflows)
  = map Background.workflowId workflows.
Proof.
  revert index. induction workflows as [|v rest IH]; intros index Hv Hid; [discriminate|].
  destruct index as [|index]; cbn in *.
  - injection Hv as ->. now rewrite Hid.
  - f_equal. now apply IH.
Qed.

(** X21: [saveWorkflow] keeps the ids of the stored workflows distinct: it
    replaces the workflow of the same id in its place, and adds a
    workflow of a new id at the end. *)
Theorem saveWorkflow_keeps_ids_distinct workflow workflows :
  NoDup (map Background.workflowId workflows) ->
  NoDup (map Background.workflowId (Background.saveWorkflow workflow workflows))
  /\ (map Background.workflowId (Background.saveWorkflow workflow workflows)
      = if bool_decide (Background.workflowId workflow ∈ map Background.workflowId workflows)
        then map Background.workflowId workflows
        else (map Background.workflowId workflows ++ [Background.workflowId workflow])%list).
Proof.
  intros Hnd. unfold Background.saveWorkflow.
  destruct (Background.findIndex (Background.workflowId workflow) workflows)
    as [index|] eqn:Hindex.
  - destruct (findIndex_bound _ _ _ Hindex) as (w & Hw & Hid).
    rewrite (map_insert_same_id workflows index w workflow Hw Hid).
    split; [assumption|].
    rewrite bool_decide_eq_true_2; [reflexivity|].
    rewrite <- Hid. apply list_elem_of_fmap. exists w. split; [reflexivity|].
    now apply list_elem_of_lookup_2 in Hw.
  - assert (Hnew : Background.workflowId workflow ∉ map Background.workflowId workflows).
    { intros Hin. apply list_elem_of_fmap in Hin as (w & Hid & Hin).
      apply findIndex_none in Hindex. unfold Spec.stored in Hindex.
      apply list_elem_of_In in Hin.
      apply (List.find_none _ _ Hindex) in Hin. rewrite <- Hid, String.eqb_refl in Hin.
      discriminate Hin. }
    rewrite List.map_app. cbn [map].
    split; [|now rewrite bool_decide_eq_false_2].
    apply NoDup_app. split; [assumption|]. split; [|apply NoDup_singleton].
    intros x Hx Hx'. apply list_elem_of_singleton in Hx' as ->. contradiction.
Qed.

Lemma saveWorkflow_keeps_ids_distinct_witness :
  NoDup (map Background.workflowId
           (Background.saveWorkflow
              {| Background.workflowId := "w1"; Background.steps := [];
                 Background.slowMode := true |}
              (Background.storedWorkflows Examples.failingBrowser))).
Proof.
  apply (saveWorkflow_keeps_ids_distinct
           {| Background.workflowId := "w1"; Background.steps := [];
              Background.slowMode := true |}
           (Background.storedWorkflows Examples.failingBrowser)).
  apply (bool_decide_unpack _). vm_compute. exact I.
Defined.

(** X22: A replay of the id of a workflow that has just been saved runs the
    steps of the saved workflow in the active tab, whatever was stored
    under that id before. *)
Theorem replay_of_saved_workflow chrome workflow tab tr :
  Background.steps workflow <> [] ->
  Background.activeTab chrome = Some tab ->
  Background.isRestrictedUrl (Background.url tab) = false ->
  Background.handlePlayWorkflow
    (Spec.withWorkflows
       (Background.saveWorkflow workflow (Background.storedWorkflows chrome)) chrome)
    (Background.workflowId workflow) tr
  = Background.playFrom
      (Spec.withWorkflows
         (Background.saveWorkflow workflow (Background.storedWorkflows chrome)) chrome)
      (Background.tabId tab)
      (if Background.slowMode workflow then 1500 else 300)%Z 0
      (Background.steps workflow) tr.
Proof.
  intros Hsteps Htab Hpage. unfold Background.handlePlayWorkflow.
  cbn [Spec.withWorkflows Background.storedWorkflows Background.activeTab].
  rewrite Htab.
  pose proof (stored_saveWorkflow workflow (Background.storedWorkflows chrome)
                (Background.workflowId workflow)) as Hfound.
  rewrite String.eqb_refl in Hfound. unfold Spec.stored in Hfound. rewrite Hfound.
  destruct (Background.steps workflow) as [|first rest] eqn:Hs; [contradiction|].
  cbn [length Nat.eqb]. now rewrite Hpage.
Qed.

Lemma replay_of_saved_workflow_witness :
  Background.handlePlayWorkflow
    (Spec.withWorkflows
       (Background.saveWorkflow
          {| Background.workflowId := "w1"; Background.steps := [Examples.clickGo];
             Background.slowMode := true |}
          (Background.storedWorkflows Examples.failingBrowser))
       Examples.failingBrowser) "w1" []
  = Background.playFrom
      (Spec.withWorkflows
         (Background.saveWorkflow
            {| Background.workflowId := "w1"; Background.steps := [Examples.clickGo];
               Background.slowMode := true |}
            (Background.storedWorkflows Examples.failingBrowser))
         Examples.failingBrowser)
      3 1500 0 [Examples.clickGo] [].
Proof.
  apply (replay_of_saved_workflow Examples.failingBrowser
           {| Background.workflowId := "w1"; Background.steps := [Examples.clickGo];
              Background.slowMode := true |}
           {| Background.tabId := 3; Background.url := "https://example.org/" |} []).
  - discriminate.
  - reflexivity.
  - reflexivity.
Defined.

(** X23: A replay of the id of a workflow that has just been deleted is
    refused, and nothing is done in the tab. *)
Theorem replay_of_deleted_workflow chrome wanted tr :
  Background.handlePlayWorkflow
    (Spec.withWorkflows
       (Background.deleteWorkflow wanted (Background.storedWorkflows chrome)) chrome)
    wanted tr
  = (Throw "Workflow not found", tr).
Proof.
  unfold Background.handlePlayWorkflow. cbn [Spec.withWorkflows Background.storedWorkflows].
  pose proof (stored_deleteWorkflow wanted (Background.storedWorkflows chrome) wanted)
    as Hgone.
  rewrite String.eqb_refl in Hgone. unfold Spec.stored in Hgone. now rewrite Hgone.
Qed.

(** ** The recording in progress *)

Lemma handleRecordStep_recording step tabId recorded tab :
  Background.handleRecordStep step tabId
    {| Background.isRecording := true; Background.currentWorkflow := Some recorded;
       Background.recordingTabId := Some tab |}
  = {| Background.isRecording := true;
       Background.currentWorkflow :=
         Some (if Background.differs tabId (Some tab) then recorded
               else (recorded ++ [step])%list);
       Background.recordingTabId := Some tab |}.
Proof.
  unfold Background.handleRecordStep.
  cbn [Background.isRecording Background.currentWorkflow Background.recordingTabId].
  now destruct (Background.differs tabId (Some tab)).
Qed.

(** X24: While a recording is in progress in a tab, the steps that arrive
    from that tab are added to the workflow in the order of their
    arrival; those of other tabs and those without tab are dropped; the
    three variables are otherwise as they were. *)
Theorem recorded_steps_in_order_of_arrival
    (arrivals : list (Step * option nat)) (r : Background.Recorder) recorded tab :
  Background.isRecording r = true ->
  Background.currentWorkflow r = Some recorded ->
  Background.recordingTabId r = Some tab ->
  fold_left (fun acc arrival => Background.handleRecordStep (fst arrival) (snd arrival) acc)
    arrivals r
  = {| Background.isRecording := true;
       Background.currentWorkflow :=
         Some (recorded
               ++ map fst (List.filter (fun arrival =>
                                          bool_decide (snd arrival = Some tab)) arrivals))%list;
       Background.recordingTabId := Some tab |}.
Proof.
  destruct r as [rec cur rtab]. cbn. intros -> -> ->.
  revert recorded. induction arrivals as [|[step tabId] rest IH]; intros recorded.
  - cbn. now rewrite List.app_nil_r.
  - cbn [fold_left fst snd List.filter]. rewrite handleRecordStep_recording, IH.
    f_equal. f_equal. destruct tabId as [t|]; cbn [Background.differs].
    + destruct (Nat.eqb_spec t tab) as [->|Hne]; cbn [negb].
      * rewrite bool_decide_eq_true_2 by reflexivity. cbn [map fst].
        now rewrite <- List.app_assoc.
      * rewrite bool_decide_eq_false_2 by congruence. reflexivity.
    + rewrite bool_decide_eq_false_2 by discriminate. reflexivity.
Qed.

Lemma recorded_steps_in_order_of_arrival_witness :
  fold_left (fun acc arrival => Background.handleRecordStep (fst arrival) (snd arrival) acc)
    [ (Examples.clickGo, Some 3%nat); (Examples.clickSave, Some 5%nat);
      (Examples.hoverStep, None); (Examples.clickSave, Some 3%nat) ]
    {| Background.isRecording := true; Background.currentWorkflow := Some [];
       Background.recordingTabId := Some 3%nat |}
  = {| Background.isRecording := true;
       Background.currentWorkflow := Some [Examples.clickGo; Examples.clickSave];
       Background.recordingTabId := Some 3%nat |}.
Proof.
  apply (recorded_steps_in_order_of_arrival
           [ (Examples.clickGo, Some 3%nat); (Examples.clickSave, Some 5%nat);
             (Examples.hoverStep, None); (Examples.clickSave, Some 3%nat) ]
           {| Background.isRecording := true; Background.currentWorkflow := Some [];
              Background.recordingTabId := Some 3%nat |} [] 3%nat);
    reflexivity.
Defined.

(** ** The alarms of the health checks *)

Lemma prefix_app (p s : string) : String.prefix p (p ++ s) = true.
Proof.
  induction p as [|c p IH]; [now destruct s|].
  rewrite append_cons. cbn [String.prefix].
  now destruct (ascii_dec c c).
Qed.

Lemma replace_eq (p r s : string) :
  Background.replace p r s
  = match stripPrefix p s with
    | Some rest => r ++ rest
    | None =>
        match s with
        | EmptyString => EmptyString
        | String c s' => String c (Background.replace p r s')
        end
    end.
Proof. destruct s; reflexivity. Qed.

Lemma replace_prefix (p r s : string) : Background.replace p r (p ++ s) = r ++ s.
Proof. now rewrite replace_eq, stripPrefix_app. Qed.

(** X25: The listener of the alarms runs the health check of the workflow
    that the alarm was created for, whatever its id, also an id that
    holds the prefix of the alarm names again. *)
Theorem alarm_names_round_trip workflowId :
  Background.alarmWorkflow (Background.alarmName workflowId) = Some workflowId.
Proof.
  unfold Background.alarmWorkflow, Background.alarmName, Js.startsWith.
  now rewrite prefix_app, replace_prefix.
Qed.

(** * The orchestrator and the page script together *)

Lemma page_answer_relayed tl win clock chrome tab (step : Step) tr :
  Spec.forPage step ->
  let sent := (tr ++ [Background.Pinged tab; Background.StepSent tab step])%list in
  let out := Content.executeStep tl win step (clock sent) in
  (settledAt out - clock sent < 15000)%Z ->
  (forall m, completion out = Throw m ->
             Background.includes "Receiving end does not exist"
               (if Js.truthy m then m else "Unknown error") = false) ->
  Background.executeStep (Spec.withPageScript tl win clock chrome) tab step tr
  = (answerExecuteStep out, (sent ++ [Background.TimerStarted 15000])%list).
Proof.
  intros Hfor sent out Hintime Hmessage.
  destruct (forPage_tests step Hfor) as [Hnav Hpage].
  unfold Background.executeStep. rewrite Hnav, Hpage.
  unfold Background.ensureContentScript. unfold_monad.
  cbn [Spec.withPageScript Background.pingAnswer Background.stepAnswer].
  replace ((tr ++ [Background.Pinged tab]) ++ [Background.StepSent tab step])%list
    with sent by (unfold sent; now rewrite <- List.app_assoc).
  fold out. replace (settledAt out - clock sent <? 15000)%Z with true by lia.
  unfold answerExecuteStep.
  destruct (completion out) as [[]|m] eqn:Hout; cbn; [reflexivity|].
  specialize (Hmessage m eq_refl).
  assert (Hmsg : Js.truthy (if Js.truthy m then m else "Unknown error") = true)
    by (destruct (Js.truthy m) eqn:E; [exact E | reflexivity]).
  set (msg := if Js.truthy m then m else "Unknown error") in *.
  rewrite Hmsg, Hmessage. reflexivity.
Qed.

Section AbsentElement.

Variable tl : Timeline.
Variable selectors : list string.
Variable timeout start : Z.
Variable late : nat.

Hypothesis never : forall t, resolveFirst (documentAt tl t) selectors = None.
Hypothesis punctual : forall t, (lateness tl t <= late)%nat.

(** When nothing is ever resolved the loop gives up after the timeout and
    before one more period and the lateness of one timer have passed. *)
Lemma waitLoop_gives_up : forall fuel now,
  Spec.covers timeout start fuel now ->
  (now - start < Z.max 0 timeout + 100 + Z.of_nat late)%Z ->
  exists t, waitLoop tl selectors timeout start fuel now = Some (None, t)
    /\ (timeout <= t - start < Z.max 0 timeout + 100 + Z.of_nat late)%Z.
Proof.
  unfold Spec.covers. induction fuel as [|fuel IH]; intros now [Hpos Hc] Hnow; [lia|].
  cbn [waitLoop]. destruct (Z.ltb_spec (now - start) timeout) as [Hlt|Hge].
  - rewrite never. pose proof (punctual now) as Hl.
    apply IH; unfold sleep; lia.
  - exists now. split; [reflexivity|]. lia.
Qed.

End AbsentElement.

(** X26: A step whose element is in the page at no instant is reported to the
    orchestrator as [Element not found] with its locator, and not as
    timed out, when the timers of the page are less than 4900 ms late
    and the message does not read as a lost connection: the step is then
    sent once, and the timer that the answer races is started after
    it. *)
Theorem absent_element_reported_to_orchestrator
    tl win clock chrome tab (step : Step) locator tr :
  Spec.forPage step ->
  selector step = Some locator ->
  (forall t alt el, In alt (Spec.alternatives locator) ->
                    ~ Spec.VisibleMatch (documentAt tl t) alt el) ->
  (forall t, (lateness tl t < 4900)%nat) ->
  Background.includes "Receiving end does not exist" ("Element not found: " ++ locator)
  = false ->
  Background.executeStep (Spec.withPageScript tl win clock chrome) tab step tr
  = (Throw ("Element not found: " ++ locator),
     (tr ++ [Background.Pinged tab; Background.StepSent tab step;
             Background.TimerStarted 15000])%list).
Proof.
  intros Hfor Hsel Hnone Hlate Hmessage.
  set (sent := (tr ++ [Background.Pinged tab; Background.StepSent tab step])%list).
  assert (Hout : exists t,
             Content.executeStep tl win step (clock sent)
             = {| completion := Throw ("Element not found: " ++ locator);
                  effects := []; settledAt := t |}
             /\ (t - clock sent < 15000)%Z).
  { unfold Content.executeStep, waitForElement. rewrite Hsel.
    destruct (waitLoop_gives_up tl (map Js.trim (Js.split "," locator)) defaultTimeout
                (clock sent) 4899
                (fun t => resolveFirst_none (documentAt tl t) _ (Hnone t))
                (fun t => proj1 (Nat.lt_succ_r _ _) (Hlate t))
                (pollBudget defaultTimeout) (clock sent)
                (pollBudget_covers defaultTimeout (clock sent)))
      as (t & -> & Ht); [unfold defaultTimeout; lia|].
    exists t. split; [reflexivity|]. unfold defaultTimeout in Ht. lia. }
  destruct Hout as (t & Hout & Ht).
  rewrite (page_answer_relayed tl win clock chrome tab step tr Hfor); fold sent;
    rewrite Hout; cbn [settledAt completion].
  - unfold sent. now rewrite <- List.app_assoc.
  - exact Ht.
  - intros m [= <-]. exact Hmessage.
Qed.

Lemma absent_element_reported_to_orchestrator_witness :
  Background.executeStep
    (Spec.withPageScript (still Examples.emptyPage) browserWindow (fun _ => 0%Z)
       Examples.failingBrowser)
    3 {| type := "click"; selector := Some "#gone"; value := JsNull |} []
  = (Throw "Element not found: #gone",
     [Background.Pinged 3;
      Background.StepSent 3 {| type := "click"; selector := Some "#gone"; value := JsNull |};
      Background.TimerStarted 15000]).
Proof.
  apply (absent_element_reported_to_orchestrator (still Examples.emptyPage) browserWindow
           (fun _ => 0%Z) Examples.failingBrowser 3
           {| type := "click"; selector := Some "#gone"; value := JsNull |} "#gone" []).
  - left. reflexivity.
  - reflexivity.
  - intros t alt el [<-|[]] [_ (l & Hl & Hin)].
    cbn in Hl. inversion Hl; subst. exact Hin.
  - intros t. cbn. lia.
  - reflexivity.
Defined.

(** X27: A [click] step whose element the page script finds and reaches
    within 15 s of the sending succeeds for the orchestrator, which has
    sent it once and started the timer that the answer races, when the
    element has a [style] property, so that the highlight does not
    throw. *)
Theorem found_element_click_succeeds
    tl win clock chrome tab (step : Step) locator tr el t :
  type step = "click" ->
  selector step = Some locator ->
  let sent := (tr ++ [Background.Pinged tab; Background.StepSent tab step])%list in
  waitForElement tl locator defaultTimeout (clock sent) = (Some el, t) ->
  hasStyle el = true ->
  (sleep tl t 200 - clock sent < 15000)%Z ->
  Background.executeStep (Spec.withPageScript tl win clock chrome) tab step tr
  = (Ok (), (sent ++ [Background.TimerStarted 15000])%list).
Proof.
  intros Htype Hsel sent Hfound Hstyle Hintime.
  assert (Hout : completion (Content.executeStep tl win step (clock sent)) = Ok ()
                 /\ settledAt (Content.executeStep tl win step (clock sent))
                    = sleep tl t 200).
  { unfold Content.executeStep. rewrite Hsel, Hfound, Htype. cbn [String.eqb].
    unfold performClick, approach, highlightElement. rewrite Hstyle. cbn.
    split; reflexivity. }
  destruct Hout as [Hok Hat].
  rewrite (page_answer_relayed tl win clock chrome tab step tr); fold sent.
  - unfold answerExecuteStep. now rewrite Hok.
  - now left.
  - now rewrite Hat.
  - intros m Hm. rewrite Hok in Hm. discriminate Hm.
Qed.

Lemma found_element_click_succeeds_witness :
  Background.executeStep
    (Spec.withPageScript (still Examples.savePage) browserWindow (fun _ => 0%Z)
       Examples.failingBrowser)
    3 Examples.clickSave []
  = (Ok (), [Background.Pinged 3; Background.StepSent 3 Examples.clickSave;
             Background.TimerStarted 15000]).
Proof.
  apply (found_element_click_succeeds (still Examples.savePage) browserWindow
           (fun _ => 0%Z) Examples.failingBrowser 3 Examples.clickSave
           (textSelector "button" "Save") [] Examples.saveButton 0).
  - reflexivity.
  - reflexivity.
  - vm_compute. reflexivity.
  - reflexivity.
  - vm_compute. reflexivity.
Defined.

(** * The tab to record in *)

(** X28: The tab that [findValidTab] picks is a tab of the window other than
    the excluded one and its address is not restricted, however the
    sort orders the candidates; it picks none only when the window has
    no such tab. *)
Theorem findValidTab_picks_valid_tab sorted tabs excludeTabId :
  (forall l t, In t (sorted l) <-> In t l) ->
  match Background.findValidTab sorted tabs excludeTabId with
  | Some t =>
      In t tabs /\ Background.tabId t <> excludeTabId
      /\ Background.isRestrictedUrl (Background.url t) = false
  | None =>
      forall t, In t tabs ->
                Background.tabId t = excludeTabId
                \/ Background.isRestrictedUrl (Background.url t) = true
  end.
Proof.
  intros Hsorted. unfold Background.findValidTab.
  set (valid := fun t : Background.Tab =>
                  negb (Background.tabId t =? excludeTabId)%nat
                  && negb (Background.isRestrictedUrl (Background.url t))
                  && Js.truthy (Background.url t)).
  assert (Hvalid : forall t, valid t = true <->
                     Background.tabId t <> excludeTabId
                     /\ Background.isRestrictedUrl (Background.url t) = false).
  { intros t. unfold valid. rewrite !andb_true_iff, !negb_true_iff, Nat.eqb_neq.
    split; [tauto|]. intros [Hid Hurl]. repeat split; try assumption.
    unfold Background.isRestrictedUrl in Hurl. unfold Js.truthy.
    now destruct (Js.isEmpty (Background.url t)). }
  destruct (List.filter valid tabs) as [|first rest] eqn:Hfilter; cbn [length Nat.eqb].
  - intros t Hin.
    destruct (Nat.eq_dec (Background.tabId t) excludeTabId) as [|Hid]; [now left|].
    destruct (Background.isRestrictedUrl (Background.url t)) eqn:Hurl; [now right|].
    assert (Hin' : In t (List.filter valid tabs))
      by (apply List.filter_In; split; [assumption|now apply Hvalid]).
    rewrite Hfilter in Hin'. destruct Hin'.
  - destruct (sorted (first :: rest)) as [|t l] eqn:Hs; cbn [head].
    + assert (Hin : In first (sorted (first :: rest))) by (apply Hsorted; now left).
      rewrite Hs in Hin. destruct Hin.
    + assert (Hin : In t (List.filter valid tabs)).
      { rewrite Hfilter. apply Hsorted. rewrite Hs. now left. }
      apply List.filter_In in Hin as [Hin Hv]. apply Hvalid in Hv. tauto.
Qed.

Lemma findValidTab_picks_valid_tab_witness :
  match Background.findValidTab (@rev Background.Tab)
          [ {| Background.tabId := 1; Background.url := "chrome://extensions" |};
            {| Background.tabId := 2; Background.url := "https://example.org/" |};
            {| Background.tabId := 3; Background.url := "https://example.com/" |} ] 3 with
  | Some t =>
      In t [ {| Background.tabId := 1; Background.url := "chrome://extensions" |};
             {| Background.tabId := 2; Background.url := "https://example.org/" |};
             {| Background.tabId := 3; Background.url := "https://example.com/" |} ]
      /\ Background.tabId t <> 3%nat
      /\ Background.isRestrictedUrl (Background.url t) = false
  | None =>
      forall t,
        In t [ {| Background.tabId := 1; Background.url := "chrome://extensions" |};
               {| Background.tabId := 2; Background.url := "https://example.org/" |};
               {| Background.tabId := 3; Background.url := "https://example.com/" |} ] ->
        Background.tabId t = 3%nat \/ Background.isRestrictedUrl (Background.url t) = true
  end.
Proof.
  apply (findValidTab_picks_valid_tab (@rev Background.Tab)
           [ {| Background.tabId := 1; Background.url := "chrome://extensions" |};
             {| Background.tabId := 2; Background.url := "https://example.org/" |};
             {| Background.tabId := 3; Background.url := "https://example.com/" |} ] 3).
  intros l t. symmetry. apply List.in_rev.
Defined.
